(** * Notes application: gateway, coordinator, list views and creation form

    A shallow embedding of the client-side code of the notes application
    (src/data/noteApi.js, the coordinator script index.js, the two list
    views, the item view, the creation form and helper/helperLoading.js)
    together with
    the properties of its refresh protocol and of its error handling.

    JavaScript strings are modelled by [string]: one [ascii] stands for one
    code unit below 256.  JavaScript numbers that the code handles (status
    codes, lengths, the character counter) are integers and are modelled
    by [Z]. *)

From Stdlib Require Import String Ascii List ZArith NArith Bool Lia.
From Stdlib Require DecimalString.
Import ListNotations.
Local Open Scope string_scope.
Set Warnings "-register-all".


(** ** Values, errors and outcomes *)

(** A decoded JSON value, plus [undefined] for a property that is absent. *)
Inductive jsval : Type :=
| JUndefined
| JNull
| JBool (b : bool)
| JNum (z : Z)
| JStr (s : string)
| JArr (elems : list jsval)
| JObj (fields : list (string * jsval)).

(** An exception object: [error.name] and [error.message]. *)
Record js_error : Type := mkError { name : string; message : string }.

(** [new Error(msg)] *)
Definition Error (msg : string) : js_error := mkError "Error" msg.
Definition TypeError (msg : string) : js_error := mkError "TypeError" msg.
Definition SyntaxError (msg : string) : js_error := mkError "SyntaxError" msg.
(** The DOMException with which an aborted [fetch] rejects. *)
Definition AbortError : js_error :=
  mkError "AbortError" "signal is aborted without reason".

(** How a call (or a promise) ends. *)
Inductive outcome (A : Type) : Type :=
| Returned (a : A)
| Thrown (e : js_error).
Arguments Returned {A} a.
Arguments Thrown {A} e.

(** [hay.includes(needle)] *)
Fixpoint includes (hay needle : string) : bool :=
  if String.prefix needle hay then true
  else match hay with
       | EmptyString => false
       | String _ rest => includes rest needle
       end.

(** Own property lookup on a decoded object. *)
Fixpoint lookup (key : string) (fields : list (string * jsval)) : jsval :=
  match fields with
  | [] => JUndefined
  | (k, v) :: rest => if String.eqb k key then v else lookup key rest
  end.

(** ** The platform: requests, responses and the network *)

(** What a handler passes along: a note id, or the [{title, body}] object of
    a creation request. *)
Inductive note_data : Type :=
| NoteId (id : string)
| NoteRequest (title body : string).

(** [`${noteId}`] *)
Definition template (d : note_data) : string :=
  match d with
  | NoteId id => id
  | NoteRequest _ _ => "[object Object]"
  end.

(** The [options] argument of [fetchWithTimeout].  The text produced by
    [JSON.stringify(note)] is kept as the value it encodes. *)
Record fetch_options : Type := mkOptions {
  method : option string;
  headers : list (string * string);
  body : option note_data
}.

(** [options = {}] *)
Definition no_options : fetch_options := mkOptions None [] None.

(** One call of [fetch(url, fetchOption)]; [signal] tells whether the abort
    controller's signal is attached. *)
Record request : Type := mkRequest {
  url : string;
  init : fetch_options;
  signal : bool
}.

(** What [response.json()] would make of the response body. *)
Inductive response_body : Type :=
| JsonBody (v : jsval)             (* the body parses to [v] *)
| MalformedBody (msg : string)     (* rejects with a SyntaxError *)
| BrokenBody (msg : string).       (* the stream fails: TypeError *)

Record response : Type := mkResponse {
  status : Z;
  payload : response_body
}.

(** What the network does with one request when nobody aborts it.
    Latencies are in milliseconds. *)
Inductive net_behaviour : Type :=
| Responds (latency : N) (r : response)
| Fails (latency : N) (msg : string)      (* network error: TypeError *)
| Hangs.                                  (* no answer, ever *)

Inductive fetch_result : Type :=
| Resolved (r : response)
| Rejected (e : js_error).

(** A timer armed for [ms] milliseconds that aborts the request fires
    before an answer that takes longer than [ms]. *)
Definition aborted (timer : option N) (rq : request) (latency : N) : bool :=
  match timer with
  | Some ms => signal rq && (ms <? latency)%N
  | None => false
  end.

(** How the promise returned by [fetch] settles; [None] when it never
    does. *)
Definition fetch_settles (timer : option N) (rq : request) (b : net_behaviour)
  : option fetch_result :=
  match b with
  | Responds latency r =>
      if aborted timer rq latency then Some (Rejected AbortError)
      else Some (Resolved r)
  | Fails latency msg =>
      if aborted timer rq latency then Some (Rejected AbortError)
      else Some (Rejected (TypeError msg))
  | Hangs =>
      match timer with
      | Some _ => if signal rq then Some (Rejected AbortError) else None
      | None => None
      end
  end.

(** [await response.json()] *)
Definition read_json (r : response) : outcome jsval :=
  match payload r with
  | JsonBody v => Returned v
  | MalformedBody msg => Thrown (SyntaxError msg)
  | BrokenBody msg => Thrown (TypeError msg)
  end.

(** [const { data } = v] *)
Definition destructure_data (v : jsval) : outcome jsval :=
  match v with
  | JUndefined =>
      Thrown (TypeError "Cannot destructure property 'data' of '(intermediate value)' as it is undefined.")
  | JNull =>
      Thrown (TypeError "Cannot destructure property 'data' of '(intermediate value)' as it is null.")
  | JObj fields => Returned (lookup "data" fields)
  | _ => Returned JUndefined
  end.

(** ** Gateway programs

    The code of [NoteApi] as a tree of the platform calls it makes.  Every
    [await] of the source is a node with a continuation. *)

Inductive gw (A : Type) : Type :=
| GRet (a : A)
| GThrow (e : js_error)
| GSetTimeout (ms : N) (k : gw A)     (* setTimeout(() => controller.abort(), ms) *)
| GClearTimeout (k : gw A)            (* clearTimeout(timeoutId) *)
| GFetch (rq : request) (k : fetch_result -> gw A)
| GReadJson (r : response) (k : outcome jsval -> gw A).
Arguments GRet {A} a.
Arguments GThrow {A} e.
Arguments GSetTimeout {A} ms k.
Arguments GClearTimeout {A} k.
Arguments GFetch {A} rq k.
Arguments GReadJson {A} r k.

(** [try { p } catch (error) { h error }] *)
Fixpoint gtry {A : Type} (p : gw A) (h : js_error -> gw A) : gw A :=
  match p with
  | GRet a => GRet a
  | GThrow e => h e
  | GSetTimeout ms k => GSetTimeout ms (gtry k h)
  | GClearTimeout k => GClearTimeout (gtry k h)
  | GFetch rq k => GFetch rq (fun fr => gtry (k fr) h)
  | GReadJson r k => GReadJson r (fun jr => gtry (k jr) h)
  end.

(** [await fetch(url, fetchOption)] *)
Definition await_fetch {A : Type} (rq : request) (k : response -> gw A) : gw A :=
  GFetch rq (fun fr =>
    match fr with
    | Resolved r => k r
    | Rejected e => GThrow e
    end).

(** [await response.json()] *)
Definition await_json {A : Type} (r : response) (k : jsval -> gw A) : gw A :=
  GReadJson r (fun jr =>
    match jr with
    | Returned v => k v
    | Thrown e => GThrow e
    end).

(** What a gateway call returns: the decoded [data], or the response. *)
Inductive gw_value : Type :=
| Data (d : jsval)
| Handle (r : response).

Definition is_method (m : string) (options : fetch_options) : bool :=
  match method options with
  | Some m' => String.eqb m' m
  | None => false
  end.

Module NoteApi.

Definition BASE_URL : string := "https://notes-api.dicoding.dev/v2".

(** noteApi.js, lines 13-44. *)
Definition fetchWithTimeout (url : string) (options : fetch_options)
  : gw gw_value :=
  gtry
    (GSetTimeout 5000
      (let fetchOption := mkRequest url options true in
       await_fetch fetchOption (fun response =>
       GClearTimeout
         (if (status response <? 200)%Z || (status response >? 300)%Z
          then GThrow (Error "Something went wrong")
          else if is_method "DELETE" options || is_method "POST" options
          then GRet (Handle response)
          else await_json response (fun v =>
               match destructure_data v with
               | Returned data => GRet (Data data)
               | Thrown e => GThrow e
               end)))))
    (fun error =>
       if String.eqb (name error) "AbortError"
       then GThrow (Error "Error: Request took longer than 5 seconds")
       else GThrow error).

(** The [catch] block shared by the six operations. *)
Definition rethrow (error : js_error) : gw gw_value :=
  if includes (message error) "Request took longer"
  then GThrow error
  else GThrow (Error "Something is error").

Definition json_headers : list (string * string) :=
  [("Content-Type", "application/json")].

(** noteApi.js, lines 52-62. *)
Definition getActiveNote : gw gw_value :=
  gtry (fetchWithTimeout (BASE_URL ++ "/notes") no_options) rethrow.

(** noteApi.js, lines 70-80. *)
Definition getArchiveNote : gw gw_value :=
  gtry (fetchWithTimeout (BASE_URL ++ "/notes/archived") no_options) rethrow.

(** noteApi.js, lines 89-104. *)
Definition archiveNote (noteId : note_data) : gw gw_value :=
  gtry (fetchWithTimeout (BASE_URL ++ "/notes/" ++ template noteId ++ "/archive")
          (mkOptions (Some "POST") json_headers None))
       rethrow.

(** noteApi.js, lines 113-128. *)
Definition unarchiveNote (noteId : note_data) : gw gw_value :=
  gtry (fetchWithTimeout (BASE_URL ++ "/notes/" ++ template noteId ++ "/unarchive")
          (mkOptions (Some "POST") json_headers None))
       rethrow.

(** noteApi.js, lines 139-155. *)
Definition createNote (note : note_data) : gw gw_value :=
  gtry (fetchWithTimeout (BASE_URL ++ "/notes")
          (mkOptions (Some "POST") json_headers (Some note)))
       rethrow.

(** noteApi.js, lines 164-179. *)
Definition deleteNote (noteId : note_data) : gw gw_value :=
  gtry (fetchWithTimeout (BASE_URL ++ "/notes/" ++ template noteId)
          (mkOptions (Some "DELETE") json_headers None))
       rethrow.

End NoteApi.

(** The six operations as values: [operation === NoteApi.createNote]
    compares function identities. *)
Inductive operation : Type :=
| createNote | deleteNote | archiveNote | unarchiveNote
| getActiveNote | getArchiveNote.

Definition operation_eqb (a b : operation) : bool :=
  match a, b with
  | createNote, createNote | deleteNote, deleteNote
  | archiveNote, archiveNote | unarchiveNote, unarchiveNote
  | getActiveNote, getActiveNote | getArchiveNote, getArchiveNote => true
  | _, _ => false
  end.

(** [operation.call(NoteApi, noteData)]; the two read operations take no
    parameter and ignore the argument. *)
Definition call (op : operation) (noteData : note_data) : gw gw_value :=
  match op with
  | createNote => NoteApi.createNote noteData
  | deleteNote => NoteApi.deleteNote noteData
  | archiveNote => NoteApi.archiveNote noteData
  | unarchiveNote => NoteApi.unarchiveNote noteData
  | getActiveNote => NoteApi.getActiveNote
  | getArchiveNote => NoteApi.getArchiveNote
  end.

Definition is_read (op : operation) : bool :=
  match op with
  | getActiveNote | getArchiveNote => true
  | _ => false
  end.

(** ** Running one gateway call against the network

    [net] lists what the network does with the first, second, ... request
    of the call.  The result is [None] when the call never settles. *)

Inductive gw_event : Type :=
| EvSetTimeout (ms : N)
| EvClearTimeout
| EvFetch (rq : request)
| EvReadJson.

Fixpoint run_gw {A : Type} (p : gw A) (timer : option N)
  (net : list net_behaviour) (log : list gw_event)
  : option (outcome A * list gw_event * list net_behaviour) :=
  match p with
  | GRet a => Some (Returned a, log, net)
  | GThrow e => Some (Thrown e, log, net)
  | GSetTimeout ms k => run_gw k (Some ms) net (log ++ [EvSetTimeout ms])
  | GClearTimeout k => run_gw k None net (log ++ [EvClearTimeout])
  | GFetch rq k =>
      match net with
      | [] => None
      | b :: net' =>
          match fetch_settles timer rq b with
          | None => None
          | Some fr => run_gw (k fr) timer net' (log ++ [EvFetch rq])
          end
      end
  | GReadJson r k => run_gw (k (read_json r)) timer net (log ++ [EvReadJson])
  end.

(** A gateway call from a fresh start. *)
Definition gateway (op : operation) (noteData : note_data)
  (net : list net_behaviour)
  : option (outcome gw_value * list gw_event * list net_behaviour) :=
  run_gw (call op noteData) None net [].

Definition is_fetch (e : gw_event) : bool :=
  match e with EvFetch _ => true | _ => false end.
Definition is_read_json (e : gw_event) : bool :=
  match e with EvReadJson => true | _ => false end.

(** ** The document: controls, list views and the creation form *)

(** The identity of a DOM element (a button). *)
Definition element : Type := nat.

Inductive node : Type :=
| TextNode (s : string)
| LoadingSpinner.                 (* <span class="loading-spinner"> *)

(** What the code reads and writes of a control. *)
Record control : Type := mkControl {
  children : list node;
  disabled : bool
}.

(** The two list views, by the tag of their custom element. *)
Inductive view_id : Type :=
| active_note
| archive_note.

(** A [note-item] element with the five properties a list view assigns. *)
Record item_view : Type := mkItem {
  item_id : jsval;
  item_title : jsval;
  item_date : jsval;
  item_content : jsval;
  item_archive : jsval
}.

Inductive placeholder : Type :=
| NoPlaceholder
| LoadingPlaceholder              (* div.note-empty: Loading and a spinner *)
| EmptyPlaceholder.               (* div.note-empty: There is no note *)

(** The shadow root of a list view: heading, placeholder, and the items of
    section#notes-container when the section is there. *)
Record shadow_dom : Type := mkShadow {
  heading : string;
  note_empty : placeholder;
  notes_container : option (list item_view)
}.

Record view_state : Type := mkView {
  _notes : jsval;
  shadowRoot : shadow_dom
}.

(** The creation form: the two fields, the counter span, the two error
    paragraphs and the submit button. *)
Record form_state : Type := mkForm {
  titleInput : string;
  contentInput : string;
  charCountSpan : string;
  titleError : string;
  bodyError : string;
  submitButton : element
}.

(** The four intent events with their [detail]. *)
Inductive intent : Type :=
| note_created (title body : string) (button : option element)
| note_deleted (id : string) (button : option element)
| note_archived (id : string) (button : option element)
| note_unarchived (id : string) (button : option element).

(** The promise made by [notifyAndWaitForUpdate]. *)
Definition promise : Type := nat.

(** ** Application programs *)

(** The synchronous effects of the application code. *)
Inductive action : Type :=
| Alert (msg : string)
| ConsoleLog (e : js_error)
| SetChildren (el : element) (l : list node)
| AppendChild (el : element) (n : node)
| SetDisabled (el : element) (b : bool)
| SetNotes (v : view_id) (data : jsval)
| SetInnerHTML (v : view_id) (dom : shadow_dom)
| AppendItems (v : view_id) (items : list item_view)
| AddNotesUpdatedListener (v : view_id)
| AddUpdateCompleteListener (p : promise)
| DispatchNotesUpdated (button : option element)
| DispatchUpdateComplete
| DispatchIntent (i : intent)
| PreventDefault
| ResetForm
| SetCharCount (text : string)
| SetTitleError (text : string)
| SetBodyError (text : string).

(** Application code as a tree: synchronous effects, reads of the state,
    and the points at which an async function waits.  [Unmodelled] stands
    for a JavaScript coercion that the model does not cover. *)
Inductive prog (A : Type) : Type :=
| Ret (a : A)
| Throw (e : js_error)
| Unmodelled
| Do (a : action) (k : prog A)
| ReadNotes (v : view_id) (k : jsval -> prog A)
| ReadShadow (v : view_id) (k : shadow_dom -> prog A)
| ReadForm (k : form_state -> prog A)
| NewPromise (k : promise -> prog A)
| AwaitPromise (p : promise) (k : prog A)
| AwaitGateway (g : gw gw_value) (k : outcome gw_value -> prog A).
Arguments Ret {A} a.
Arguments Throw {A} e.
Arguments Unmodelled {A}.
Arguments Do {A} a k.
Arguments ReadNotes {A} v k.
Arguments ReadShadow {A} v k.
Arguments ReadForm {A} k.
Arguments NewPromise {A} k.
Arguments AwaitPromise {A} p k.
Arguments AwaitGateway {A} g k.

Fixpoint bind {A B : Type} (p : prog A) (f : A -> prog B) : prog B :=
  match p with
  | Ret a => f a
  | Throw e => Throw e
  | Unmodelled => Unmodelled
  | Do a k => Do a (bind k f)
  | ReadNotes v k => ReadNotes v (fun x => bind (k x) f)
  | ReadShadow v k => ReadShadow v (fun x => bind (k x) f)
  | ReadForm k => ReadForm (fun x => bind (k x) f)
  | NewPromise k => NewPromise (fun x => bind (k x) f)
  | AwaitPromise p k => AwaitPromise p (bind k f)
  | AwaitGateway g k => AwaitGateway g (fun x => bind (k x) f)
  end.

(** [try { p } catch (error) { h error }] *)
Fixpoint try_catch {A : Type} (p : prog A) (h : js_error -> prog A) : prog A :=
  match p with
  | Ret a => Ret a
  | Throw e => h e
  | Unmodelled => Unmodelled
  | Do a k => Do a (try_catch k h)
  | ReadNotes v k => ReadNotes v (fun x => try_catch (k x) h)
  | ReadShadow v k => ReadShadow v (fun x => try_catch (k x) h)
  | ReadForm k => ReadForm (fun x => try_catch (k x) h)
  | NewPromise k => NewPromise (fun x => try_catch (k x) h)
  | AwaitPromise p k => AwaitPromise p (try_catch k h)
  | AwaitGateway g k => AwaitGateway g (fun x => try_catch (k x) h)
  end.

Declare Scope prog_scope.
Delimit Scope prog_scope with prog.
Notation "x <- p ;; q" := (bind p (fun x => q))
  (at level 61, p at next level, right associativity) : prog_scope.
Notation "p ;; q" := (bind p (fun _ => q))
  (at level 61, right associativity) : prog_scope.
Local Open Scope prog_scope.

(** One synchronous effect. *)
Definition do (a : action) : prog unit := Do a (Ret tt).

(** [await g] for a gateway call [g]: a rejection is thrown. *)
Definition await (g : gw gw_value) : prog gw_value :=
  AwaitGateway g (fun o =>
    match o with
    | Returned v => Ret v
    | Thrown e => Throw e
    end).

(** [alert(msg)] *)
Definition alert (msg : string) : prog unit := do (Alert msg).

(** ** helper/helperLoading.js *)

(** [element.textContent = text]: the children are replaced by one text
    node, or by none when the text is empty. *)
Definition text_content (text : string) : list node :=
  match text with
  | EmptyString => []
  | String _ _ => [TextNode text]
  end.
Arguments text_content : simpl never.

Module HelperLoading.

(** [showLoading(element)]: the first write to [element] throws when it is
    [null]. *)
Definition showLoading (el : option element) : prog unit :=
  match el with
  | None => Throw (TypeError "Cannot set properties of null (setting 'innerHTML')")
  | Some e =>
      do (SetChildren e []) ;;
      do (AppendChild e (TextNode "Loading")) ;;
      do (AppendChild e LoadingSpinner) ;;
      do (SetDisabled e true)
  end.

(** [hideLoading(element, text)] *)
Definition hideLoading (el : option element) (text : string) : prog unit :=
  match el with
  | None => Throw (TypeError "Cannot set properties of null (setting 'textContent')")
  | Some e =>
      do (SetChildren e (text_content text)) ;;
      do (SetDisabled e false)
  end.

End HelperLoading.

(** A control as [showLoading] leaves it, and as [hideLoading] leaves it
    when given a label that is not empty. *)
Definition busy : control := mkControl [TextNode "Loading"; LoadingSpinner] true.
Definition idle (label : string) : control := mkControl [TextNode label] false.

(** ** The coordinator (index.js) *)

(** Lines 287-293. *)
Definition getButttonTextForOperation (op : operation) : string :=
  if operation_eqb op createNote then "Make Note"
  else if operation_eqb op deleteNote then "Delete"
  else if operation_eqb op archiveNote then "Archive"
  else if operation_eqb op archiveNote then "Unarchive"
  else "Submit".

(** Lines 303-320: the executor registers the one-time listener and
    dispatches [notes-updated]; the promise is then awaited by the caller. *)
Definition notifyAndWaitForUpdate (button : option element) : prog unit :=
  NewPromise (fun p =>
    do (AddUpdateCompleteListener p) ;;
    do (DispatchNotesUpdated button) ;;
    AwaitPromise p (Ret tt)).

(** Lines 262-279. *)
Definition handleNoteOperation (noteData : note_data) (op : operation)
  (button : option element) : prog unit :=
  try_catch
    (_ <- await (call op noteData) ;;
     notifyAndWaitForUpdate button ;;
     match button with
     | Some _ =>
         let buttonText := getButttonTextForOperation op in
         HelperLoading.hideLoading button buttonText
     | None => Ret tt
     end)
    (fun error =>
       alert (message error) ;;
       match button with
       | Some _ =>
           let buttonText := getButttonTextForOperation op in
           HelperLoading.hideLoading button buttonText
       | None => Ret tt
       end).

(** The four document listeners, lines 213-251. *)
Definition intent_listener (i : intent) : prog unit :=
  match i with
  | note_created title body button =>
      let request := NoteRequest title body in
      HelperLoading.showLoading button ;;
      handleNoteOperation request createNote button
  | note_deleted id button =>
      HelperLoading.showLoading button ;;
      handleNoteOperation (NoteId id) deleteNote button
  | note_archived id button =>
      HelperLoading.showLoading button ;;
      handleNoteOperation (NoteId id) archiveNote button
  | note_unarchived id button =>
      HelperLoading.showLoading button ;;
      handleNoteOperation (NoteId id) unarchiveNote button
  end.

(** ** Reading a decoded value the way the list views do *)

(** [v.length] *)
Definition js_length (v : jsval) : outcome jsval :=
  match v with
  | JUndefined =>
      Thrown (TypeError "Cannot read properties of undefined (reading 'length')")
  | JNull =>
      Thrown (TypeError "Cannot read properties of null (reading 'length')")
  | JStr s => Returned (JNum (Z.of_nat (String.length s)))
  | JArr l => Returned (JNum (Z.of_nat (List.length l)))
  | JObj fields => Returned (lookup "length" fields)
  | JBool _ | JNum _ => Returned JUndefined
  end.

(** [v === 0] *)
Definition is_zero (v : jsval) : bool :=
  match v with
  | JNum 0 => true
  | _ => false
  end.

(** [v > 0]; the conversion of a string, an array or an object to a number
    is not modelled. *)
Definition greater_than_zero (v : jsval) : option bool :=
  match v with
  | JNum z => Some (0 <? z)%Z
  | JBool b => Some b
  | JUndefined | JNull => Some false
  | JStr _ | JArr _ | JObj _ => None
  end.

(** [note.key] for one of the keys a view reads from a note. *)
Definition get (note : jsval) (key : string) : outcome jsval :=
  match note with
  | JUndefined =>
      Thrown (TypeError "Cannot read properties of undefined (reading 'id')")
  | JNull =>
      Thrown (TypeError "Cannot read properties of null (reading 'id')")
  | JObj fields => Returned (lookup key fields)
  | _ => Returned JUndefined
  end.

(** The body of the [forEach] callback up to the append: a [note-item]
    with id, title, date, content and archive taken from the note. *)
Definition note_item (note : jsval) : outcome item_view :=
  match get note "id", get note "title", get note "createdAt",
        get note "body", get note "archived" with
  | Returned i, Returned t, Returned d, Returned c, Returned a =>
      Returned (mkItem i t d c a)
  | Thrown e, _, _, _, _ => Thrown e
  | _, Thrown e, _, _, _ => Thrown e
  | _, _, Thrown e, _, _ => Thrown e
  | _, _, _, Thrown e, _ => Thrown e
  | _, _, _, _, Thrown e => Thrown e
  end.

(** The items a [forEach] over [notes] appends, and the exception that
    stops it, if any. *)
Fixpoint items_of (notes : list jsval) : list item_view * option js_error :=
  match notes with
  | [] => ([], None)
  | note :: rest =>
      match note_item note with
      | Thrown e => ([], Some e)
      | Returned item =>
          let (items, err) := items_of rest in (item :: items, err)
      end
  end.

(** [notes.forEach(note => { ...; container.append(noteElement) })] where
    [container] was looked up in the shadow root of [v].  The appends of
    one loop are one effect: no other code runs in between. *)
Definition forEach_append (v : view_id) (notes : list jsval) : prog unit :=
  ReadShadow v (fun dom =>
    match notes_container dom with
    | Some _ =>
        let (items, err) := items_of notes in
        do (AppendItems v items) ;;
        match err with
        | Some e => Throw e
        | None => Ret tt
        end
    | None =>
        match notes with
        | [] => Ret tt
        | note :: _ =>
            match note_item note with
            | Thrown e => Throw e
            | Returned _ =>
                Throw (TypeError "Cannot read properties of null (reading 'append')")
            end
        end
    end).

(** The value a list view stores from a gateway call.  A read operation
    never returns a response handle; one would be an object without the
    properties the views read. *)
Definition stored (v : gw_value) : jsval :=
  match v with
  | Data d => d
  | Handle _ => JObj []
  end.

(** ** The active-set view (components/active-note.js) *)

Module ActiveNote.

Definition renderLoading : prog unit :=
  do (SetInnerHTML active_note (mkShadow "Active Notes" LoadingPlaceholder None)).

(** [render()]: the heading, the empty-state placeholder when
    [this._notes.length === 0], the container; then the notes, reversed in
    place, are appended one by one. *)
Definition render : prog unit :=
  ReadNotes active_note (fun notes =>
    match js_length notes with
    | Thrown e => Throw e
    | Returned len =>
        do (SetInnerHTML active_note
              (mkShadow "Active Notes"
                 (if is_zero len then EmptyPlaceholder else NoPlaceholder)
                 (Some []))) ;;
        match notes with
        | JArr l =>
            let reversedNotes := rev l in
            do (SetNotes active_note (JArr reversedNotes)) ;;
            forEach_append active_note reversedNotes
        | _ => Throw (TypeError "this._notes.reverse is not a function")
        end
    end).

Definition fetchNotes : prog unit :=
  try_catch
    (v <- await NoteApi.getActiveNote ;;
     do (SetNotes active_note (stored v)) ;;
     render)
    (fun error => alert (message error)).

Definition notifyUpdateComplete : prog unit := do DispatchUpdateComplete.

Definition handleNotesUpdated : prog unit :=
  fetchNotes ;;
  notifyUpdateComplete.

Definition setupEventListeners : prog unit :=
  do (AddNotesUpdatedListener active_note).

Definition connectedCallback : prog unit :=
  renderLoading ;;
  fetchNotes ;;
  setupEventListeners.

End ActiveNote.

(** ** The archived-set view (components/archive-note.js) *)

Module ArchiveNote.

Definition renderLoading : prog unit :=
  do (SetInnerHTML archive_note (mkShadow "Archive Note" LoadingPlaceholder None)).

Definition renderNotes : prog unit :=
  ReadNotes archive_note (fun notes =>
    match notes with
    | JArr l => forEach_append archive_note l
    | _ => Throw (TypeError "this._notes.forEach is not a function")
    end).

(** [render()]: the heading and either the empty-state placeholder or the
    container; the notes are appended when [this._notes.length > 0]. *)
Definition render : prog unit :=
  ReadNotes archive_note (fun notes =>
    match js_length notes with
    | Thrown e => Throw e
    | Returned len =>
        do (SetInnerHTML archive_note
              (if is_zero len
               then mkShadow "Archived Notes" EmptyPlaceholder None
               else mkShadow "Archived Notes" NoPlaceholder (Some []))) ;;
        match greater_than_zero len with
        | None => Unmodelled
        | Some true => renderNotes
        | Some false => Ret tt
        end
    end).

Definition fetchArchivedNotes : prog unit :=
  try_catch
    (v <- await NoteApi.getArchiveNote ;;
     do (SetNotes archive_note (stored v)) ;;
     render)
    (fun error => do (ConsoleLog error)).

Definition handleNotesUpdated : prog unit :=
  fetchArchivedNotes.

Definition setupEventListeners : prog unit :=
  do (AddNotesUpdatedListener archive_note).

Definition connectedCallback : prog unit :=
  renderLoading ;;
  fetchArchivedNotes ;;
  setupEventListeners.

End ArchiveNote.

(** The [notes-updated] listener of a view. *)
Definition handleNotesUpdated (v : view_id) : prog unit :=
  match v with
  | active_note => ActiveNote.handleNotesUpdated
  | archive_note => ArchiveNote.handleNotesUpdated
  end.

Definition connectedCallback (v : view_id) : prog unit :=
  match v with
  | active_note => ActiveNote.connectedCallback
  | archive_note => ArchiveNote.connectedCallback
  end.

(** ** The creation form (components/make-note.js) *)

(** The white space and line terminators below 256 that [trim] removes. *)
Definition is_space (c : ascii) : bool :=
  let n := nat_of_ascii c in
  ((9 <=? n) && (n <=? 13) || (n =? 32) || (n =? 160))%nat.

Fixpoint trimStart (s : string) : string :=
  match s with
  | EmptyString => EmptyString
  | String c rest => if is_space c then trimStart rest else s
  end.

Definition reverse (s : string) : string :=
  string_of_list_ascii (rev (list_ascii_of_string s)).

(** [s.trim()] *)
Definition trim (s : string) : string :=
  reverse (trimStart (reverse (trimStart s))).

(** The decimal text of an integer, as a template literal prints it. *)
Definition decimal (z : Z) : string :=
  DecimalString.NilZero.string_of_int (Z.to_int z).

Module MakeNote.

Definition _maxTitleLength : Z := 50.
Definition _titleMinLength : Z := 3.
Definition _contentMinLength : Z := 10.

Definition updateCharacterCount (currentLength : Z) : prog unit :=
  let remaining := (_maxTitleLength - currentLength)%Z in
  do (SetCharCount ("Remaining Character: " ++ decimal remaining)).

Definition validateTitle (title : string) : prog bool :=
  if (Z.of_nat (String.length (trim title)) <? _titleMinLength)%Z
  then do (SetTitleError "Title at least 3 character") ;; Ret false
  else do (SetTitleError "") ;; Ret true.

Definition validateContent (content : string) : prog bool :=
  if (Z.of_nat (String.length (trim content)) <? _contentMinLength)%Z
  then do (SetBodyError "Content at least 10 character") ;; Ret false
  else do (SetBodyError "") ;; Ret true.

(** Lines 221-240. *)
Definition handleFormSubmit : prog unit :=
  do PreventDefault ;;
  ReadForm (fun elements =>
    let noteCreatedEvent :=
      note_created (titleInput elements) (contentInput elements)
                   (Some (submitButton elements)) in
    do (DispatchIntent noteCreatedEvent) ;;
    do ResetForm ;;
    updateCharacterCount 0).

(** The listeners installed by [setupEventListeners]. *)
Definition on_title_input : prog unit :=
  ReadForm (fun elements =>
    updateCharacterCount (Z.of_nat (String.length (titleInput elements)))).

Definition on_title_blur : prog unit :=
  ReadForm (fun elements => _ <- validateTitle (titleInput elements) ;; Ret tt).

Definition on_content_blur : prog unit :=
  ReadForm (fun elements => _ <- validateContent (contentInput elements) ;; Ret tt).

End MakeNote.

(** ** The item view (components/note-item.js): its three click handlers *)

Module NoteItem.

Definition handleDelete (_id : string) (button : option element) : prog unit :=
  do (DispatchIntent (note_deleted _id button)).

(** (The handler first prints the shadow root to the console.) *)
Definition handleArchive (_id : string) (button : option element) : prog unit :=
  do (DispatchIntent (note_archived _id button)).

Definition handleUnarchive (_id : string) (button : option element) : prog unit :=
  do (DispatchIntent (note_unarchived _id button)).

End NoteItem.

(** ** The event loop

    The state of the page between two tasks, and the execution of one task
    (a user event, a connected view, a settled request) to completion:
    synchronous code first, listeners of a dispatched event before the code
    that follows the dispatch, then the continuations of resolved promises
    in the order in which they were resolved. *)

(** A gateway call that has reached a [fetch] and waits for the network. *)
Record in_flight : Type := mkInFlight {
  fl_timer : option N;
  fl_request : request;
  fl_gateway : fetch_result -> gw gw_value;
  fl_then : outcome gw_value -> prog unit
}.

Inductive obs : Type :=
| Did (a : action)
| Net (e : gw_event)
| Uncaught (e : js_error).

Record state : Type := mkState {
  active : view_state;
  archive : view_state;
  form : form_state;
  controls : element -> control;
  notes_updated : list view_id;          (* listeners, in registration order *)
  update_complete : list promise;        (* one-time listeners *)
  settled : list promise;                (* resolved, not awaited yet *)
  awaiting : list (promise * prog unit); (* continuations of awaited promises *)
  requests : list in_flight;
  next_promise : promise;
  trace : list obs                       (* oldest first *)
}.

Definition view (v : view_id) (s : state) : view_state :=
  match v with
  | active_note => active s
  | archive_note => archive s
  end.

Definition with_view (v : view_id) (x : view_state) (s : state) : state :=
  let '(mkState a r f c nu uc st aw rq np tr) := s in
  match v with
  | active_note => mkState x r f c nu uc st aw rq np tr
  | archive_note => mkState a x f c nu uc st aw rq np tr
  end.

Definition with_form (f : form_state) (s : state) : state :=
  let '(mkState a r _ c nu uc st aw rq np tr) := s in
  mkState a r f c nu uc st aw rq np tr.

Definition with_controls (c : element -> control) (s : state) : state :=
  let '(mkState a r f _ nu uc st aw rq np tr) := s in
  mkState a r f c nu uc st aw rq np tr.

Definition with_notes_updated (l : list view_id) (s : state) : state :=
  let '(mkState a r f c _ uc st aw rq np tr) := s in
  mkState a r f c l uc st aw rq np tr.

Definition with_promises (listeners done : list promise)
  (waiting : list (promise * prog unit)) (next : promise) (s : state) : state :=
  let '(mkState a r f c nu _ _ _ rq _ tr) := s in
  mkState a r f c nu listeners done waiting rq next tr.

Definition with_requests (l : list in_flight) (s : state) : state :=
  let '(mkState a r f c nu uc st aw _ np tr) := s in
  mkState a r f c nu uc st aw l np tr.

Definition record (o : list obs) (s : state) : state :=
  let '(mkState a r f c nu uc st aw rq np tr) := s in
  mkState a r f c nu uc st aw rq np (tr ++ o).

Definition update_control (el : element) (f : control -> control)
  (c : element -> control) : element -> control :=
  fun e => if Nat.eqb e el then f (c e) else c e.

(** The change of state made by one synchronous effect.  The listeners of a
    dispatched event are run by [exec]. *)
Definition perform (a : action) (s : state) : state :=
  match a with
  | Alert _ | ConsoleLog _ | PreventDefault => s
  | SetChildren el l =>
      with_controls
        (update_control el (fun c => mkControl l (disabled c)) (controls s)) s
  | AppendChild el n =>
      with_controls
        (update_control el (fun c => mkControl (children c ++ [n]) (disabled c))
           (controls s)) s
  | SetDisabled el b =>
      with_controls
        (update_control el (fun c => mkControl (children c) b) (controls s)) s
  | SetNotes v data => with_view v (mkView data (shadowRoot (view v s))) s
  | SetInnerHTML v dom => with_view v (mkView (_notes (view v s)) dom) s
  | AppendItems v items =>
      let dom := shadowRoot (view v s) in
      with_view v
        (mkView (_notes (view v s))
           (mkShadow (heading dom) (note_empty dom)
              (match notes_container dom with
               | Some l => Some (l ++ items)%list
               | None => None
               end))) s
  | AddNotesUpdatedListener v => with_notes_updated (notes_updated s ++ [v]) s
  | AddUpdateCompleteListener p =>
      with_promises (update_complete s ++ [p]) (settled s) (awaiting s)
        (next_promise s) s
  | DispatchNotesUpdated _ | DispatchIntent _ => s
  | DispatchUpdateComplete =>
      (* every one-time listener is removed and resolves its promise *)
      let ps := update_complete s in
      with_promises []
        (settled s ++
           filter (fun p => negb (existsb (fun w => Nat.eqb (fst w) p) (awaiting s))) ps)
        (filter (fun w => negb (existsb (Nat.eqb (fst w)) ps)) (awaiting s))
        (next_promise s) s
  | ResetForm =>
      let f := form s in
      with_form
        (mkForm "" "" (charCountSpan f) (titleError f) (bodyError f)
           (submitButton f)) s
  | SetCharCount text =>
      let f := form s in
      with_form
        (mkForm (titleInput f) (contentInput f) text (titleError f)
           (bodyError f) (submitButton f)) s
  | SetTitleError text =>
      let f := form s in
      with_form
        (mkForm (titleInput f) (contentInput f) (charCountSpan f) text
           (bodyError f) (submitButton f)) s
  | SetBodyError text =>
      let f := form s in
      with_form
        (mkForm (titleInput f) (contentInput f) (charCountSpan f)
           (titleError f) text (submitButton f)) s
  end.

(** The listeners that a dispatch runs before the code after it. *)
Definition listeners (a : action) (s : state) : list (prog unit) :=
  match a with
  | DispatchNotesUpdated _ => map handleNotesUpdated (notes_updated s)
  | DispatchIntent i => [intent_listener i]
  | _ => []
  end.

(** The continuations that an effect makes ready to run. *)
Definition woken (a : action) (s : state) : list (prog unit) :=
  match a with
  | DispatchUpdateComplete =>
      flat_map
        (fun p => map snd (filter (fun w => Nat.eqb (fst w) p) (awaiting s)))
        (update_complete s)
  | _ => []
  end.

(** A gateway call run up to its next [fetch]. *)
Inductive gw_pause : Type :=
| Settled (o : outcome gw_value)
| Waiting (timer : option N) (rq : request) (k : fetch_result -> gw gw_value).

Fixpoint advance (p : gw gw_value) (timer : option N) (log : list gw_event)
  : gw_pause * list gw_event :=
  match p with
  | GRet a => (Settled (Returned a), log)
  | GThrow e => (Settled (Thrown e), log)
  | GSetTimeout ms k => advance k (Some ms) (log ++ [EvSetTimeout ms])
  | GClearTimeout k => advance k None (log ++ [EvClearTimeout])
  | GFetch rq k => (Waiting timer rq k, (log ++ [EvFetch rq])%list)
  | GReadJson r k => advance (k (read_json r)) timer (log ++ [EvReadJson])
  end.

(** The gateway call [g], awaited by [k], runs up to its first [fetch]:
    either it has settled already (its continuation is then ready to run)
    or it joins the requests in flight. *)
Definition start_gateway (g : gw_pause * list gw_event)
  (k : outcome gw_value -> prog unit) (s : state) : state * list (prog unit) :=
  match g with
  | (Settled o, log) => (record (map Net log) s, [k o])
  | (Waiting timer rq gk, log) =>
      (with_requests (requests s ++ [mkInFlight timer rq gk k])
         (record (map Net log) s), [])
  end.

(** [exec fuel stack micro s]: [stack] holds the synchronous code still to
    run, innermost first; [micro] the continuations that are ready. *)
Fixpoint exec (fuel : nat) (stack micro : list (prog unit)) (s : state)
  : option state :=
  match fuel with
  | O => None
  | S fuel' =>
      match stack with
      | [] =>
          match micro with
          | [] => Some s
          | m :: micro' => exec fuel' [m] micro' s
          end
      | p :: rest =>
          match p with
          | Ret _ => exec fuel' rest micro s
          | Throw e => exec fuel' rest micro (record [Uncaught e] s)
          | Unmodelled => None
          | Do a k =>
              exec fuel' (listeners a s ++ k :: rest) (micro ++ woken a s)
                (perform a (record [Did a] s))
          | ReadNotes v k => exec fuel' (k (_notes (view v s)) :: rest) micro s
          | ReadShadow v k => exec fuel' (k (shadowRoot (view v s)) :: rest) micro s
          | ReadForm k => exec fuel' (k (form s) :: rest) micro s
          | NewPromise k =>
              exec fuel' (k (next_promise s) :: rest) micro
                (with_promises (update_complete s) (settled s) (awaiting s)
                   (S (next_promise s)) s)
          | AwaitPromise p k =>
              if existsb (Nat.eqb p) (settled s)
              then exec fuel' rest (micro ++ [k]) s
              else exec fuel' rest micro
                     (with_promises (update_complete s) (settled s)
                        (awaiting s ++ [(p, k)]) (next_promise s) s)
          | AwaitGateway g k =>
              let (s', ready) := start_gateway (advance g None []) k s in
              exec fuel' rest (micro ++ ready) s'
          end
      end
  end.

(** ** Tasks *)

(** What happens to the page from outside. *)
Inductive env_event : Type :=
| Connected (v : view_id)                   (* the view is attached *)
| TitleInput (value : string)               (* the user edits the title *)
| TitleBlur
| ContentInput (value : string)
| ContentBlur
| Submit                                    (* the form fires [submit] *)
| DeleteClicked (id : string) (button : option element)
| ArchiveClicked (id : string) (button : option element)
| UnarchiveClicked (id : string) (button : option element)
| Settles (i : nat) (b : net_behaviour).    (* the i-th request in flight *)

Definition remove_nth {A : Type} (i : nat) (l : list A) : list A :=
  firstn i l ++ skipn (S i) l.

(** Fuel enough for one task. *)
Definition fuel (s : state) : nat :=
  64 + 16 * (List.length (notes_updated s) + List.length (update_complete s)
             + List.length (awaiting s)).

Definition run_task (p : prog unit) (s : state) : option state :=
  exec (fuel s) [p] [] s.

Definition step (s : state) (ev : env_event) : option state :=
  match ev with
  | Connected v => run_task (connectedCallback v) s
  | TitleInput value =>
      let f := form s in
      run_task MakeNote.on_title_input
        (with_form (mkForm value (contentInput f) (charCountSpan f)
                      (titleError f) (bodyError f) (submitButton f)) s)
  | TitleBlur => run_task MakeNote.on_title_blur s
  | ContentInput value =>
      let f := form s in
      Some (with_form (mkForm (titleInput f) value (charCountSpan f)
                         (titleError f) (bodyError f) (submitButton f)) s)
  | ContentBlur => run_task MakeNote.on_content_blur s
  | Submit => run_task MakeNote.handleFormSubmit s
  | DeleteClicked id button => run_task (NoteItem.handleDelete id button) s
  | ArchiveClicked id button => run_task (NoteItem.handleArchive id button) s
  | UnarchiveClicked id button => run_task (NoteItem.handleUnarchive id button) s
  | Settles i b =>
      match nth_error (requests s) i with
      | None => Some s
      | Some fl =>
          match fetch_settles (fl_timer fl) (fl_request fl) b with
          | None => Some s
          | Some fr =>
              let s1 := with_requests (remove_nth i (requests s)) s in
              let (s2, ready) :=
                start_gateway (advance (fl_gateway fl fr) (fl_timer fl) [])
                  (fl_then fl) s1 in
              exec (fuel s) [] ready s2
          end
      end
  end.

Fixpoint run (s : state) (evs : list env_event) : option state :=
  match evs with
  | [] => Some s
  | ev :: rest =>
      match step s ev with
      | Some s' => run s' rest
      | None => None
      end
  end.

(** The page before anything has happened: both views constructed, the
    form rendered, no listener of the views registered yet. *)
Definition initial_view : view_state := mkView (JArr []) (mkShadow "" NoPlaceholder None).

Definition initial (c : element -> control) (button : element) : state :=
  mkState initial_view initial_view
    (mkForm "" "" "Remaining Character: 50" "" "" button)
    c [] [] [] [] [] 0 [].

(** ** Notions used in the statements *)

(** The outcome of a gateway call when the network treats its request
    as [b] (and would not answer a second request). *)
Definition outcome_of (g : gw gw_value) (b : net_behaviour)
  : option (outcome gw_value) :=
  match run_gw g None [b] [] with
  | Some (o, _, _) => Some o
  | None => None
  end.

(** The network answers, or fails, within [ms] milliseconds. *)
Definition settles_within (ms : N) (b : net_behaviour) : bool :=
  match b with
  | Responds latency _ | Fails latency _ => (latency <=? ms)%N
  | Hangs => false
  end.

(** The two errors of the gateway's contract. *)
Definition timeout_error : js_error :=
  Error "Error: Request took longer than 5 seconds".
Definition generic_error : js_error := Error "Something is error".

(** The status codes that [fetchWithTimeout] lets through. *)
Definition accepted (code : Z) : Prop := (200 <= code <= 300)%Z.

Definition count {A : Type} (f : A -> bool) (l : list A) : nat :=
  List.length (filter f l).

(** The synchronous effects recorded in a trace, oldest first. *)
Definition effects (t : list obs) : list action :=
  flat_map (fun o => match o with Did a => [a] | _ => [] end) t.

(** The intent event that an event of the page raises. *)
Definition intent_of (s : state) (ev : env_event) : option intent :=
  match ev with
  | Submit =>
      Some (note_created (titleInput (form s)) (contentInput (form s))
              (Some (submitButton (form s))))
  | DeleteClicked id button => Some (note_deleted id button)
  | ArchiveClicked id button => Some (note_archived id button)
  | UnarchiveClicked id button => Some (note_unarchived id button)
  | _ => None
  end.

(** The gateway operation, the argument and the control of an intent. *)
Definition intent_operation (i : intent) : operation :=
  match i with
  | note_created _ _ _ => createNote
  | note_deleted _ _ => deleteNote
  | note_archived _ _ => archiveNote
  | note_unarchived _ _ => unarchiveNote
  end.

Definition intent_data (i : intent) : note_data :=
  match i with
  | note_created title body _ => NoteRequest title body
  | note_deleted id _ | note_archived id _ | note_unarchived id _ => NoteId id
  end.

Definition intent_button (i : intent) : option element :=
  match i with
  | note_created _ _ button | note_deleted _ button
  | note_archived _ button | note_unarchived _ button => button
  end.

(** The request record made when [p] starts by awaiting a gateway call. *)
Definition parked (p : prog unit) : option in_flight :=
  match p with
  | AwaitGateway g k =>
      match advance g None [] with
      | (Waiting t rq gk, _) => Some (mkInFlight t rq gk k)
      | _ => None
      end
  | _ => None
  end.

(** The read operation of a view and the address it fetches. *)
Definition view_call (v : view_id) : gw gw_value :=
  match v with
  | active_note => NoteApi.getActiveNote
  | archive_note => NoteApi.getArchiveNote
  end.

Definition view_url (v : view_id) : string :=
  match v with
  | active_note => NoteApi.BASE_URL ++ "/notes"
  | archive_note => NoteApi.BASE_URL ++ "/notes/archived"
  end.

(** Nothing is in flight and nobody waits for an acknowledgement. *)
Definition quiescent (s : state) : Prop :=
  requests s = [] /\ awaiting s = [] /\ update_complete s = [] /\ settled s = [].

(** Both list views have registered their [notes-updated] listener, once
    each, in either order. *)
Definition subscribed (s : state) : Prop :=
  notes_updated s = [active_note; archive_note] \/
  notes_updated s = [archive_note; active_note].

(** The place of a view among the listeners. *)
Fixpoint position (v : view_id) (l : list view_id) : nat :=
  match l with
  | [] => 0
  | x :: rest =>
      match v, x with
      | active_note, active_note | archive_note, archive_note => 0
      | _, _ => S (position v rest)
      end
  end.

(** The effects by which view [v] shows the result of a fetch: what it
    stores and renders, and how it reports an error. *)
Definition concerns (v : view_id) (a : action) : bool :=
  match a, v with
  | SetNotes active_note _, active_note
  | SetInnerHTML active_note _, active_note
  | AppendItems active_note _, active_note
  | Alert _, active_note
  | SetNotes archive_note _, archive_note
  | SetInnerHTML archive_note _, archive_note
  | AppendItems archive_note _, archive_note
  | ConsoleLog _, archive_note => true
  | _, _ => false
  end.

Definition is_broadcast (a : action) : bool :=
  match a with
  | DispatchNotesUpdated _ => true
  | _ => false
  end.

(** [hideLoading] on control [el]: the two effects that make it idle. *)
Definition restores (el : element) (a : action) : bool :=
  match a with
  | SetDisabled el' false => Nat.eqb el' el
  | _ => false
  end.

(** The part of [connectedCallback] that starts with the fetch. *)
Definition initial_fetch (v : view_id) : prog unit :=
  match v with
  | active_note => bind ActiveNote.fetchNotes (fun _ => ActiveNote.setupEventListeners)
  | archive_note => bind ArchiveNote.fetchArchivedNotes (fun _ => ArchiveNote.setupEventListeners)
  end.

(** The heading a view shows while its first fetch is in flight. *)
Definition loading_heading (v : view_id) : string :=
  match v with
  | active_note => "Active Notes"
  | archive_note => "Archive Note"
  end.

(** What a view holds and shows once it has rendered the array [l]. *)
Definition archive_rendered (l : list jsval) : view_state :=
  mkView (JArr l)
    (match l with
     | [] => mkShadow "Archived Notes" EmptyPlaceholder None
     | _ :: _ => mkShadow "Archived Notes" NoPlaceholder (Some (fst (items_of l)))
     end).

Definition active_rendered (l : list jsval) : view_state :=
  mkView (JArr (rev l))
    (mkShadow "Active Notes"
       (match l with [] => EmptyPlaceholder | _ :: _ => NoPlaceholder end)
       (Some (fst (items_of (rev l))))).


(** ** Sample data for the examples *)

Definition sample_note (id createdAt : string) : jsval :=
  JObj [("id", JStr id); ("title", JStr "Title"); ("body", JStr "Some text");
        ("archived", JBool false); ("createdAt", JStr createdAt)].

Definition older : jsval := sample_note "notes-1" "2024-01-01T08:00:00.000Z".
Definition newer : jsval := sample_note "notes-2" "2024-03-05T09:30:00.000Z".
Definition stored_away : jsval := sample_note "notes-3" "2024-02-02T10:00:00.000Z".

(** The service answers a read with the given notes. *)
Definition serves (notes : list jsval) : net_behaviour :=
  Responds 120
    (mkResponse 200
       (JsonBody (JObj [("status", JStr "success"); ("data", JArr notes)]))).

(** The service confirms a write. *)
Definition confirms : net_behaviour :=
  Responds 80
    (mkResponse 200 (JsonBody (JObj [("status", JStr "success")]))).

(** The service refuses a write. *)
Definition refuses : net_behaviour :=
  Responds 80 (mkResponse 500 (JsonBody (JObj [("status", JStr "fail")]))).

(** Both views attached and loaded. *)
Definition loading : list env_event :=
  [Connected active_note; Connected archive_note;
   Settles 0 (serves [older; newer]); Settles 0 (serves [stored_away])].

Definition sample_page : state := initial (fun _ => idle "Delete") 0.

(** The sample page once both views have loaded. *)
Definition loaded_page : state :=
  match run sample_page loading with
  | Some s => s
  | None => sample_page
  end.

Definition quote : string := String (ascii_of_nat 34) EmptyString.

(** The message with which a browser rejects the body [Request took longer]. *)
Definition marked_message : string :=
  ("Unexpected token 'R', " ++ quote ++ "Request took longer" ++ quote
   ++ " is not valid JSON")%string.

(** How a view reports a failed fetch. *)
Definition report (v : view_id) (e : js_error) : action :=
  match v with
  | active_note => Alert (message e)
  | archive_note => ConsoleLog e
  end.

(** The item view made from a note that is an object with the given
    properties. *)
Definition object_item (fields : list (string * jsval)) : item_view :=
  mkItem (lookup "id" fields) (lookup "title" fields)
    (lookup "createdAt" fields) (lookup "body" fields)
    (lookup "archived" fields).

(** The label that the coordinator's table gives for an intent. *)
Definition intent_label (i : intent) : string :=
  match i with
  | note_created _ _ _ => "Make Note"
  | note_deleted _ _ => "Delete"
  | note_archived _ _ => "Archive"
  | note_unarchived _ _ => "Submit"
  end.

(** ** The item view as an element (components/note-item.js)

    The element with its backing fields, its attributes and its shadow
    root, and the methods of the class as functions on that state.  The
    fields that no method reads are left out, and so is the style sheet.

    [render] assigns a template to [innerHTML], with the title and the
    content interpolated as they are.  The model records what the template
    itself writes: the three texts and the two buttons.  When the title or
    the content holds a [<], the parser may make further elements out of
    them, ahead of the two buttons, or swallow the buttons; the model does
    not follow the parser there.  It marks the shadow root, and a look-up
    by id in a marked shadow root is left open. *)

(** The text holds a [<]: assigned to [innerHTML], it may be more than
    text. *)
Definition has_markup (s : string) : bool :=
  existsb (Ascii.eqb "<"%char) (list_ascii_of_string s).

(** [String(v)]: the text that [setAttribute] stores and that a template
    literal prints.  Numbers are covered while a double holds them
    exactly. *)
Fixpoint to_string (v : jsval) : option string :=
  match v with
  | JUndefined => Some "undefined"
  | JNull => Some "null"
  | JBool true => Some "true"
  | JBool false => Some "false"
  | JNum z => if (Z.abs z <=? 2 ^ 53)%Z then Some (decimal z) else None
  | JStr s => Some s
  | JArr l =>
      (fix join (l : list jsval) : option string :=
         match l with
         | [] => Some ""
         | x :: rest =>
             let first :=
               match x with
               | JUndefined | JNull => Some ""
               | _ => to_string x
               end in
             match first, rest with
             | None, _ => None
             | Some s, [] => Some s
             | Some s, _ :: _ =>
                 match join rest with
                 | Some t => Some (s ++ "," ++ t)
                 | None => None
                 end
             end
         end) l
  | JObj _ => Some "[object Object]"
  end.

Definition newline : ascii := ascii_of_nat 10.

(** [content.replace(/\n/g, "<br>")] *)
Fixpoint formatContent (content : string) : string :=
  match content with
  | EmptyString => EmptyString
  | String c rest =>
      if Ascii.eqb c newline then "<br>" ++ formatContent rest
      else String c (formatContent rest)
  end.

Module noteitem.

(** The three methods bound in the constructor, as listener values. *)
Inductive bound_method : Type :=
| HandleDelete
| HandleArchive
| HandleUnarchive.

Definition bound_method_eqb (a b : bound_method) : bool :=
  match a, b with
  | HandleDelete, HandleDelete
  | HandleArchive, HandleArchive
  | HandleUnarchive, HandleUnarchive => true
  | _, _ => false
  end.

(** A button of the template: its identity, its [id] attribute, its label
    (without the white space of the template) and its click listeners. *)
Record button_element : Type := mkButton {
  node_id : nat;
  id_attr : string;
  label : string;
  click_listeners : list bound_method
}.

(** The text of [this._date]: empty, or what [formatDate] makes of a value. *)
Inductive date_text : Type :=
| NoDate
| LongDate (source : jsval).   (* new Date(source).toLocaleDateString("en-US", ...) *)

(** The shadow root as [render] writes it: the title, the date and the
    formatted content as they are put into the template, whether the title
    or the content held markup of their own, and the two buttons of the
    template. *)
Record shadow_tree : Type := mkTree {
  h3 : string;
  note_date : date_text;
  p : string;
  marked : bool;
  delete_button : button_element;
  action_button : button_element
}.

Record t : Type := mkElement {
  _id : jsval;
  _title : jsval;
  _date : date_text;
  _content : jsval;
  _archive : jsval;
  attributes : list (string * string);
  shadow : option shadow_tree;       (* [None]: nothing rendered yet *)
  fresh : nat;                       (* the identity of the next node *)
  reported : list js_error           (* exceptions of lifecycle callbacks *)
}.

(** The constructor. *)
Definition create : t :=
  mkElement (JStr "") (JStr "") NoDate (JStr "") (JStr "") [] None 0 [].

Definition report (e : js_error) (it : t) : t :=
  let '(mkElement i ti d c a attrs sh fr re) := it in
  mkElement i ti d c a attrs sh fr (re ++ [e]).

Definition with_shadow (tree : shadow_tree) (n : nat) (it : t) : t :=
  let '(mkElement i ti d c a attrs sh fr re) := it in
  mkElement i ti d c a attrs (Some tree) n re.

Definition with_attributes (l : list (string * string)) (it : t) : t :=
  let '(mkElement i ti d c a attrs sh fr re) := it in
  mkElement i ti d c a l sh fr re.

Definition with_id (v : jsval) (it : t) : t :=
  let '(mkElement i ti d c a attrs sh fr re) := it in
  mkElement v ti d c a attrs sh fr re.

Definition with_title (v : jsval) (it : t) : t :=
  let '(mkElement i ti d c a attrs sh fr re) := it in
  mkElement i v d c a attrs sh fr re.

Definition with_date (x : date_text) (it : t) : t :=
  let '(mkElement i ti d c a attrs sh fr re) := it in
  mkElement i ti x c a attrs sh fr re.

Definition with_content (v : jsval) (it : t) : t :=
  let '(mkElement i ti d c a attrs sh fr re) := it in
  mkElement i ti d v a attrs sh fr re.

Definition with_archive (v : jsval) (it : t) : t :=
  let '(mkElement i ti d c a attrs sh fr re) := it in
  mkElement i ti d c v attrs sh fr re.

(** [observedAttributes] *)
Definition observedAttributes : list string :=
  ["data-id"; "title"; "date"; "content"; "archive"].

(** [formatDate(dateString)] *)
Definition formatDate (dateString : jsval) : date_text := LongDate dateString.

(** [this._archive === "true"] *)
Definition is_true_text (v : jsval) : bool :=
  match v with
  | JStr s => String.eqb s "true"
  | _ => false
  end.

(** [render()]: the content is formatted first, which throws when
    [this._content] is not a string; then the template is assigned to the
    shadow root, with two new buttons.  The result is the element and the
    exception, if any. *)
Definition render (it : t) : option (t * option js_error) :=
  match _content it with
  | JStr content =>
      let formattedContent := formatContent content in
      match to_string (_title it) with
      | None => None
      | Some title =>
          let unarchive := is_true_text (_archive it) in
          Some (with_shadow
                  (mkTree title (_date it) formattedContent
                     (has_markup title || has_markup content)
                     (mkButton (fresh it) "delete" "Delete" [])
                     (mkButton (S (fresh it))
                        (if unarchive then "unarchive" else "archive")
                        (if unarchive then "Unarchive" else "Archive") []))
                  (S (S (fresh it))) it,
                None)
      end
  | JUndefined =>
      Some (it, Some (TypeError "Cannot read properties of undefined (reading 'replace')"))
  | JNull =>
      Some (it, Some (TypeError "Cannot read properties of null (reading 'replace')"))
  | _ => Some (it, Some (TypeError "this._content.replace is not a function"))
  end.

(** [attributeChangedCallback(name, oldValue, newValue)]; [oldValue] is
    [None] for [null]. *)
Definition attributeChangedCallback (name : string) (oldValue : option string)
  (newValue : string) (it : t) : option (t * option js_error) :=
  if match oldValue with
     | Some old => String.eqb old newValue
     | None => false
     end
  then Some (it, None)
  else
    let it' :=
      if String.eqb name "data-id" then with_id (JStr newValue) it
      else if String.eqb name "title" then with_title (JStr newValue) it
      else if String.eqb name "date" then with_date (formatDate (JStr newValue)) it
      else if String.eqb name "archive" then with_archive (JStr newValue) it
      else if String.eqb name "content" then with_content (JStr newValue) it
      else it in
    render it'.

Fixpoint getAttribute (name : string) (l : list (string * string))
  : option string :=
  match l with
  | [] => None
  | (k, v) :: rest => if String.eqb k name then Some v else getAttribute name rest
  end.

Fixpoint set_attribute (name value : string) (l : list (string * string))
  : list (string * string) :=
  match l with
  | [] => [(name, value)]
  | (k, v) :: rest =>
      if String.eqb k name then (k, value) :: rest
      else (k, v) :: set_attribute name value rest
  end.

(** [this.setAttribute(name, value)]: the value is stored as a string and,
    for an observed attribute, [attributeChangedCallback] runs before the
    call returns; an exception of the callback is reported, not thrown to
    the caller. *)
Definition setAttribute (name : string) (value : jsval) (it : t) : option t :=
  match to_string value with
  | None => None
  | Some newValue =>
      let oldValue := getAttribute name (attributes it) in
      let it1 := with_attributes (set_attribute name newValue (attributes it)) it in
      if existsb (String.eqb name) observedAttributes
      then
        match attributeChangedCallback name oldValue newValue it1 with
        | None => None
        | Some (it2, None) => Some it2
        | Some (it2, Some e) => Some (report e it2)
        end
      else Some it1
  end.

(** The five property setters and getters. *)
Definition set_id (value : jsval) (it : t) : option t :=
  setAttribute "data-id" value (with_id value it).

Definition set_title (value : jsval) (it : t) : option t :=
  setAttribute "title" value (with_title value it).

Definition set_date (value : jsval) (it : t) : option t :=
  setAttribute "date" value (with_date (formatDate value) it).

Definition set_content (value : jsval) (it : t) : option t :=
  setAttribute "content" value (with_content value it).

Definition set_archive (value : jsval) (it : t) : option t :=
  setAttribute "archive" value (with_archive value it).

Definition get_id (it : t) : jsval := _id it.
Definition get_title (it : t) : jsval := _title it.
Definition get_date (it : t) : date_text := _date it.
Definition get_content (it : t) : jsval := _content it.
Definition get_archive (it : t) : jsval := _archive it.

(** What [querySelector] gives: an element, [null], or no answer of the
    model when markup of the title or of the content may hold an element
    with the id. *)
Inductive selection : Type :=
| Found (b : button_element)
| NotFound
| Unresolved.

(** [this.shadowRoot.querySelector("#" + id)]: the first element, in tree
    order, with that id.  In a shadow root without markup of its own these
    are the two buttons of the template. *)
Definition querySelector (id : string) (it : t) : selection :=
  match shadow it with
  | None => NotFound
  | Some tree =>
      if marked tree then Unresolved
      else if String.eqb (id_attr (delete_button tree)) id
      then Found (delete_button tree)
      else if String.eqb (id_attr (action_button tree)) id
      then Found (action_button tree)
      else NotFound
  end.

(** [button.addEventListener("click", h)]: a listener that is there already
    is not added again. *)
Definition addEventListener (h : bound_method) (b : button_element)
  : button_element :=
  if existsb (bound_method_eqb h) (click_listeners b) then b
  else mkButton (node_id b) (id_attr b) (label b) (click_listeners b ++ [h]).

Definition removeEventListener (h : bound_method) (b : button_element)
  : button_element :=
  mkButton (node_id b) (id_attr b) (label b)
    (filter (fun h' => negb (bound_method_eqb h h')) (click_listeners b)).

(** [const b = querySelector("#" + id); if (b) { f b }]; [None] when the
    look-up is left open. *)
Definition if_found (id : string) (f : button_element -> button_element)
  (it : t) : option t :=
  match shadow it with
  | None => Some it
  | Some tree =>
      if marked tree then None
      else if String.eqb (id_attr (delete_button tree)) id
      then Some (with_shadow
                   (mkTree (h3 tree) (note_date tree) (p tree) (marked tree)
                      (f (delete_button tree)) (action_button tree))
                   (fresh it) it)
      else if String.eqb (id_attr (action_button tree)) id
      then Some (with_shadow
                   (mkTree (h3 tree) (note_date tree) (p tree) (marked tree)
                      (delete_button tree) (f (action_button tree)))
                   (fresh it) it)
      else Some it
  end.

Definition setupEventListeners (it : t) : option t :=
  match if_found "delete" (addEventListener HandleDelete) it with
  | None => None
  | Some it1 =>
      match if_found "archive" (addEventListener HandleArchive) it1 with
      | None => None
      | Some it2 => if_found "unarchive" (addEventListener HandleUnarchive) it2
      end
  end.

Definition removeEventListeners (it : t) : option t :=
  match if_found "delete" (removeEventListener HandleDelete) it with
  | None => None
  | Some it1 =>
      match if_found "archive" (removeEventListener HandleArchive) it1 with
      | None => None
      | Some it2 => if_found "unarchive" (removeEventListener HandleUnarchive) it2
      end
  end.

(** [connectedCallback()]: an exception of [render] ends the callback and
    is reported. *)
Definition connectedCallback (it : t) : option t :=
  match render it with
  | None => None
  | Some (it1, Some e) => Some (report e it1)
  | Some (it1, None) => setupEventListeners it1
  end.

Definition disconnectedCallback (it : t) : option t := removeEventListeners it.

(** What a click handler does: a line on the console, or an event
    dispatched with [detail = {id, button}]. *)
Inductive emitted : Type :=
| LogShadowRoot
| Dispatch (event_type : string) (id : jsval) (button : selection).

Definition handleDelete (it : t) : list emitted :=
  [Dispatch "note-deleted" (_id it) (querySelector "delete" it)].

Definition handleArchive (it : t) : list emitted :=
  [LogShadowRoot;
   Dispatch "note-archived" (_id it) (querySelector "archive" it)].

Definition handleUnarchive (it : t) : list emitted :=
  [Dispatch "note-unarchived" (_id it) (querySelector "unarchive" it)].

Definition invoke (h : bound_method) (it : t) : list emitted :=
  match h with
  | HandleDelete => handleDelete it
  | HandleArchive => handleArchive it
  | HandleUnarchive => handleUnarchive it
  end.

(** A click on button [b] of the element runs the listeners of [b]. *)
Definition click (b : button_element) (it : t) : list emitted :=
  flat_map (fun h => invoke h it) (click_listeners b).

End noteitem.

(** The body of the [forEach] callback of the two list views, with the
    append: a new element, its five properties assigned in the order of the
    source, then attached. *)
Definition attach_item (v : item_view) : option noteitem.t :=
  match noteitem.set_id (item_id v) noteitem.create with
  | None => None
  | Some it1 =>
  match noteitem.set_title (item_title v) it1 with
  | None => None
  | Some it2 =>
  match noteitem.set_date (item_date v) it2 with
  | None => None
  | Some it3 =>
  match noteitem.set_content (item_content v) it3 with
  | None => None
  | Some it4 =>
  match noteitem.set_archive (item_archive v) it4 with
  | None => None
  | Some it5 => noteitem.connectedCallback it5
  end end end end end.

(** The sample page while the active-set view waits for its first fetch. *)
Definition loading_page : state :=
  match step sample_page (Connected active_note) with
  | Some s => s
  | None => sample_page
  end.

(** The counter of the creation form shows what is left of the 50
    characters of the title. *)
Definition counter_in_step (f : form_state) : Prop :=
  charCountSpan f =
  "Remaining Character: "
  ++ decimal (MakeNote._maxTitleLength - Z.of_nat (String.length (titleInput f))).

(** * Properties *)

Local Open Scope list_scope.

(** ** The labels of the coordinator *)

Lemma text_content_filled label :
  label <> "" -> text_content label = [TextNode label].
Proof. destruct label; [contradiction | reflexivity]. Qed.

Lemma label_filled op : getButttonTextForOperation op <> "".
Proof. destruct op; discriminate. Qed.

Lemma label_text op :
  text_content (getButttonTextForOperation op) =
  [TextNode (getButttonTextForOperation op)].
Proof. apply text_content_filled, label_filled. Qed.

(** ** The gateway: how a call settles *)

Lemma run_rethrow (p : gw gw_value) : forall timer net log,
  run_gw (gtry p NoteApi.rethrow) timer net log =
  match run_gw p timer net log with
  | Some (Thrown e, log', net') =>
      Some (Thrown (if includes (message e) "Request took longer"
                    then e else generic_error), log', net')
  | other => other
  end.
Proof.
  induction p as [a | e | ms k IH | k IH | rq k IH | r k IH];
    intros timer net log; cbn [gtry run_gw].
  - reflexivity.
  - unfold NoteApi.rethrow. now destruct (includes (message e) _).
  - apply IH.
  - apply IH.
  - destruct net as [| b net']; [reflexivity |].
    destruct (fetch_settles timer rq b); [apply IH | reflexivity].
  - apply IH.
Qed.

Lemma call_shape (op : operation) (d : note_data) :
  exists url options,
    call op d = gtry (NoteApi.fetchWithTimeout url options) NoteApi.rethrow
    /\ (is_method "DELETE" options || is_method "POST" options) = negb (is_read op).
Proof. destruct op; do 2 eexists; split; reflexivity. Qed.

Lemma late_aborts (b : net_behaviour) (rq : request) :
  settles_within 5000 b = false -> signal rq = true ->
  fetch_settles (Some 5000%N) rq b = Some (Rejected AbortError).
Proof.
  intros Hb Hs. destruct b as [t r | t msg |]; cbn in *; rewrite Hs; cbn.
  - apply N.leb_gt in Hb. apply N.ltb_lt in Hb. now rewrite Hb.
  - apply N.leb_gt in Hb. apply N.ltb_lt in Hb. now rewrite Hb.
  - reflexivity.
Qed.

Lemma in_time_resolves (t : N) (r : response) (rq : request) :
  (t <= 5000)%N -> fetch_settles (Some 5000%N) rq (Responds t r) = Some (Resolved r).
Proof.
  intros H. cbn. apply N.ltb_ge in H. rewrite H. now rewrite andb_false_r.
Qed.

Lemma in_time_fails (t : N) (msg : string) (rq : request) :
  (t <= 5000)%N ->
  fetch_settles (Some 5000%N) rq (Fails t msg) = Some (Rejected (TypeError msg)).
Proof.
  intros H. cbn. apply N.ltb_ge in H. rewrite H. now rewrite andb_false_r.
Qed.

Lemma fetchWithTimeout_late url options b rest :
  settles_within 5000 b = false ->
  run_gw (NoteApi.fetchWithTimeout url options) None (b :: rest) [] =
  Some (Thrown timeout_error,
        [EvSetTimeout 5000; EvFetch (mkRequest url options true)], rest).
Proof.
  intros Hb. unfold NoteApi.fetchWithTimeout. cbn [gtry run_gw await_fetch app].
  rewrite late_aborts by easy. reflexivity.
Qed.

Lemma fetchWithTimeout_rejected_status url options t r rest :
  (t <= 5000)%N -> ~ accepted (status r) ->
  run_gw (NoteApi.fetchWithTimeout url options) None (Responds t r :: rest) [] =
  Some (Thrown (Error "Something went wrong"),
        [EvSetTimeout 5000; EvFetch (mkRequest url options true); EvClearTimeout],
        rest).
Proof.
  intros Ht Hs. unfold NoteApi.fetchWithTimeout. cbn [gtry run_gw await_fetch app].
  rewrite in_time_resolves by easy.
  replace ((status r <? 200)%Z || (status r >? 300)%Z) with true.
  - reflexivity.
  - symmetry. apply orb_true_iff. unfold accepted in Hs.
    destruct (Z.ltb_spec (status r) 200); [now left | right].
    apply Z.gtb_lt. lia.
Qed.

Lemma accepted_passes (code : Z) :
  accepted code -> ((code <? 200)%Z || (code >? 300)%Z) = false.
Proof.
  unfold accepted. intros H. apply orb_false_iff. split.
  - apply Z.ltb_ge. lia.
  - rewrite Z.gtb_ltb. apply Z.ltb_ge. lia.
Qed.

Lemma fetchWithTimeout_write url options t r rest :
  (t <= 5000)%N -> accepted (status r) ->
  (is_method "DELETE" options || is_method "POST" options) = true ->
  run_gw (NoteApi.fetchWithTimeout url options) None (Responds t r :: rest) [] =
  Some (Returned (Handle r),
        [EvSetTimeout 5000; EvFetch (mkRequest url options true); EvClearTimeout],
        rest).
Proof.
  intros Ht Hs Hm. unfold NoteApi.fetchWithTimeout. cbn [gtry run_gw await_fetch app].
  rewrite in_time_resolves by easy. rewrite (accepted_passes _ Hs), Hm. reflexivity.
Qed.

Lemma fetchWithTimeout_read url options t r rest :
  (t <= 5000)%N -> accepted (status r) ->
  (is_method "DELETE" options || is_method "POST" options) = false ->
  run_gw (NoteApi.fetchWithTimeout url options) None (Responds t r :: rest) [] =
  Some (match read_json r with
        | Returned v =>
            match destructure_data v with
            | Returned data => Returned (Data data)
            | Thrown e => Thrown e
            end
        | Thrown e => Thrown e
        end,
        [EvSetTimeout 5000; EvFetch (mkRequest url options true); EvClearTimeout;
         EvReadJson],
        rest).
Proof.
  intros Ht Hs Hm. unfold NoteApi.fetchWithTimeout. cbn [gtry run_gw await_fetch app].
  rewrite in_time_resolves by easy. rewrite (accepted_passes _ Hs), Hm.
  cbn [gtry run_gw await_json app].
  unfold read_json. destruct (payload r) as [v | msg | msg]; cbn [gtry run_gw].
  - destruct v; reflexivity.
  - reflexivity.
  - reflexivity.
Qed.

Lemma fetchWithTimeout_network_error url options t msg rest :
  (t <= 5000)%N ->
  run_gw (NoteApi.fetchWithTimeout url options) None (Fails t msg :: rest) [] =
  Some (Thrown (TypeError msg),
        [EvSetTimeout 5000; EvFetch (mkRequest url options true)], rest).
Proof.
  intros Ht. unfold NoteApi.fetchWithTimeout. cbn [gtry run_gw await_fetch app].
  rewrite in_time_fails by easy. reflexivity.
Qed.

Lemma accepted_dec (code : Z) : {accepted code} + {~ accepted code}.
Proof.
  unfold accepted.
  destruct (Z_le_dec 200 code); destruct (Z_le_dec code 300);
    (left; lia) || (right; lia).
Qed.

Lemma fetchWithTimeout_once url options b rest o log net' :
  run_gw (NoteApi.fetchWithTimeout url options) None (b :: rest) [] = Some (o, log, net') ->
  net' = rest /\ count is_fetch log = 1.
Proof.
  destruct (settles_within 5000 b) eqn:Hb.
  - destruct b as [t r | t msg |]; cbn in Hb; try discriminate.
    + apply N.leb_le in Hb. destruct (accepted_dec (status r)) as [Hs | Hs].
      * destruct (is_method "DELETE" options || is_method "POST" options) eqn:Hm.
        -- rewrite fetchWithTimeout_write by assumption.
           intros H; inversion H; subst; split; reflexivity.
        -- rewrite fetchWithTimeout_read by assumption.
           intros H; inversion H; subst; split; reflexivity.
      * rewrite fetchWithTimeout_rejected_status by assumption.
        intros H; inversion H; subst; split; reflexivity.
    + apply N.leb_le in Hb. rewrite fetchWithTimeout_network_error by assumption.
      intros H; inversion H; subst; split; reflexivity.
  - rewrite fetchWithTimeout_late by assumption.
    intros H; inversion H; subst; split; reflexivity.
Qed.


(** [fetchWithTimeout] always settles once the network's behaviour for its
    one request is known. *)
Lemma fetchWithTimeout_returns url options b rest :
  exists o log,
    run_gw (NoteApi.fetchWithTimeout url options) None (b :: rest) [] =
    Some (o, log, rest).
Proof.
  destruct (settles_within 5000 b) eqn:Hb.
  - destruct b as [t r | t msg |]; cbn in Hb; try discriminate.
    + apply N.leb_le in Hb. destruct (accepted_dec (status r)) as [Hs | Hs].
      * destruct (is_method "DELETE" options || is_method "POST" options) eqn:Hm.
        -- rewrite fetchWithTimeout_write by assumption. eauto.
        -- rewrite fetchWithTimeout_read by assumption. eauto.
      * rewrite fetchWithTimeout_rejected_status by assumption. eauto.
    + apply N.leb_le in Hb. rewrite fetchWithTimeout_network_error by assumption.
      eauto.
  - rewrite fetchWithTimeout_late by assumption. eauto.
Qed.


(** ** The event loop: requests in flight *)

Lemma advance_log p : forall timer log,
  advance p timer log = (fst (advance p timer []), log ++ snd (advance p timer [])).
Proof.
  induction p as [a | e | ms k IH | k IH | rq k IH | r k IH];
    intros timer log; cbn [advance].
  - now rewrite app_nil_r.
  - now rewrite app_nil_r.
  - rewrite IH. rewrite (IH _ [EvSetTimeout ms]). cbn. now rewrite <- app_assoc.
  - rewrite IH. rewrite (IH _ [EvClearTimeout]). cbn. now rewrite <- app_assoc.
  - reflexivity.
  - rewrite IH. rewrite (IH _ _ [EvReadJson]). cbn. now rewrite <- app_assoc.
Qed.

Lemma run_gw_advance p : forall timer net log,
  run_gw p timer net log =
  match advance p timer log with
  | (Settled o, log') => Some (o, log', net)
  | (Waiting t rq k, log') =>
      match net with
      | [] => None
      | b :: net' =>
          match fetch_settles t rq b with
          | None => None
          | Some fr => run_gw (k fr) t net' log'
          end
      end
  end.
Proof.
  induction p; intros timer net log; cbn; auto.
Qed.

(** A request in flight settles the way the gateway call does. *)
Lemma waiting_settles g b o t rq k log0 :
  outcome_of g b = Some o ->
  advance g None [] = (Waiting t rq k, log0) ->
  exists fr log, fetch_settles t rq b = Some fr
                 /\ advance (k fr) t [] = (Settled o, log).
Proof.
  unfold outcome_of. rewrite run_gw_advance. intros H Ha. rewrite Ha in H.
  destruct (fetch_settles t rq b) as [fr |]; [| discriminate].
  exists fr. rewrite run_gw_advance in H. rewrite advance_log in H.
  destruct (advance (k fr) t []) as [[o' | t' rq' k'] log]; cbn in H.
  - exists log. split; [reflexivity |]. now inversion H.
  - discriminate.
Qed.

Lemma step_settles s i b fl fr o log :
  nth_error (requests s) i = Some fl ->
  fetch_settles (fl_timer fl) (fl_request fl) b = Some fr ->
  advance (fl_gateway fl fr) (fl_timer fl) [] = (Settled o, log) ->
  step s (Settles i b) =
  exec (fuel s) [] [fl_then fl o]
    (record (map Net log) (with_requests (remove_nth i (requests s)) s)).
Proof.
  intros Hn Hf Ha. unfold step. rewrite Hn, Hf, Ha. reflexivity.
Qed.

Lemma effects_app t1 t2 : effects (t1 ++ t2) = effects t1 ++ effects t2.
Proof. unfold effects. apply flat_map_app. Qed.

Lemma effects_net log : effects (map Net log) = [].
Proof. induction log; cbn; auto. Qed.

Lemma update_same el f c : update_control el f c el = f (c el).
Proof. unfold update_control. now rewrite Nat.eqb_refl. Qed.


Lemma timer_settles ms rq b :
  signal rq = true -> exists fr, fetch_settles (Some ms) rq b = Some fr.
Proof.
  intros Hs. destruct b; cbn; rewrite Hs; cbn.
  - destruct (ms <? latency)%N; eexists; reflexivity.
  - destruct (ms <? latency)%N; eexists; reflexivity.
  - eexists; reflexivity.
Qed.

Lemma resumed_call_settles op d :
  exists rq k log0,
    advance (call op d) None [] = (Waiting (Some 5000%N) rq k, log0)
    /\ signal rq = true
    /\ forall fr, exists o log, advance (k fr) (Some 5000%N) [] = (Settled o, log).
Proof.
  destruct op; do 3 eexists; (split; [reflexivity |]); (split; [reflexivity |]);
    intros fr; cbn.
  all: destruct fr as [r | e]; cbn.
  all: try (destruct ((status r <? 200)%Z || (status r >? 300)%Z); cbn).
  all: try (unfold read_json; destruct (payload r) as [v | msg | msg]; cbn; try destruct v; cbn).
  all: try (destruct (name e =? "AbortError"); cbn).
  all: try (unfold NoteApi.rethrow; match goal with |- context [includes ?a ?b] => destruct (includes a b) end; cbn).
  all: try (do 2 eexists; reflexivity).
Qed.


(** ** The event loop: one task at a time *)

Lemma update_other el x f c : x <> el -> update_control el f c x = c x.
Proof.
  intros H. unfold update_control. destruct (Nat.eqb_spec x el); [contradiction | reflexivity].
Qed.

Lemma exec_S fuel stack micro s :
  exec (S fuel) stack micro s =
  match stack with
  | [] =>
      match micro with
      | [] => Some s
      | m :: micro' => exec fuel [m] micro' s
      end
  | p :: rest =>
      match p with
      | Ret _ => exec fuel rest micro s
      | Throw e => exec fuel rest micro (record [Uncaught e] s)
      | Unmodelled => None
      | Do a k =>
          exec fuel (listeners a s ++ k :: rest) (micro ++ woken a s)
            (perform a (record [Did a] s))
      | ReadNotes v k => exec fuel (k (_notes (view v s)) :: rest) micro s
      | ReadShadow v k => exec fuel (k (shadowRoot (view v s)) :: rest) micro s
      | ReadForm k => exec fuel (k (form s) :: rest) micro s
      | NewPromise k =>
          exec fuel (k (next_promise s) :: rest) micro
            (with_promises (update_complete s) (settled s) (awaiting s)
               (S (next_promise s)) s)
      | AwaitPromise p k =>
          if existsb (Nat.eqb p) (settled s)
          then exec fuel rest (micro ++ [k]) s
          else exec fuel rest micro
                 (with_promises (update_complete s) (settled s)
                    (awaiting s ++ [(p, k)]) (next_promise s) s)
      | AwaitGateway g k =>
          let (s', ready) := start_gateway (advance g None []) k s in
          exec fuel rest (micro ++ ready) s'
      end
  end.
Proof. reflexivity. Qed.

Arguments exec : simpl never.

Ltac is_step p :=
  lazymatch p with
  | Ret _ => idtac
  | Throw _ => idtac
  | Unmodelled => idtac
  | Do _ _ => idtac
  | ReadNotes _ _ => idtac
  | ReadShadow _ _ => idtac
  | ReadForm _ => idtac
  | NewPromise _ => idtac
  | AwaitPromise _ _ => idtac
  | AwaitGateway _ _ => idtac
  end.

(** One step of [exec], when the code to run next is known. *)
Ltac exec_step :=
  cbn;
  lazymatch goal with
  | |- context [exec (S ?n) [] [] ?s] => rewrite (exec_S n [] [] s)
  | |- context [exec (S ?n) [] (?m :: ?ms) ?s] => rewrite (exec_S n [] (m :: ms) s)
  | |- context [exec (S ?n) (?p :: ?rest) ?ms ?s] =>
      let p' := eval hnf in p in
      is_step p'; change p with p'; rewrite (exec_S n (p' :: rest) ms s)
  end;
  cbn; rewrite ?Nat.eqb_refl; cbn.

(** Choose the unknown prefix [?x] in a goal [_ ++ l = _ ++ ?x ++ _] whose
    last list has [n] elements. *)
Ltac split_suffix n :=
  lazymatch goal with
  | |- _ ++ ?l = _ ++ ?x ++ _ =>
      let k := eval cbn in (List.length l - n) in
      let pre := eval cbn in (firstn k l) in
      unify x pre
  end.

(** Flatten the trace on the left of an equation between effects. *)
Ltac flatten_effects :=
  lazymatch goal with
  | |- ?L = ?R =>
      let X := fresh "X" in let HX := fresh "HX" in
      remember R as X eqn:HX;
      repeat rewrite effects_app; repeat rewrite effects_net;
      cbn [effects flat_map app]; repeat rewrite <- app_assoc; cbn [app];
      repeat rewrite app_nil_r;
      subst X
  end.

Ltac exec_run := try unfold step; try unfold run_task; repeat exec_step.

(** An intent event makes its control busy and starts the gateway call of
    [handleNoteOperation]; nothing else of the page changes but the form. *)
Lemma intent_step s ev i el :
  requests s = [] ->
  intent_of s ev = Some i ->
  intent_button i = Some el ->
  exists fl f' c' tr' pre post,
    step s ev =
      Some (mkState (active s) (archive s) f' c' (notes_updated s)
              (update_complete s) (settled s) (awaiting s) [fl]
              (next_promise s) tr')
    /\ parked (handleNoteOperation (intent_data i) (intent_operation i) (Some el)) = Some fl
    /\ c' el = busy
    /\ (forall x, x <> el -> c' x = controls s x)
    /\ effects tr' =
         effects (trace s) ++ pre ++
         [DispatchIntent i; SetChildren el []; AppendChild el (TextNode "Loading");
          AppendChild el LoadingSpinner; SetDisabled el true] ++ post
    /\ existsb is_broadcast (pre ++ post) = false
    /\ existsb (restores el) (pre ++ post) = false.
Proof.
  intros Hr Hi Hb.
  destruct s as [a r f c nu uc st aw rq np tr]. cbn in Hr. subst rq.
  destruct ev; cbn in Hi; try discriminate; injection Hi as <-;
    cbn in Hb; first [subst button | injection Hb as <-].
  - (* Submit *)
    do 4 eexists. exists [PreventDefault]. eexists.
    split; [exec_run; reflexivity |].
    split; [reflexivity |].
    split; [rewrite !update_same; reflexivity |].
    split; [intros x Hx; rewrite !update_other by exact Hx; reflexivity |].
    split; [flatten_effects; reflexivity |].
    split; reflexivity.
  - do 4 eexists. exists []. eexists.
    split; [exec_run; reflexivity |].
    split; [reflexivity |].
    split; [rewrite !update_same; reflexivity |].
    split; [intros x Hx; rewrite !update_other by exact Hx; reflexivity |].
    split; [flatten_effects; reflexivity |].
    split; reflexivity.
  - do 4 eexists. exists []. eexists.
    split; [exec_run; reflexivity |].
    split; [reflexivity |].
    split; [rewrite !update_same; reflexivity |].
    split; [intros x Hx; rewrite !update_other by exact Hx; reflexivity |].
    split; [flatten_effects; reflexivity |].
    split; reflexivity.
  - do 4 eexists. exists []. eexists.
    split; [exec_run; reflexivity |].
    split; [reflexivity |].
    split; [rewrite !update_same; reflexivity |].
    split; [intros x Hx; rewrite !update_other by exact Hx; reflexivity |].
    split; [flatten_effects; reflexivity |].
    split; reflexivity.
Qed.

Lemma nth_error_middle {A} (before after : list A) (x : A) :
  nth_error (before ++ x :: after) (List.length before) = Some x.
Proof. induction before; cbn; auto. Qed.

Lemma remove_nth_middle {A} (before after : list A) (x : A) :
  remove_nth (List.length before) (before ++ x :: after) = before ++ after.
Proof.
  unfold remove_nth. induction before as [| y before IH]; cbn.
  - reflexivity.
  - cbn in IH. now rewrite IH.
Qed.

Lemma step_settles_middle a r f c nu uc st aw np tr before after fl b fr o log :
  fetch_settles (fl_timer fl) (fl_request fl) b = Some fr ->
  advance (fl_gateway fl fr) (fl_timer fl) [] = (Settled o, log) ->
  step (mkState a r f c nu uc st aw (before ++ fl :: after) np tr)
       (Settles (List.length before) b) =
  exec (64 + 16 * (List.length nu + List.length uc + List.length aw)) []
    [fl_then fl o]
    (mkState a r f c nu uc st aw (before ++ after) np (tr ++ map Net log)).
Proof.
  intros Hf Ha. unfold step.
  cbn [requests]. rewrite nth_error_middle, Hf, Ha, remove_nth_middle.
  reflexivity.
Qed.

Lemma always_outcome op d b : exists o, outcome_of (call op d) b = Some o.
Proof.
  destruct (resumed_call_settles op d) as (rq & k & log0 & Hadv & Hsig & Hall).
  destruct (timer_settles 5000 rq b Hsig) as (fr & Hf).
  destruct (Hall fr) as (o & log & Ho).
  exists o. unfold outcome_of. rewrite run_gw_advance, Hadv, Hf.
  rewrite run_gw_advance, advance_log, Ho. reflexivity.
Qed.

(** A successful write registers the one-time listener, broadcasts
    [notes-updated] once, starts one fetch per view and waits. *)
Lemma write_succeeds a r f c nu np tr fl d op el bw v :
  nu = [active_note; archive_note] \/ nu = [archive_note; active_note] ->
  parked (handleNoteOperation d op (Some el)) = Some fl ->
  outcome_of (call op d) bw = Some (Returned v) ->
  exists tr' flA flR,
    step (mkState a r f c nu [] [] [] [fl] np tr) (Settles 0 bw) =
      Some (mkState a r f c nu [np] []
              [(np, HelperLoading.hideLoading (Some el) (getButttonTextForOperation op))]
              (map (fun x => match x with active_note => flA | archive_note => flR end) nu)
              (S np) tr')
    /\ parked (handleNotesUpdated active_note) = Some flA
    /\ parked (handleNotesUpdated archive_note) = Some flR
    /\ effects tr' =
         effects tr ++ [AddUpdateCompleteListener np; DispatchNotesUpdated (Some el)].
Proof.
  intros Hnu Hp Ho.
  destruct (resumed_call_settles op d) as (rq & k & log0 & Hadv & Hsig & Hall).
  destruct (waiting_settles _ _ _ _ _ _ _ Ho Hadv) as (fr & log & Hf & Ha).
  cbn in Hp. rewrite Hadv in Hp. injection Hp as <-.
  destruct Hnu as [-> | ->]; do 3 eexists.
  all: (split;
    [ match goal with |- context [mkState _ _ _ _ ?l _ _ _ [mkInFlight ?t ?q ?g ?K]] =>
        pose proof (step_settles_middle a r f c l [] [] [] np tr [] []
                      (mkInFlight t q g K) bw fr _ log Hf Ha) as Hs
      end;
      cbn [app List.length] in Hs; rewrite Hs; exec_run; reflexivity
    | split; [reflexivity |]; split; [reflexivity |];
      flatten_effects; reflexivity ]).
Qed.

(** A failed write is reported by [alert] and the control is restored at
    once; nothing is broadcast and no view fetches. *)
Lemma write_fails a r f c nu uc st aw np tr fl d op el bw e :
  parked (handleNoteOperation d op (Some el)) = Some fl ->
  outcome_of (call op d) bw = Some (Thrown e) ->
  exists c' tr',
    step (mkState a r f c nu uc st aw [fl] np tr) (Settles 0 bw) =
      Some (mkState a r f c' nu uc st aw [] np tr')
    /\ effects tr' =
         effects tr ++
         [Alert (message e);
          SetChildren el [TextNode (getButttonTextForOperation op)];
          SetDisabled el false]
    /\ c' el = idle (getButttonTextForOperation op)
    /\ (forall x, x <> el -> c' x = c x).
Proof.
  intros Hp Ho.
  destruct (resumed_call_settles op d) as (rq & k & log0 & Hadv & Hsig & Hall).
  destruct (waiting_settles _ _ _ _ _ _ _ Ho Hadv) as (fr & log & Hf & Ha).
  cbn in Hp. rewrite Hadv in Hp. injection Hp as <-.
  do 2 eexists. split.
  - match goal with |- context [mkInFlight ?t ?q ?g ?K] =>
      pose proof (step_settles_middle a r f c nu uc st aw np tr [] []
                    (mkInFlight t q g K) bw fr _ log Hf Ha) as Hs
    end.
    cbn [app List.length] in Hs. rewrite Hs. exec_run.
    rewrite ?label_text. reflexivity.
  - split; [flatten_effects; reflexivity |].
    split; [rewrite !update_same; reflexivity |].
    intros x Hx. rewrite !update_other by exact Hx. reflexivity.
Qed.


(** The active-set view shows the result of its fetch and acknowledges;
    the coordinator, waiting on promise [p], then restores its control. *)
Lemma active_settles_restores a r f c nu p np tr before after fl el label ba oa :
  label <> "" ->
  parked (handleNotesUpdated active_note) = Some fl ->
  outcome_of NoteApi.getActiveNote ba = Some oa ->
  exists a' c' tr' shown,
    step (mkState a r f c nu [p] []
            [(p, HelperLoading.hideLoading (Some el) label)]
            (before ++ fl :: after) np tr)
         (Settles (List.length before) ba) =
      Some (mkState a' r f c' nu [] [] [] (before ++ after) np tr')
    /\ effects tr' =
         effects tr ++ shown ++
         [DispatchUpdateComplete; SetChildren el [TextNode label];
          SetDisabled el false]
    /\ forallb (concerns active_note) shown = true
    /\ c' el = idle label
    /\ (forall x, x <> el -> c' x = c x)
    /\ (forall e, oa = Thrown e -> a' = a /\ shown = [Alert (message e)])
    /\ (forall l, oa = Returned (Data (JArr l)) ->
          a' = active_rendered l).
Proof.
  intros Hlabel Hp Ho.
  cbn in Hp. injection Hp as <-.
  destruct (waiting_settles _ _ _ _ _ _ _ Ho eq_refl) as (fr & log & Hf & Ha).
  match goal with |- context [mkInFlight ?t ?q ?g ?K] =>
    pose proof (step_settles_middle a r f c nu [p] []
                  [(p, HelperLoading.hideLoading (Some el) label)] np tr
                  before after (mkInFlight t q g K) ba fr _ log Hf Ha) as Hs
  end.
  clear Ho Hf Ha.
  destruct oa as [[d | h] | e]; [destruct d as [| | b0 | z | s0 | l | fields] |..].
  6: destruct (items_of (rev l)) as [items [err |]] eqn:Hitems.
  all: do 4 eexists; split;
      [ rewrite Hs; exec_run; rewrite ?Hitems; exec_run;
        rewrite ?(text_content_filled _ Hlabel);
        lazymatch goal with |- Some _ = Some _ => reflexivity end
      | split; [flatten_effects; split_suffix 3; reflexivity |];
        split; [reflexivity |];
        split; [rewrite !update_same; reflexivity |];
        split; [intros x Hx; rewrite !update_other by exact Hx; reflexivity |];
        split; [intros e0 He0; try discriminate |
                intros l0 Hl0; try discriminate ] ].
  - injection Hl0 as <-. unfold active_rendered. rewrite Hitems. clear Hitems.
    destruct l; reflexivity.
  - injection Hl0 as <-. unfold active_rendered. rewrite Hitems. clear Hitems.
    destruct l; reflexivity.
  - injection He0 as <-. split; reflexivity.
Qed.

Arguments items_of : simpl never.

Lemma positive_length {A} (x : A) (l : list A) :
  (0 <? Z.of_nat (List.length (x :: l)))%Z = true.
Proof. apply Z.ltb_lt. cbn [List.length]. lia. Qed.

Lemma archive_settles a r f c nu uc st aw np tr before after fl ba oa :
  parked (handleNotesUpdated archive_note) = Some fl ->
  outcome_of NoteApi.getArchiveNote ba = Some oa ->
  exists r' tr' shown,
    let result :=
      step (mkState a r f c nu uc st aw (before ++ fl :: after) np tr)
           (Settles (List.length before) ba) in
    (result = None \/
     result = Some (mkState a r' f c nu uc st aw (before ++ after) np tr'))
    /\ effects tr' = effects tr ++ shown
    /\ forallb (concerns archive_note) shown = true
    /\ (forall e, oa = Thrown e ->
          result = Some (mkState a r f c nu uc st aw (before ++ after) np tr')
          /\ shown = [ConsoleLog e])
    /\ (forall l, oa = Returned (Data (JArr l)) ->
          result = Some (mkState a (archive_rendered l) f c nu uc st aw
                           (before ++ after) np tr')).
Proof.
  intros Hp Ho.
  cbn in Hp. injection Hp as <-.
  destruct (waiting_settles _ _ _ _ _ _ _ Ho eq_refl) as (fr & log & Hf & Ha).
  match goal with |- context [mkInFlight ?t ?q ?g ?K] =>
    pose proof (step_settles_middle a r f c nu uc st aw np tr
                  before after (mkInFlight t q g K) ba fr _ log Hf Ha) as Hs
  end.
  clear Ho Hf Ha. cbn zeta. rewrite Hs. clear Hs.
  destruct oa as [[d | h] | e]; [destruct d as [| | b0 | z | s0 | l | fields] |..].
  7: destruct (greater_than_zero (lookup "length" fields)) as [[|] |] eqn:Hgt.
  6: destruct l as [| x l]; [| destruct (items_of (x :: l)) as [items [err |]] eqn:Hitems].
  5: destruct (0 <? Z.of_nat (String.length s0))%Z eqn:Hlen.
  4: destruct (0 <? z)%Z eqn:Hz.
  3: destruct b0.
  all: exec_run; rewrite ?Hgt, ?Hlen, ?Hz, ?positive_length; exec_run;
    rewrite ?Hitems; exec_run.
  all: try (do 3 eexists; split; [right; reflexivity |];
            split; [flatten_effects; reflexivity |];
            split; [reflexivity |];
            split; [intros e0 He0; try discriminate |
                    intros l0 Hl0; try discriminate]).
  - injection Hl0 as <-. reflexivity.
  - injection Hl0 as <-. unfold archive_rendered. rewrite Hitems. reflexivity.
  - injection Hl0 as <-. unfold archive_rendered. rewrite Hitems. reflexivity.
  - exists r, tr, []. split; [left; reflexivity |].
    split; [now rewrite app_nil_r |]. split; [reflexivity |].
    split; intros; discriminate.
  - injection He0 as <-. split; reflexivity.
Qed.

Lemma view_connects v a r f c nu uc st aw rq np tr :
  exists fl tr',
    step (mkState a r f c nu uc st aw rq np tr) (Connected v) =
      Some (with_view v
              (mkView (_notes (view v (mkState a r f c nu uc st aw rq np tr)))
                 (mkShadow (loading_heading v) LoadingPlaceholder None))
              (mkState a r f c nu uc st aw (rq ++ [fl]) np tr'))
    /\ parked (initial_fetch v) = Some fl
    /\ effects tr' =
         effects tr ++
         [SetInnerHTML v (mkShadow (loading_heading v) LoadingPlaceholder None)].
Proof.
  destruct v; do 2 eexists.
  all: (split; [exec_run; reflexivity |]);
    (split; [reflexivity |]); flatten_effects; reflexivity.
Qed.

Lemma archive_initial_settles a r f c nu uc st aw np tr before after fl ba oa :
  parked (initial_fetch archive_note) = Some fl ->
  outcome_of NoteApi.getArchiveNote ba = Some oa ->
  exists r' tr' shown,
    let result :=
      step (mkState a r f c nu uc st aw (before ++ fl :: after) np tr)
           (Settles (List.length before) ba) in
    (result = None \/
     result = Some (mkState a r' f c (nu ++ [archive_note]) uc st aw
                      (before ++ after) np tr'))
    /\ effects tr' = effects tr ++ shown ++ [AddNotesUpdatedListener archive_note]
    /\ forallb (concerns archive_note) shown = true
    /\ (forall e, oa = Thrown e ->
          result = Some (mkState a r f c (nu ++ [archive_note]) uc st aw
                           (before ++ after) np tr')
          /\ shown = [ConsoleLog e])
    /\ (forall l, oa = Returned (Data (JArr l)) ->
          result = Some (mkState a (archive_rendered l) f c
                           (nu ++ [archive_note]) uc st aw
                           (before ++ after) np tr')).
Proof.
  intros Hp Ho.
  cbn in Hp. injection Hp as <-.
  destruct (waiting_settles _ _ _ _ _ _ _ Ho eq_refl) as (fr & log & Hf & Ha).
  match goal with |- context [mkInFlight ?t ?q ?g ?K] =>
    pose proof (step_settles_middle a r f c nu uc st aw np tr
                  before after (mkInFlight t q g K) ba fr _ log Hf Ha) as Hs
  end.
  clear Ho Hf Ha. cbn zeta. rewrite Hs. clear Hs.
  destruct oa as [[d | h] | e]; [destruct d as [| | b0 | z | s0 | l | fields] |..].
  7: destruct (greater_than_zero (lookup "length" fields)) as [[|] |] eqn:Hgt.
  6: destruct l as [| x l]; [| destruct (items_of (x :: l)) as [items [err |]] eqn:Hitems].
  5: destruct (0 <? Z.of_nat (String.length s0))%Z eqn:Hlen.
  4: destruct (0 <? z)%Z eqn:Hz.
  3: destruct b0.
  all: exec_run; rewrite ?Hgt, ?Hlen, ?Hz, ?positive_length; exec_run;
    rewrite ?Hitems; exec_run.
  all: try (do 3 eexists; split; [right; reflexivity |];
            split; [flatten_effects; split_suffix 1; reflexivity |];
            split; [reflexivity |];
            split; [intros e0 He0; try discriminate |
                    intros l0 Hl0; try discriminate]).
  - injection Hl0 as <-. reflexivity.
  - injection Hl0 as <-. unfold archive_rendered. rewrite Hitems. reflexivity.
  - injection Hl0 as <-. unfold archive_rendered. rewrite Hitems. reflexivity.
  - exists r, (tr ++ [Did (AddNotesUpdatedListener archive_note)]), [].
    split; [left; reflexivity |].
    split; [rewrite effects_app; reflexivity |]. split; [reflexivity |].
    split; intros; discriminate.
  - injection He0 as <-. split; reflexivity.
Qed.

Lemma active_initial_settles a r f c nu uc st aw np tr before after fl ba oa :
  parked (initial_fetch active_note) = Some fl ->
  outcome_of NoteApi.getActiveNote ba = Some oa ->
  exists a' tr' shown,
    step (mkState a r f c nu uc st aw (before ++ fl :: after) np tr)
         (Settles (List.length before) ba) =
      Some (mkState a' r f c (nu ++ [active_note]) uc st aw
              (before ++ after) np tr')
    /\ effects tr' = effects tr ++ shown ++ [AddNotesUpdatedListener active_note]
    /\ forallb (concerns active_note) shown = true
    /\ (forall e, oa = Thrown e -> a' = a /\ shown = [Alert (message e)])
    /\ (forall l, oa = Returned (Data (JArr l)) -> a' = active_rendered l).
Proof.
  intros Hp Ho.
  cbn in Hp. injection Hp as <-.
  destruct (waiting_settles _ _ _ _ _ _ _ Ho eq_refl) as (fr & log & Hf & Ha).
  match goal with |- context [mkInFlight ?t ?q ?g ?K] =>
    pose proof (step_settles_middle a r f c nu uc st aw np tr
                  before after (mkInFlight t q g K) ba fr _ log Hf Ha) as Hs
  end.
  clear Ho Hf Ha. rewrite Hs. clear Hs.
  destruct oa as [[d | h] | e]; [destruct d as [| | b0 | z | s0 | l | fields] |..].
  6: destruct (items_of (rev l)) as [items [err |]] eqn:Hitems.
  all: do 3 eexists; split;
      [ exec_run; rewrite ?Hitems; exec_run;
        lazymatch goal with |- Some _ = Some _ => reflexivity end
      | split; [flatten_effects; split_suffix 1; reflexivity |];
        split; [reflexivity |];
        split; [intros e0 He0; try discriminate |
                intros l0 Hl0; try discriminate ] ].
  - injection Hl0 as <-. unfold active_rendered. rewrite Hitems. clear Hitems.
    destruct l; reflexivity.
  - injection Hl0 as <-. unfold active_rendered. rewrite Hitems. clear Hitems.
    destruct l; reflexivity.
  - injection He0 as <-. split; reflexivity.
Qed.

(** ** The gateway: the claims *)

Lemma gateway_as_fetch op d net :
  exists url options,
    call op d = gtry (NoteApi.fetchWithTimeout url options) NoteApi.rethrow
    /\ (is_method "DELETE" options || is_method "POST" options) = negb (is_read op)
    /\ gateway op d net =
       match run_gw (NoteApi.fetchWithTimeout url options) None net [] with
       | Some (Thrown e, log', net') =>
           Some (Thrown (if includes (message e) "Request took longer"
                         then e else generic_error), log', net')
       | other => other
       end.
Proof.
  destruct (call_shape op d) as (url & options & Hc & Hm).
  exists url, options. split; [exact Hc |]. split; [exact Hm |].
  unfold gateway. rewrite Hc. apply run_rethrow.
Qed.

(** C4.  For every gateway operation and every response that arrives
    before the timeout: a status of exactly 300 is accepted (a write returns
    the response handle, a read returns the decoded [data]), while a status
    strictly below 200 or strictly above 300, such as 199 or 301, makes the
    call fail with the generic error. *)
Theorem status_300_accepted_199_and_301_rejected
  (op : operation) (d : note_data) (t : N) (r : response)
  (rest : list net_behaviour) :
  (t <= 5000)%N ->
  ((status r < 200 \/ 300 < status r)%Z ->
   exists log,
     gateway op d (Responds t r :: rest) = Some (Thrown generic_error, log, rest))
  /\ (status r = 300%Z -> is_read op = false ->
      exists log,
        gateway op d (Responds t r :: rest) = Some (Returned (Handle r), log, rest))
  /\ (status r = 300%Z -> is_read op = true ->
      forall fields, payload r = JsonBody (JObj fields) ->
      exists log,
        gateway op d (Responds t r :: rest) =
        Some (Returned (Data (lookup "data" fields)), log, rest)).
Proof.
  intros Ht.
  destruct (gateway_as_fetch op d (Responds t r :: rest))
    as (url & options & _ & Hm & ->).
  split; [| split].
  - intros Hs. rewrite fetchWithTimeout_rejected_status.
    + eexists. reflexivity.
    + exact Ht.
    + unfold accepted. lia.
  - intros Hs Hw. rewrite Hw in Hm. rewrite fetchWithTimeout_write.
    + eexists. reflexivity.
    + exact Ht.
    + unfold accepted. lia.
    + exact Hm.
  - intros Hs Hrd fields Hp. rewrite Hrd in Hm. rewrite fetchWithTimeout_read.
    + unfold read_json. rewrite Hp. eexists. reflexivity.
    + exact Ht.
    + unfold accepted. lia.
    + exact Hm.
Qed.

(** C4 at [deleteNote]: status 199 is refused, status 300 is accepted. *)
Lemma status_300_accepted_199_and_301_rejected_witness :
  (10 <= 5000)%N
  /\ (exists log,
        gateway deleteNote (NoteId "n1") [Responds 10 (mkResponse 199 (JsonBody JNull))] =
        Some (Thrown generic_error, log, []))
  /\ (exists log,
        gateway deleteNote (NoteId "n1") [Responds 10 (mkResponse 300 (JsonBody JNull))] =
        Some (Returned (Handle (mkResponse 300 (JsonBody JNull))), log, [])).
Proof.
  split; [apply N.leb_le; reflexivity |].
  split.
  - apply (status_300_accepted_199_and_301_rejected deleteNote (NoteId "n1") 10
             (mkResponse 199 (JsonBody JNull)) []).
    + apply N.leb_le; reflexivity.
    + left. reflexivity.
  - apply (status_300_accepted_199_and_301_rejected deleteNote (NoteId "n1") 10
             (mkResponse 300 (JsonBody JNull)) []).
    + apply N.leb_le; reflexivity.
    + reflexivity.
    + reflexivity.
Defined.

(** C6.  A read operation returns the [data] field of the decoded body and
    reads the body once; a write operation returns the response handle and
    never reads the body, whatever happens; and every call settles after
    exactly one request, leaving the rest of the network untouched
    (no retry). *)
Theorem reads_return_data_writes_return_handle_one_request
  (op : operation) (d : note_data) (b : net_behaviour)
  (rest : list net_behaviour) :
  (forall t r fields,
     b = Responds t r -> (t <= 5000)%N -> accepted (status r) ->
     is_read op = true -> payload r = JsonBody (JObj fields) ->
     exists log,
       gateway op d (b :: rest) =
       Some (Returned (Data (lookup "data" fields)), log, rest)
       /\ count is_read_json log = 1)
  /\ (forall t r,
        b = Responds t r -> (t <= 5000)%N -> accepted (status r) ->
        is_read op = false ->
        exists log,
          gateway op d (b :: rest) = Some (Returned (Handle r), log, rest)
          /\ count is_read_json log = 0)
  /\ (exists o log,
        gateway op d (b :: rest) = Some (o, log, rest)
        /\ count is_fetch log = 1)
  /\ (forall o log net',
        is_read op = false ->
        gateway op d (b :: rest) = Some (o, log, net') ->
        count is_read_json log = 0).
Proof.
  destruct (gateway_as_fetch op d (b :: rest))
    as (url & options & _ & Hm & ->).
  split; [| split; [| split]].
  - intros t r fields -> Ht Hs Hrd Hp. rewrite Hrd in Hm.
    rewrite fetchWithTimeout_read by assumption.
    unfold read_json. rewrite Hp. eexists. split; reflexivity.
  - intros t r -> Ht Hs Hw. rewrite Hw in Hm.
    rewrite fetchWithTimeout_write by assumption.
    eexists. split; reflexivity.
  - destruct (fetchWithTimeout_returns url options b rest) as (o' & log' & Hrun).
    destruct (fetchWithTimeout_once _ _ _ _ _ _ _ Hrun) as [_ Hone].
    rewrite Hrun. destruct o'; eauto.
  - intros o log net' Hw H. rewrite Hw in Hm. cbn in Hm.
    destruct (settles_within 5000 b) eqn:Hb.
    + destruct b as [t r | t msg |]; cbn in Hb; try discriminate;
        apply N.leb_le in Hb.
      * destruct (accepted_dec (status r)) as [Hs | Hs].
        -- rewrite fetchWithTimeout_write in H by assumption.
           inversion H; reflexivity.
        -- rewrite fetchWithTimeout_rejected_status in H by assumption.
           inversion H; reflexivity.
      * rewrite fetchWithTimeout_network_error in H by assumption.
        destruct (includes _ _); inversion H; reflexivity.
    + rewrite fetchWithTimeout_late in H by assumption.
      inversion H; reflexivity.
Qed.

(** C6 at [getActiveNote] answered with a list of two notes, and at
    [deleteNote] answered with status 200. *)
Lemma reads_return_data_writes_return_handle_one_request_witness :
  (exists log,
     gateway getActiveNote (NoteId "") [serves [older; newer]] =
     Some (Returned (Data (JArr [older; newer])), log, [])
     /\ count is_read_json log = 1)
  /\ (exists r log,
        gateway deleteNote (NoteId "notes-1") [confirms] =
        Some (Returned (Handle r), log, [])
        /\ count is_read_json log = 0).
Proof.
  split.
  - destruct (reads_return_data_writes_return_handle_one_request
                getActiveNote (NoteId "") (serves [older; newer]) [])
      as (Hread & _).
    refine (Hread 120%N _ [("status", JStr "success"); ("data", JArr [older; newer])]
              eq_refl _ _ eq_refl eq_refl).
    + vm_compute; discriminate.
    + unfold accepted; cbn; lia.
  - destruct (reads_return_data_writes_return_handle_one_request
                deleteNote (NoteId "notes-1") confirms [])
      as (_ & Hwrite & _).
    eexists. refine (Hwrite 80%N _ eq_refl _ _ eq_refl).
    + vm_compute; discriminate.
    + unfold accepted; cbn; lia.
Defined.

(** ** The refresh protocol *)

Lemma parked_url v fl :
  parked (handleNotesUpdated v) = Some fl -> url (fl_request fl) = view_url v.
Proof. destruct v; cbn; intros H; injection H as <-; reflexivity. Qed.

(** From an intent to the broadcast: the write succeeds, the coordinator
    registers its one-time listener, broadcasts once and waits, with one
    fetch per view in flight and the control still busy. *)
Lemma write_cycle s ev i el bw v :
  quiescent s -> subscribed s ->
  intent_of s ev = Some i ->
  intent_button i = Some el ->
  outcome_of (call (intent_operation i) (intent_data i)) bw = Some (Returned v) ->
  exists s1 f' c' tr' flA flR,
    step s ev = Some s1
    /\ step s1 (Settles 0 bw) =
       Some (mkState (active s) (archive s) f' c' (notes_updated s)
               [next_promise s] []
               [(next_promise s,
                 HelperLoading.hideLoading (Some el)
                   (getButttonTextForOperation (intent_operation i)))]
               (map (fun x => match x with
                              | active_note => flA
                              | archive_note => flR
                              end) (notes_updated s))
               (S (next_promise s)) tr')
    /\ parked (handleNotesUpdated active_note) = Some flA
    /\ parked (handleNotesUpdated archive_note) = Some flR
    /\ c' el = busy
    /\ effects tr' =
         effects (trace s1) ++
         [AddUpdateCompleteListener (next_promise s);
          DispatchNotesUpdated (Some el)].
Proof.
  intros (Hr & Haw & Huc & Hst) Hsub Hi Hb Ho.
  destruct (intent_step s ev i el Hr Hi Hb)
    as (fl & f' & c' & tr1 & pre & post & Hs1 & Hp & Hbusy & _ & _).
  rewrite Haw, Huc, Hst in Hs1.
  destruct (write_succeeds (active s) (archive s) f' c' (notes_updated s)
              (next_promise s) tr1 fl _ _ el bw v Hsub Hp Ho)
    as (tr' & flA & flR & Hs2 & HpA & HpR & Htr).
  eexists. exists f', c', tr', flA, flR.
  split; [exact Hs1 |]. split; [exact Hs2 |].
  split; [exact HpA |]. split; [exact HpR |]. split; [exact Hbusy |].
  exact Htr.
Qed.

(** C1, amended.  After a successful write, handled from a quiescent page
    on which both list views are subscribed, the coordinator broadcasts
    once, each view starts exactly one re-fetch, and the control stays busy
    until the re-fetch of the active-set view settles: in that very step
    the control becomes idle with the operation's label.  The re-fetch of
    the archived-set view has been started too, but it may still be in
    flight when the control becomes idle; when it settles first, the
    control stays busy until the active-set view has settled. *)
Theorem control_idle_once_active_view_refetched s ev i el bw v :
  quiescent s -> subscribed s ->
  intent_of s ev = Some i ->
  intent_button i = Some el ->
  outcome_of (call (intent_operation i) (intent_data i)) bw = Some (Returned v) ->
  exists s1 s2,
    step s ev = Some s1 /\ step s1 (Settles 0 bw) = Some s2
    /\ effects (trace s2) =
         effects (trace s1) ++
         [AddUpdateCompleteListener (next_promise s);
          DispatchNotesUpdated (Some el)]
    /\ map (fun fl => url (fl_request fl)) (requests s2) =
         map view_url (notes_updated s)
    /\ controls s2 el = busy
    /\ (forall ba,
          exists s3 shown,
            step s2 (Settles (position active_note (notes_updated s)) ba) = Some s3
            /\ effects (trace s3) =
                 effects (trace s2) ++ shown ++
                 [DispatchUpdateComplete;
                  SetChildren el
                    [TextNode (getButttonTextForOperation (intent_operation i))];
                  SetDisabled el false]
            /\ forallb (concerns active_note) shown = true
            /\ controls s3 el = idle (getButttonTextForOperation (intent_operation i))
            /\ map (fun fl => url (fl_request fl)) (requests s3) =
                 [view_url archive_note]
            /\ archive s3 = archive s)
    /\ (forall br s2',
          step s2 (Settles (position archive_note (notes_updated s)) br) = Some s2' ->
          controls s2' el = busy
          /\ (exists shown,
                effects (trace s2') = effects (trace s2) ++ shown
                /\ forallb (concerns archive_note) shown = true)
          /\ map (fun fl => url (fl_request fl)) (requests s2') =
               [view_url active_note]
          /\ forall ba,
               exists s3 shown,
                 step s2' (Settles 0 ba) = Some s3
                 /\ effects (trace s3) =
                      effects (trace s2') ++ shown ++
                      [DispatchUpdateComplete;
                       SetChildren el
                         [TextNode (getButttonTextForOperation (intent_operation i))];
                       SetDisabled el false]
                 /\ forallb (concerns active_note) shown = true
                 /\ controls s3 el =
                      idle (getButttonTextForOperation (intent_operation i))
                 /\ requests s3 = []).
Proof.
  intros Hq Hsub Hi Hb Ho.
  destruct (write_cycle s ev i el bw v Hq Hsub Hi Hb Ho)
    as (s1 & f' & c' & tr' & flA & flR & Hs1 & Hs2 & HpA & HpR & Hbusy & Htr).
  exists s1. eexists. split; [exact Hs1 |]. split; [exact Hs2 |].
  cbn [trace requests controls archive].
  split; [exact Htr |].
  pose proof (parked_url _ _ HpA) as HuA. pose proof (parked_url _ _ HpR) as HuR.
  split; [destruct Hsub as [H | H]; rewrite H; cbn [map]; now rewrite HuA, HuR |].
  split; [exact Hbusy |].
  split.
  - intros ba.
    destruct (always_outcome getActiveNote (NoteId "") ba) as (oa & Hoa).
    destruct Hsub as [H | H]; rewrite H; cbn [map position].
    + destruct (active_settles_restores (active s) (archive s) f' c'
                  [active_note; archive_note] (next_promise s) (S (next_promise s))
                  tr' [] [flR] flA el
                  (getButttonTextForOperation (intent_operation i)) ba oa (label_filled _) HpA Hoa)
        as (a' & c3 & tr3 & shown & Hs3 & Htr3 & Hsh & Hidle & _).
      eexists. exists shown. split; [exact Hs3 |].
      cbn [trace requests controls archive app map].
      split; [exact Htr3 |]. split; [exact Hsh |]. split; [exact Hidle |].
      split; [now rewrite HuR | reflexivity].
    + destruct (active_settles_restores (active s) (archive s) f' c'
                  [archive_note; active_note] (next_promise s) (S (next_promise s))
                  tr' [flR] [] flA el
                  (getButttonTextForOperation (intent_operation i)) ba oa (label_filled _) HpA Hoa)
        as (a' & c3 & tr3 & shown & Hs3 & Htr3 & Hsh & Hidle & _).
      eexists. exists shown. split; [exact Hs3 |].
      cbn [trace requests controls archive app map].
      split; [exact Htr3 |]. split; [exact Hsh |]. split; [exact Hidle |].
      split; [now rewrite HuR | reflexivity].
  - intros br s2' Hstep.
    destruct (always_outcome getArchiveNote (NoteId "") br) as (ob & Hob).
    destruct Hsub as [H | H]; rewrite H in *; cbn [map position] in *.
    + destruct (archive_settles (active s) (archive s) f' c'
                  [active_note; archive_note] [next_promise s] []
                  [(next_promise s,
                    HelperLoading.hideLoading (Some el)
                      (getButttonTextForOperation (intent_operation i)))]
                  (S (next_promise s)) tr' [flA] [] flR br ob HpR Hob)
        as (r' & trb & shownb & Hres & Htrb & Hshb & _).
      cbn zeta in Hres. cbn [List.length app] in Hres.
      rewrite Hstep in Hres. destruct Hres as [Hres | Hres]; [discriminate |].
      injection Hres as ->.
      cbn [trace requests controls archive app map].
      split; [exact Hbusy |]. split; [exists shownb; auto |].
      split; [now rewrite HuA |].
      intros ba.
      destruct (always_outcome getActiveNote (NoteId "") ba) as (oa & Hoa).
      destruct (active_settles_restores (active s) r' f' c'
                  [active_note; archive_note] (next_promise s) (S (next_promise s))
                  trb [] [] flA el
                  (getButttonTextForOperation (intent_operation i)) ba oa (label_filled _) HpA Hoa)
        as (a' & c3 & tr3 & shown & Hs3 & Htr3 & Hsh & Hidle & _).
      eexists. exists shown. split; [exact Hs3 |].
      cbn [trace requests controls archive app map].
      split; [exact Htr3 |]. split; [exact Hsh |]. split; [exact Hidle |].
      reflexivity.
    + destruct (archive_settles (active s) (archive s) f' c'
                  [archive_note; active_note] [next_promise s] []
                  [(next_promise s,
                    HelperLoading.hideLoading (Some el)
                      (getButttonTextForOperation (intent_operation i)))]
                  (S (next_promise s)) tr' [] [flA] flR br ob HpR Hob)
        as (r' & trb & shownb & Hres & Htrb & Hshb & _).
      cbn zeta in Hres. cbn [List.length app] in Hres.
      rewrite Hstep in Hres. destruct Hres as [Hres | Hres]; [discriminate |].
      injection Hres as ->.
      cbn [trace requests controls archive app map].
      split; [exact Hbusy |]. split; [exists shownb; auto |].
      split; [now rewrite HuA |].
      intros ba.
      destruct (always_outcome getActiveNote (NoteId "") ba) as (oa & Hoa).
      destruct (active_settles_restores (active s) r' f' c'
                  [archive_note; active_note] (next_promise s) (S (next_promise s))
                  trb [] [] flA el
                  (getButttonTextForOperation (intent_operation i)) ba oa (label_filled _) HpA Hoa)
        as (a' & c3 & tr3 & shown & Hs3 & Htr3 & Hsh & Hidle & _).
      eexists. exists shown. split; [exact Hs3 |].
      cbn [trace requests controls archive app map].
      split; [exact Htr3 |]. split; [exact Hsh |]. split; [exact Hidle |].
      reflexivity.
Qed.

Lemma loaded_page_quiescent : quiescent loaded_page.
Proof. repeat split; vm_compute; reflexivity. Qed.

Lemma loaded_page_subscribed : subscribed loaded_page.
Proof. left. vm_compute. reflexivity. Qed.

(** C1 as stated fails: after a successful delete the control is idle
    again while the re-fetch of the archived-set view is still in flight
    and that view shows what it showed before. *)
Lemma control_idle_while_archived_refetch_in_flight :
  exists s,
    run loaded_page
      [DeleteClicked "notes-1" (Some 7); Settles 0 confirms;
       Settles 0 (serves [newer])] = Some s
    /\ outcome_of (call deleteNote (NoteId "notes-1")) confirms =
       Some (Returned (Handle (mkResponse 200
               (JsonBody (JObj [("status", JStr "success")])))))
    /\ controls s 7 = idle "Delete"
    /\ map (fun fl => url (fl_request fl)) (requests s) = [view_url archive_note]
    /\ archive s = archive loaded_page
    /\ count (concerns archive_note)
         (skipn (List.length (effects (trace loaded_page))) (effects (trace s))) = 0.
Proof.
  eexists. split; [vm_compute; reflexivity |].
  repeat split; vm_compute; reflexivity.
Qed.

(** C1, amended, on the sample page. *)
Lemma control_idle_once_active_view_refetched_witness :
  quiescent loaded_page /\ subscribed loaded_page
  /\ intent_of loaded_page (DeleteClicked "notes-1" (Some 7)) =
     Some (note_deleted "notes-1" (Some 7))
  /\ exists s1 s2,
    step loaded_page (DeleteClicked "notes-1" (Some 7)) = Some s1
    /\ step s1 (Settles 0 confirms) = Some s2
    /\ controls s2 7 = busy
    /\ forall ba,
         exists s3,
           step s2 (Settles 0 ba) = Some s3 /\ controls s3 7 = idle "Delete".
Proof.
  split; [exact loaded_page_quiescent |].
  split; [exact loaded_page_subscribed |].
  split; [reflexivity |].
  destruct (control_idle_once_active_view_refetched loaded_page
              (DeleteClicked "notes-1" (Some 7))
              (note_deleted "notes-1" (Some 7)) 7 confirms
              (Handle (mkResponse 200 (JsonBody (JObj [("status", JStr "success")]))))
              loaded_page_quiescent loaded_page_subscribed
              eq_refl eq_refl eq_refl)
    as (s1 & s2 & H1 & H2 & _ & _ & Hbusy & Hact & _).
  exists s1, s2. split; [exact H1 |]. split; [exact H2 |]. split; [exact Hbusy |].
  intros ba. destruct (Hact ba) as (s3 & shown & H3 & _ & _ & Hidle & _).
  exists s3. split; [exact H3 | exact Hidle].
Defined.

(** C3 at the unarchive intent: after a successful unarchive there is one
    broadcast and one restoration of the control, but the label it gets is
    [Submit], not [Unarchive]. *)
Theorem unarchive_restored_with_label_submit :
  exists s,
    run loaded_page
      [UnarchiveClicked "notes-3" (Some 7); Settles 0 confirms;
       Settles 0 (serves [older; newer; stored_away])] = Some s
    /\ count is_broadcast (effects (trace s)) = 1
    /\ count (restores 7) (effects (trace s)) = 1
    /\ controls s 7 = idle "Submit"
    /\ getButttonTextForOperation unarchiveNote <> "Unarchive".
Proof.
  eexists. split; [vm_compute; reflexivity |].
  split; [vm_compute; reflexivity |].
  split; [vm_compute; reflexivity |].
  split; [vm_compute; reflexivity |].
  vm_compute. discriminate.
Qed.

(** C2 as stated fails: a refused delete leaves the control idle with
    nothing broadcast, no request in flight and nobody waiting for an
    acknowledgement. *)
Lemma failed_delete_restores_without_refresh :
  exists s,
    run loaded_page [DeleteClicked "notes-1" (Some 7); Settles 0 refuses] = Some s
    /\ outcome_of (call deleteNote (NoteId "notes-1")) refuses =
       Some (Thrown generic_error)
    /\ controls s 7 = idle "Delete"
    /\ existsb is_broadcast (effects (trace s)) = false
    /\ requests s = []
    /\ update_complete s = [].
Proof.
  eexists. split; [vm_compute; reflexivity |].
  repeat split; vm_compute; reflexivity.
Qed.

(** C2, amended.  For each of the four intent kinds, when the gateway call
    fails the coordinator shows the error message in an alert and restores
    the control to idle with the operation's label, in the step in which
    the call fails; it broadcasts nothing, starts no re-fetch, waits for no
    acknowledgement, and the list views keep their state. *)
Theorem failed_write_alerts_and_restores_without_refresh s ev i el bw e :
  requests s = [] ->
  intent_of s ev = Some i ->
  intent_button i = Some el ->
  outcome_of (call (intent_operation i) (intent_data i)) bw = Some (Thrown e) ->
  exists s1 s2,
    step s ev = Some s1 /\ step s1 (Settles 0 bw) = Some s2
    /\ controls s1 el = busy
    /\ effects (trace s2) =
         effects (trace s1) ++
         [Alert (message e);
          SetChildren el
            [TextNode (getButttonTextForOperation (intent_operation i))];
          SetDisabled el false]
    /\ controls s2 el = idle (getButttonTextForOperation (intent_operation i))
    /\ requests s2 = []
    /\ update_complete s2 = update_complete s
    /\ awaiting s2 = awaiting s
    /\ active s2 = active s /\ archive s2 = archive s.
Proof.
  intros Hr Hi Hb Ho.
  destruct (intent_step s ev i el Hr Hi Hb)
    as (fl & f' & c' & tr1 & pre & post & Hs1 & Hp & Hbusy & _ & _).
  destruct (write_fails (active s) (archive s) f' c' (notes_updated s)
              (update_complete s) (settled s) (awaiting s) (next_promise s)
              tr1 fl _ _ el bw e Hp Ho)
    as (c2 & tr2 & Hs2 & Htr & Hidle & _).
  eexists. eexists. split; [exact Hs1 |]. split; [exact Hs2 |].
  cbn [trace requests controls archive active update_complete awaiting].
  repeat split; assumption.
Qed.

(** C2, amended, for a refused delete on the sample page. *)
Lemma failed_write_alerts_and_restores_without_refresh_witness :
  requests loaded_page = []
  /\ outcome_of (call deleteNote (NoteId "notes-1")) refuses =
     Some (Thrown generic_error)
  /\ exists s1 s2,
    step loaded_page (DeleteClicked "notes-1" (Some 7)) = Some s1
    /\ step s1 (Settles 0 refuses) = Some s2
    /\ controls s2 7 = idle "Delete"
    /\ requests s2 = [].
Proof.
  split; [reflexivity |]. split; [reflexivity |].
  destruct (failed_write_alerts_and_restores_without_refresh loaded_page
              (DeleteClicked "notes-1" (Some 7))
              (note_deleted "notes-1" (Some 7)) 7 refuses generic_error
              eq_refl eq_refl eq_refl eq_refl)
    as (s1 & s2 & H1 & H2 & _ & _ & Hidle & Hreq & _).
  exists s1, s2. repeat split; assumption.
Defined.

(** A whole cycle: intent, successful write, and the active-set view's
    re-fetch settling, whatever its outcome. *)
Lemma control_cycle s ev i el bw v ba :
  quiescent s -> subscribed s ->
  intent_of s ev = Some i ->
  intent_button i = Some el ->
  outcome_of (call (intent_operation i) (intent_data i)) bw = Some (Returned v) ->
  exists s1 s2 s3,
    step s ev = Some s1 /\ step s1 (Settles 0 bw) = Some s2
    /\ step s2 (Settles (position active_note (notes_updated s)) ba) = Some s3
    /\ controls s3 el = idle (getButttonTextForOperation (intent_operation i)).
Proof.
  intros Hq Hsub Hi Hb Ho.
  destruct (write_cycle s ev i el bw v Hq Hsub Hi Hb Ho)
    as (s1 & f' & c' & tr' & flA & flR & Hs1 & Hs2 & HpA & HpR & Hbusy & Htr).
  destruct (always_outcome getActiveNote (NoteId "") ba) as (oa & Hoa).
  destruct Hsub as [H | H]; rewrite H in *; cbn [map position] in *;
    exists s1; eexists.
  - destruct (active_settles_restores (active s) (archive s) f' c'
                [active_note; archive_note] (next_promise s) (S (next_promise s))
                tr' [] [flR] flA el
                (getButttonTextForOperation (intent_operation i)) ba oa (label_filled _) HpA Hoa)
      as (a' & c3 & tr3 & shown & Hs3 & _ & _ & Hidle & _).
    eexists. split; [exact Hs1 |]. split; [exact Hs2 |]. split; [exact Hs3 |].
    exact Hidle.
  - destruct (active_settles_restores (active s) (archive s) f' c'
                [archive_note; active_note] (next_promise s) (S (next_promise s))
                tr' [flR] [] flA el
                (getButttonTextForOperation (intent_operation i)) ba oa (label_filled _) HpA Hoa)
      as (a' & c3 & tr3 & shown & Hs3 & _ & _ & Hidle & _).
    eexists. split; [exact Hs1 |]. split; [exact Hs2 |]. split; [exact Hs3 |].
    exact Hidle.
Qed.

Lemma run_three s e1 e2 e3 s1 s2 s3 :
  step s e1 = Some s1 -> step s1 e2 = Some s2 -> step s2 e3 = Some s3 ->
  run s [e1; e2; e3] = Some s3.
Proof. intros H1 H2 H3. cbn [run]. now rewrite H1, H2, H3. Qed.

Lemma settles_nothing s i b : requests s = [] -> step s (Settles i b) = Some s.
Proof.
  intros H. unfold step. rewrite H. destruct i; reflexivity.
Qed.

(** C9.  For every operation other than [createNote], [deleteNote] and
    [archiveNote], and so for [unarchiveNote], the label is [Submit]; a
    control that triggered an unarchive is idle with the label [Submit]
    once the write and the re-fetch of the active-set view have settled,
    whatever the network did. *)
Theorem unarchive_and_other_operations_get_label_submit (op : operation) :
  op <> createNote -> op <> deleteNote -> op <> archiveNote ->
  getButttonTextForOperation op = "Submit"
  /\ getButttonTextForOperation unarchiveNote = "Submit"
  /\ forall s id el bw ba,
       quiescent s -> subscribed s ->
       exists s',
         run s [UnarchiveClicked id (Some el); Settles 0 bw;
                Settles (position active_note (notes_updated s)) ba] = Some s'
         /\ controls s' el = idle "Submit".
Proof.
  intros Hc Hd Ha.
  split; [destruct op; try reflexivity; contradiction |].
  split; [reflexivity |].
  intros s id el bw ba Hq Hsub.
  destruct (always_outcome unarchiveNote (NoteId id) bw) as ([v | e] & Ho).
  - destruct (control_cycle s (UnarchiveClicked id (Some el))
                (note_unarchived id (Some el)) el bw v ba Hq Hsub
                eq_refl eq_refl Ho)
      as (s1 & s2 & s3 & H1 & H2 & H3 & Hidle).
    exists s3. split; [exact (run_three _ _ _ _ _ _ _ H1 H2 H3) | exact Hidle].
  - destruct Hq as (Hr & _).
    destruct (intent_step s (UnarchiveClicked id (Some el))
                (note_unarchived id (Some el)) el Hr eq_refl eq_refl)
      as (fl & f' & c' & tr1 & pre & post & Hs1 & Hp & _).
    destruct (write_fails (active s) (archive s) f' c' (notes_updated s)
                (update_complete s) (settled s) (awaiting s) (next_promise s)
                tr1 fl _ _ el bw e Hp Ho)
      as (c2 & tr2 & Hs2 & _ & Hidle & _).
    eexists. split.
    + eapply run_three; [exact Hs1 | exact Hs2 |].
      apply settles_nothing. reflexivity.
    + exact Hidle.
Qed.

(** C9 at [unarchiveNote] on the sample page. *)
Lemma unarchive_and_other_operations_get_label_submit_witness :
  unarchiveNote <> createNote /\ unarchiveNote <> deleteNote
  /\ unarchiveNote <> archiveNote
  /\ getButttonTextForOperation unarchiveNote = "Submit"
  /\ exists s',
       run loaded_page
         [UnarchiveClicked "notes-3" (Some 7); Settles 0 confirms;
          Settles 0 (serves [older; newer; stored_away])] = Some s'
       /\ controls s' 7 = idle "Submit".
Proof.
  split; [discriminate |]. split; [discriminate |]. split; [discriminate |].
  destruct (unarchive_and_other_operations_get_label_submit unarchiveNote)
    as (H1 & _ & H3); try discriminate.
  split; [exact H1 |].
  exact (H3 loaded_page "notes-3" 7 confirms (serves [older; newer; stored_away])
           loaded_page_quiescent loaded_page_subscribed).
Defined.

(** C5 at a response that arrives in time with a body that is not JSON and
    reads [Request took longer]: the error of [response.json()] quotes the
    body, so its message passes the test by which the wrappers recognise
    the timeout error, and [getActiveNote] throws the platform's
    [SyntaxError] where a failure other than a timeout is to become the
    generic error. *)
Lemma malformed_body_error_not_made_generic :
  settles_within 5000 (Responds 120 (mkResponse 200 (MalformedBody marked_message))) = true
  /\ (exists log,
        gateway getActiveNote (NoteId "")
          [Responds 120 (mkResponse 200 (MalformedBody marked_message))] =
        Some (Thrown (SyntaxError marked_message), log, []))
  /\ SyntaxError marked_message <> generic_error
  /\ SyntaxError marked_message <> timeout_error
  /\ name (SyntaxError marked_message) = "SyntaxError".
Proof.
  split; [reflexivity |]. split; [eexists; vm_compute; reflexivity |].
  split; [discriminate |]. split; [discriminate | reflexivity].
Qed.

Lemma outcome_of_gateway op d b o log :
  gateway op d [b] = Some (o, log, []) -> outcome_of (call op d) b = Some o.
Proof. unfold outcome_of, gateway. now intros ->. Qed.

(** The [catch] block of the six wrappers, as the code behaves.  Every
    operation wraps one call of [fetchWithTimeout].  When the network
    neither answers nor fails within 5000 ms the request is aborted and
    the call fails with the timeout error, whose message contains
    [Request took longer] and which the wrapper passes on unchanged.  Any
    other failure is replaced by the generic error exactly when its message
    does not contain [Request took longer]; one whose message does contain
    it slips through unchanged, which is the defect shown above.  A
    refused status always becomes the generic error.  After a timeout of a
    write the control is idle again, and so it is when the re-fetch of the
    active-set view times out. *)
Theorem timeout_error_propagated_others_generic_unless_marked
  (op : operation) (d : note_data) (b : net_behaviour)
  (rest : list net_behaviour) :
  exists url options,
    call op d = gtry (NoteApi.fetchWithTimeout url options) NoteApi.rethrow
    /\ (settles_within 5000 b = false ->
        run_gw (NoteApi.fetchWithTimeout url options) None (b :: rest) [] =
          Some (Thrown timeout_error,
                [EvSetTimeout 5000; EvFetch (mkRequest url options true)], rest)
        /\ gateway op d (b :: rest) =
          Some (Thrown timeout_error,
                [EvSetTimeout 5000; EvFetch (mkRequest url options true)], rest)
        /\ includes (message timeout_error) "Request took longer" = true)
    /\ (forall e log net',
          run_gw (NoteApi.fetchWithTimeout url options) None (b :: rest) [] =
            Some (Thrown e, log, net') ->
          (includes (message e) "Request took longer" = false ->
           gateway op d (b :: rest) = Some (Thrown generic_error, log, net'))
          /\ (includes (message e) "Request took longer" = true ->
              gateway op d (b :: rest) = Some (Thrown e, log, net')))
    /\ (forall t r,
          b = Responds t r -> (t <= 5000)%N -> ~ accepted (status r) ->
          exists log,
            gateway op d (b :: rest) = Some (Thrown generic_error, log, rest))
    /\ (settles_within 5000 b = false ->
        forall s ev i el,
          requests s = [] ->
          intent_of s ev = Some i -> intent_button i = Some el ->
          intent_operation i = op -> intent_data i = d ->
          exists s1 s2,
            step s ev = Some s1 /\ step s1 (Settles 0 b) = Some s2
            /\ controls s1 el = busy
            /\ effects (trace s2) =
                 effects (trace s1) ++
                 [Alert (message timeout_error);
                  SetChildren el [TextNode (getButttonTextForOperation op)];
                  SetDisabled el false]
            /\ controls s2 el = idle (getButttonTextForOperation op))
    /\ (forall s ev i el bw v,
          quiescent s -> subscribed s ->
          intent_of s ev = Some i -> intent_button i = Some el ->
          outcome_of (call (intent_operation i) (intent_data i)) bw =
            Some (Returned v) ->
          exists s1 s2 s3,
            step s ev = Some s1 /\ step s1 (Settles 0 bw) = Some s2
            /\ step s2 (Settles (position active_note (notes_updated s)) b) = Some s3
            /\ controls s3 el =
                 idle (getButttonTextForOperation (intent_operation i))).
Proof.
  destruct (gateway_as_fetch op d (b :: rest)) as (url & options & Hc & Hm & Hg).
  exists url, options. split; [exact Hc |].
  split; [| split; [| split; [| split]]].
  - intros Hb. rewrite Hg. rewrite fetchWithTimeout_late by exact Hb.
    repeat split; reflexivity.
  - intros e log net' Hrun. rewrite Hg, Hrun. split; intros ->; reflexivity.
  - intros t r -> Ht Hs. rewrite Hg.
    rewrite fetchWithTimeout_rejected_status by assumption.
    eexists. reflexivity.
  - intros Hb s ev i el Hr Hi Hbt Hop Hd. subst op d.
    assert (Ho : outcome_of (call (intent_operation i) (intent_data i)) b =
                 Some (Thrown timeout_error)).
    { destruct (gateway_as_fetch (intent_operation i) (intent_data i) [b])
        as (url' & options' & _ & _ & Hg').
      rewrite fetchWithTimeout_late in Hg' by exact Hb.
      exact (outcome_of_gateway _ _ _ _ _ Hg'). }
    destruct (intent_step s ev i el Hr Hi Hbt)
      as (fl & f' & c' & tr1 & pre & post & Hs1 & Hp & Hbusy & _ & _).
    destruct (write_fails (active s) (archive s) f' c' (notes_updated s)
                (update_complete s) (settled s) (awaiting s) (next_promise s)
                tr1 fl _ _ el b timeout_error Hp Ho)
      as (c2 & tr2 & Hs2 & Htr & Hidle & _).
    eexists. eexists. split; [exact Hs1 |]. split; [exact Hs2 |].
    cbn [trace controls]. repeat split; assumption.
  - intros s ev i el bw v Hq Hsub Hi Hbt Ho.
    exact (control_cycle s ev i el bw v b Hq Hsub Hi Hbt Ho).
Qed.

(** A delete that the network never answers fails with the timeout
    error. *)
Lemma timeout_error_propagated_others_generic_unless_marked_witness :
  settles_within 5000 Hangs = false
  /\ exists log,
       gateway deleteNote (NoteId "notes-1") [Hangs] =
       Some (Thrown timeout_error, log, []).
Proof.
  split; [reflexivity |].
  destruct (timeout_error_propagated_others_generic_unless_marked
              deleteNote (NoteId "notes-1") Hangs [])
    as (url & options & _ & Hlate & _).
  destruct (Hlate eq_refl) as (_ & Hg & _).
  eexists. exact Hg.
Defined.

(** C10.  When the fetch of a list view fails, on attachment or on a
    refresh, the view keeps its note collection and its rendered content:
    the step only reports the error (an alert in the active-set view, the
    console in the archived-set view) and stores and renders nothing. *)
Theorem failed_fetch_leaves_view_unchanged
  (v : view_id) (b : net_behaviour) (e : js_error) :
  outcome_of (view_call v) b = Some (Thrown e) ->
  (forall s,
     requests s = [] ->
     exists s1 s2,
       step s (Connected v) = Some s1 /\ step s1 (Settles 0 b) = Some s2
       /\ _notes (view v s1) = _notes (view v s)
       /\ view v s2 = view v s1
       /\ effects (trace s2) =
            effects (trace s1) ++ [report v e; AddNotesUpdatedListener v])
  /\ (forall s ev i el bw w,
        quiescent s -> subscribed s ->
        intent_of s ev = Some i -> intent_button i = Some el ->
        outcome_of (call (intent_operation i) (intent_data i)) bw =
          Some (Returned w) ->
        exists s1 s2 s3,
          step s ev = Some s1 /\ step s1 (Settles 0 bw) = Some s2
          /\ step s2 (Settles (position v (notes_updated s)) b) = Some s3
          /\ view v s2 = view v s
          /\ view v s3 = view v s2
          /\ exists rest,
               effects (trace s3) = effects (trace s2) ++ report v e :: rest
               /\ existsb (concerns v) rest = false).
Proof.
  intros Ho. split.
  - intros s Hr.
    destruct s as [a r f c nu uc st aw rq np tr]. cbn in Hr. subst rq.
    destruct (view_connects v a r f c nu uc st aw [] np tr)
      as (fl & tr1 & Hs1 & Hp & Htr1).
    cbn [app] in Hs1.
    destruct v; cbn [with_view view _notes] in *.
    + destruct (active_initial_settles
                  (mkView (_notes a) (mkShadow (loading_heading active_note)
                                        LoadingPlaceholder None))
                  r f c nu uc st aw np tr1 [] [] fl b (Thrown e) Hp Ho)
        as (a' & tr2 & shown & Hs2 & Htr2 & _ & Hfail & _).
      destruct (Hfail e eq_refl) as (-> & ->).
      eexists. eexists. split; [exact Hs1 |]. split; [exact Hs2 |].
      cbn [active trace _notes]. repeat split. exact Htr2.
    + destruct (archive_initial_settles a
                  (mkView (_notes r) (mkShadow (loading_heading archive_note)
                                        LoadingPlaceholder None))
                  f c nu uc st aw np tr1 [] [] fl b (Thrown e) Hp Ho)
        as (r' & tr2 & shown & _ & Htr2 & _ & Hfail & _).
      destruct (Hfail e eq_refl) as (Hs2 & ->).
      eexists. eexists. split; [exact Hs1 |]. split; [exact Hs2 |].
      cbn [archive trace _notes]. repeat split. exact Htr2.
  - intros s ev i el bw w Hq Hsub Hi Hb Hw.
    destruct (write_cycle s ev i el bw w Hq Hsub Hi Hb Hw)
      as (s1 & f' & c' & tr' & flA & flR & Hs1 & Hs2 & HpA & HpR & Hbusy & Htr).
    destruct v; cbn [view_call] in Ho.
    + destruct Hsub as [H | H]; rewrite H in *; cbn [map position] in *;
        exists s1; eexists.
      * destruct (active_settles_restores (active s) (archive s) f' c'
                    [active_note; archive_note] (next_promise s)
                    (S (next_promise s)) tr' [] [flR] flA el
                    (getButttonTextForOperation (intent_operation i))
                    b (Thrown e) (label_filled _) HpA Ho)
          as (a' & c3 & tr3 & shown & Hs3 & Htr3 & _ & _ & _ & Hfail & _).
        destruct (Hfail e eq_refl) as (-> & ->).
        eexists. split; [exact Hs1 |]. split; [exact Hs2 |]. split; [exact Hs3 |].
        cbn [view active trace]. split; [reflexivity |]. split; [reflexivity |].
        eexists. split; [exact Htr3 | reflexivity].
      * destruct (active_settles_restores (active s) (archive s) f' c'
                    [archive_note; active_note] (next_promise s)
                    (S (next_promise s)) tr' [flR] [] flA el
                    (getButttonTextForOperation (intent_operation i))
                    b (Thrown e) (label_filled _) HpA Ho)
          as (a' & c3 & tr3 & shown & Hs3 & Htr3 & _ & _ & _ & Hfail & _).
        destruct (Hfail e eq_refl) as (-> & ->).
        eexists. split; [exact Hs1 |]. split; [exact Hs2 |]. split; [exact Hs3 |].
        cbn [view active trace]. split; [reflexivity |]. split; [reflexivity |].
        eexists. split; [exact Htr3 | reflexivity].
    + destruct Hsub as [H | H]; rewrite H in *; cbn [map position] in *;
        exists s1; eexists.
      * destruct (archive_settles (active s) (archive s) f' c'
                    [active_note; archive_note] [next_promise s] []
                    [(next_promise s,
                      HelperLoading.hideLoading (Some el)
                        (getButttonTextForOperation (intent_operation i)))]
                    (S (next_promise s)) tr' [flA] [] flR b (Thrown e) HpR Ho)
          as (r' & tr3 & shown & _ & Htr3 & _ & Hfail & _).
        destruct (Hfail e eq_refl) as (Hs3 & ->).
        eexists. split; [exact Hs1 |]. split; [exact Hs2 |]. split; [exact Hs3 |].
        cbn [view archive trace]. split; [reflexivity |]. split; [reflexivity |].
        exists []. split; [exact Htr3 | reflexivity].
      * destruct (archive_settles (active s) (archive s) f' c'
                    [archive_note; active_note] [next_promise s] []
                    [(next_promise s,
                      HelperLoading.hideLoading (Some el)
                        (getButttonTextForOperation (intent_operation i)))]
                    (S (next_promise s)) tr' [] [flA] flR b (Thrown e) HpR Ho)
          as (r' & tr3 & shown & _ & Htr3 & _ & Hfail & _).
        destruct (Hfail e eq_refl) as (Hs3 & ->).
        eexists. split; [exact Hs1 |]. split; [exact Hs2 |]. split; [exact Hs3 |].
        cbn [view archive trace]. split; [reflexivity |]. split; [reflexivity |].
        exists []. split; [exact Htr3 | reflexivity].
Qed.

(** C10 for the first fetch of the active-set view timing out. *)
Lemma failed_fetch_leaves_view_unchanged_witness :
  outcome_of (view_call active_note) Hangs = Some (Thrown timeout_error)
  /\ exists s1 s2,
       step sample_page (Connected active_note) = Some s1
       /\ step s1 (Settles 0 Hangs) = Some s2
       /\ view active_note s2 = view active_note s1.
Proof.
  split; [reflexivity |].
  destruct (failed_fetch_leaves_view_unchanged active_note Hangs timeout_error
              eq_refl) as (H & _).
  destruct (H sample_page eq_refl) as (s1 & s2 & H1 & H2 & _ & Hsame & _).
  exists s1, s2. repeat split; assumption.
Defined.

(** C7 on one collection served to both views, older note first: the
    active-set view shows the newer note first, the archived-set view shows
    the older note first. *)
Theorem archived_view_renders_received_order :
  exists s,
    run sample_page
      [Connected active_note; Connected archive_note;
       Settles 0 (serves [older; newer]); Settles 0 (serves [older; newer])] = Some s
    /\ option_map (map item_id) (notes_container (shadowRoot (active s))) =
       Some [JStr "notes-2"; JStr "notes-1"]
    /\ option_map (map item_id) (notes_container (shadowRoot (archive s))) =
       Some [JStr "notes-1"; JStr "notes-2"]
    /\ option_map (map item_date) (notes_container (shadowRoot (archive s))) =
       Some [JStr "2024-01-01T08:00:00.000Z"; JStr "2024-03-05T09:30:00.000Z"].
Proof.
  eexists. split; [vm_compute; reflexivity |].
  repeat split; vm_compute; reflexivity.
Qed.

(** C8.  On blur the title error is non-empty exactly when the trimmed
    title has fewer than 3 characters, and the body error exactly when the
    trimmed body has fewer than 10.  Whatever the form holds, a submit
    prevents the default action, raises [note-created] with the title, the
    body and the button, resets both fields and sets the counter back to
    50; the errors shown stay as they were and the creation request is
    under way. *)
Theorem validation_marks_errors_and_submit_always_proceeds (s : state) :
  (exists s1,
     step s TitleBlur = Some s1
     /\ (titleError (form s1) <> ""
         <-> (Z.of_nat (String.length (trim (titleInput (form s)))) < 3)%Z))
  /\ (exists s1,
        step s ContentBlur = Some s1
        /\ (bodyError (form s1) <> ""
            <-> (Z.of_nat (String.length (trim (contentInput (form s)))) < 10)%Z))
  /\ (exists s2,
        step s Submit = Some s2
        /\ effects (trace s2) =
             effects (trace s) ++
             [PreventDefault;
              DispatchIntent
                (note_created (titleInput (form s)) (contentInput (form s))
                   (Some (submitButton (form s))));
              SetChildren (submitButton (form s)) [];
              AppendChild (submitButton (form s)) (TextNode "Loading");
              AppendChild (submitButton (form s)) LoadingSpinner;
              SetDisabled (submitButton (form s)) true;
              ResetForm;
              SetCharCount "Remaining Character: 50"]
        /\ titleInput (form s2) = "" /\ contentInput (form s2) = ""
        /\ charCountSpan (form s2) = "Remaining Character: 50"
        /\ titleError (form s2) = titleError (form s)
        /\ bodyError (form s2) = bodyError (form s)
        /\ List.length (requests s2) = S (List.length (requests s))).
Proof.
  destruct s as [a r f c nu uc st aw rq np tr]. cbn [form trace requests].
  split; [| split].
  - destruct (Z.of_nat (String.length (trim (titleInput f))) <? 3)%Z eqn:Htest.
    + eexists. split.
      * exec_run. unfold MakeNote.validateTitle, MakeNote._titleMinLength.
        rewrite Htest. exec_run.
        reflexivity.
      * cbn [form titleError]. apply Z.ltb_lt in Htest.
        split; [intros _; exact Htest | intros _; discriminate].
    + eexists. split.
      * exec_run. unfold MakeNote.validateTitle, MakeNote._titleMinLength.
        rewrite Htest. exec_run.
        reflexivity.
      * cbn [form titleError]. apply Z.ltb_ge in Htest.
        split; [intros H; now contradiction H | intros H; lia].
  - destruct (Z.of_nat (String.length (trim (contentInput f))) <? 10)%Z eqn:Htest.
    + eexists. split.
      * exec_run. unfold MakeNote.validateContent, MakeNote._contentMinLength.
        rewrite Htest. exec_run.
        reflexivity.
      * cbn [form bodyError]. apply Z.ltb_lt in Htest.
        split; [intros _; exact Htest | intros _; discriminate].
    + eexists. split.
      * exec_run. unfold MakeNote.validateContent, MakeNote._contentMinLength.
        rewrite Htest. exec_run.
        reflexivity.
      * cbn [form bodyError]. apply Z.ltb_ge in Htest.
        split; [intros H; now contradiction H | intros H; lia].
  - eexists. split; [exec_run; reflexivity |].
    cbn [form trace requests titleInput contentInput charCountSpan titleError
         bodyError].
    split; [flatten_effects; reflexivity |].
    repeat split. rewrite length_app. cbn. lia.
Qed.

(** ** Further properties of the refresh cycle and of the list views *)

Lemma items_of_cons note rest :
  items_of (note :: rest) =
  match note_item note with
  | Thrown e => ([], Some e)
  | Returned item => let (items, err) := items_of rest in (item :: items, err)
  end.
Proof. reflexivity. Qed.

Lemma items_of_objects fl : items_of (map JObj fl) = (map object_item fl, None).
Proof.
  induction fl as [| fields fl IH]; [reflexivity |].
  cbn [map]. rewrite items_of_cons, IH. reflexivity.
Qed.

Lemma count_app {A} (f : A -> bool) l1 l2 :
  count f (l1 ++ l2) = count f l1 + count f l2.
Proof. unfold count. now rewrite filter_app, length_app. Qed.

Lemma count_none {A} (f : A -> bool) l : existsb f l = false -> count f l = 0.
Proof.
  unfold count. induction l as [| x l IH]; [reflexivity |].
  cbn. destruct (f x); [discriminate | exact IH].
Qed.

Lemma view_effects_quiet v el shown :
  forallb (concerns v) shown = true ->
  existsb is_broadcast shown = false /\ existsb (restores el) shown = false.
Proof.
  induction shown as [| a shown IH]; [split; reflexivity |].
  cbn [forallb existsb]. intros H. apply andb_true_iff in H as [Ha Hrest].
  destruct (IH Hrest) as [IH1 IH2]. rewrite IH1, IH2.
  destruct a, v; cbn in Ha; try discriminate; split; reflexivity.
Qed.

(** After a successful write, handled from a quiescent page on which both
    list views are subscribed, and once the re-fetch of the active-set view
    has settled, the page has seen one broadcast of [notes-updated] and one
    restoration of the control, which is idle with the label of the
    operation: [Make Note] for a creation, [Delete] for a deletion,
    [Archive] for an archival. *)
Theorem successful_write_broadcasts_once_and_restores_once s ev i el bw v ba :
  quiescent s -> subscribed s ->
  intent_of s ev = Some i ->
  intent_button i = Some el ->
  outcome_of (call (intent_operation i) (intent_data i)) bw = Some (Returned v) ->
  exists s3 shown,
    run s [ev; Settles 0 bw;
           Settles (position active_note (notes_updated s)) ba] = Some s3
    /\ effects (trace s3) = effects (trace s) ++ shown
    /\ count is_broadcast shown = 1
    /\ count (restores el) shown = 1
    /\ controls s3 el = idle (intent_label i).
Proof.
  intros Hq Hsub Hi Hb Ho.
  assert (Hlabel : getButttonTextForOperation (intent_operation i) = intent_label i)
    by (destruct i; reflexivity).
  destruct (write_cycle s ev i el bw v Hq Hsub Hi Hb Ho)
    as (s1 & f' & c' & tr' & flA & flR & Hs1 & Hs2 & HpA & HpR & Hbusy & Htr).
  destruct Hq as (Hr & Haw & Huc & Hst).
  destruct (intent_step s ev i el Hr Hi Hb)
    as (fl & f1 & c1 & tr1 & pre & post & Hs1' & _ & _ & _ & Htr1 & Hnb & Hnr).
  rewrite Hs1 in Hs1'. injection Hs1' as ->. cbn [trace] in Htr.
  destruct (always_outcome getActiveNote (NoteId "") ba) as (oa & Hoa).
  assert (Hthird : exists s3 shown,
             step (mkState (active s) (archive s) f' c' (notes_updated s)
                     [next_promise s] []
                     [(next_promise s,
                       HelperLoading.hideLoading (Some el)
                         (getButttonTextForOperation (intent_operation i)))]
                     (map (fun x => match x with
                                    | active_note => flA
                                    | archive_note => flR
                                    end) (notes_updated s))
                     (S (next_promise s)) tr')
                  (Settles (position active_note (notes_updated s)) ba) = Some s3
             /\ effects (trace s3) =
                  effects tr' ++ shown ++
                  [DispatchUpdateComplete;
                   SetChildren el
                     [TextNode (getButttonTextForOperation (intent_operation i))];
                   SetDisabled el false]
             /\ forallb (concerns active_note) shown = true
             /\ controls s3 el = idle (getButttonTextForOperation (intent_operation i))).
  { destruct Hsub as [H | H]; rewrite H; cbn [map position].
    - destruct (active_settles_restores (active s) (archive s) f' c'
                  [active_note; archive_note] (next_promise s) (S (next_promise s))
                  tr' [] [flR] flA el
                  (getButttonTextForOperation (intent_operation i)) ba oa (label_filled _) HpA Hoa)
        as (a' & c3 & tr3 & shown & Hs3 & Htr3 & Hshown & Hidle & _).
      do 2 eexists. split; [exact Hs3 |]. split; [exact Htr3 |].
      split; [exact Hshown | exact Hidle].
    - destruct (active_settles_restores (active s) (archive s) f' c'
                  [archive_note; active_note] (next_promise s) (S (next_promise s))
                  tr' [flR] [] flA el
                  (getButttonTextForOperation (intent_operation i)) ba oa (label_filled _) HpA Hoa)
        as (a' & c3 & tr3 & shown & Hs3 & Htr3 & Hshown & Hidle & _).
      do 2 eexists. split; [exact Hs3 |]. split; [exact Htr3 |].
      split; [exact Hshown | exact Hidle]. }
  destruct Hthird as (s3 & shown & Hs3 & Htr3 & Hshown & Hidle).
  destruct (view_effects_quiet active_note el shown Hshown) as [Hsb Hsr].
  rewrite existsb_app in Hnb, Hnr.
  apply orb_false_iff in Hnb as [Hnb1 Hnb2]. apply orb_false_iff in Hnr as [Hnr1 Hnr2].
  exists s3. eexists.
  split; [exact (run_three _ _ _ _ _ _ _ Hs1 Hs2 Hs3) |].
  split.
  { rewrite Htr3, Htr, Htr1. rewrite <- !app_assoc. reflexivity. }
  rewrite !count_app, !(count_none _ _ Hnb1), !(count_none _ _ Hnb2),
    !(count_none _ _ Hnr1), !(count_none _ _ Hnr2),
    !(count_none _ _ Hsb), !(count_none _ _ Hsr).
  split; [reflexivity |].
  split; [cbn; rewrite Nat.eqb_refl; reflexivity |].
  rewrite <- Hlabel. exact Hidle.
Qed.

(** An archival on the sample page: one broadcast, one restoration, and
    the control idle with the label [Archive]. *)
Lemma successful_write_broadcasts_once_and_restores_once_witness :
  exists s3 shown,
    run loaded_page
      [ArchiveClicked "notes-1" (Some 7); Settles 0 confirms;
       Settles 0 (serves [newer])] = Some s3
    /\ effects (trace s3) = effects (trace loaded_page) ++ shown
    /\ count is_broadcast shown = 1
    /\ count (restores 7) shown = 1
    /\ controls s3 7 = idle "Archive".
Proof.
  exact (successful_write_broadcasts_once_and_restores_once
           loaded_page (ArchiveClicked "notes-1" (Some 7))
           (note_archived "notes-1" (Some 7)) 7 confirms _ (serves [newer])
           loaded_page_quiescent loaded_page_subscribed
           eq_refl eq_refl eq_refl).
Defined.

(** When the active-set view is attached and its fetch returns an array of
    note objects, the view shows one item per note, the last note of the
    array first, and it shows the placeholder exactly when the array is
    empty. *)
Theorem active_view_renders_one_item_per_note_reversed s b fl :
  requests s = [] ->
  outcome_of NoteApi.getActiveNote b = Some (Returned (Data (JArr (map JObj fl)))) ->
  exists s',
    run s [Connected active_note; Settles 0 b] = Some s'
    /\ notes_container (shadowRoot (active s')) = Some (rev (map object_item fl))
    /\ option_map (@List.length _) (notes_container (shadowRoot (active s'))) =
       Some (List.length fl)
    /\ (note_empty (shadowRoot (active s')) = EmptyPlaceholder <-> fl = []).
Proof.
  intros Hr Ho. destruct s as [a r f c nu uc st aw rq np tr].
  cbn in Hr. subst rq.
  destruct (view_connects active_note a r f c nu uc st aw [] np tr)
    as (fr & tr1 & Hs1 & Hp & _).
  cbn [app with_view view active] in Hs1.
  destruct (active_initial_settles
              (mkView (_notes a) (mkShadow (loading_heading active_note)
                                    LoadingPlaceholder None))
              r f c nu uc st aw np tr1 [] [] fr b _ Hp Ho)
    as (a' & tr2 & shown & Hs2 & _ & _ & _ & Hl).
  rewrite (Hl _ eq_refl) in Hs2. clear Hl.
  eexists. split; [cbn [run]; rewrite Hs1; cbn [app List.length] in Hs2;
                   rewrite Hs2; reflexivity |].
  cbn [active shadowRoot active_rendered notes_container note_empty].
  rewrite <- map_rev, items_of_objects, map_rev. cbn [fst option_map].
  split; [reflexivity |].
  split; [now rewrite length_rev, length_map |].
  destruct fl; cbn [map]; split; intros H; discriminate || reflexivity.
Qed.

(** The active-set view on the sample page, served the older note first,
    shows the newer note first. *)
Lemma active_view_renders_one_item_per_note_reversed_witness :
  exists s',
    run sample_page [Connected active_note; Settles 0 (serves [older; newer])] = Some s'
    /\ option_map (map item_id) (notes_container (shadowRoot (active s'))) =
       Some [JStr "notes-2"; JStr "notes-1"].
Proof.
  destruct (active_view_renders_one_item_per_note_reversed sample_page
              (serves [older; newer])
              [ [("id", JStr "notes-1"); ("title", JStr "Title");
                 ("body", JStr "Some text"); ("archived", JBool false);
                 ("createdAt", JStr "2024-01-01T08:00:00.000Z")];
                [("id", JStr "notes-2"); ("title", JStr "Title");
                 ("body", JStr "Some text"); ("archived", JBool false);
                 ("createdAt", JStr "2024-03-05T09:30:00.000Z")] ]
              eq_refl eq_refl)
    as (s' & Hrun & Hitems & _).
  exists s'. split; [exact Hrun |]. rewrite Hitems. reflexivity.
Defined.

(** When the archived-set view is attached and its fetch returns an array
    of note objects, the view shows one item per note in the order of the
    array, and it shows the placeholder, without a container, exactly when
    the array is empty. *)
Theorem archived_view_renders_one_item_per_note_in_order s b fl :
  requests s = [] ->
  outcome_of NoteApi.getArchiveNote b = Some (Returned (Data (JArr (map JObj fl)))) ->
  exists s',
    run s [Connected archive_note; Settles 0 b] = Some s'
    /\ notes_container (shadowRoot (archive s')) =
       match fl with
       | [] => None
       | _ :: _ => Some (map object_item fl)
       end
    /\ (note_empty (shadowRoot (archive s')) = EmptyPlaceholder <-> fl = []).
Proof.
  intros Hr Ho. destruct s as [a r f c nu uc st aw rq np tr].
  cbn in Hr. subst rq.
  destruct (view_connects archive_note a r f c nu uc st aw [] np tr)
    as (fr & tr1 & Hs1 & Hp & _).
  cbn [app with_view view archive] in Hs1.
  destruct (archive_initial_settles a
              (mkView (_notes r) (mkShadow (loading_heading archive_note)
                                    LoadingPlaceholder None))
              f c nu uc st aw np tr1 [] [] fr b _ Hp Ho)
    as (r' & tr2 & shown & _ & _ & _ & _ & Hl).
  specialize (Hl _ eq_refl). cbn zeta in Hl. cbn [app List.length] in Hl.
  eexists. split; [cbn [run]; rewrite Hs1, Hl; reflexivity |].
  cbn [archive shadowRoot].
  destruct fl as [| x fl].
  - split; [reflexivity |]. split; reflexivity.
  - unfold archive_rendered. cbn [map]. rewrite <- (map_cons JObj x fl) at 1.
    cbn [_notes shadowRoot notes_container note_empty].
    change (JObj x :: map JObj fl) with (map JObj (x :: fl)).
    rewrite items_of_objects. cbn [fst].
    split; [reflexivity |]. split; intros H; discriminate.
Qed.

(** The archived-set view on the sample page, served the older note first,
    shows the older note first. *)
Lemma archived_view_renders_one_item_per_note_in_order_witness :
  exists s',
    run sample_page [Connected archive_note; Settles 0 (serves [older; newer])] = Some s'
    /\ option_map (map item_id) (notes_container (shadowRoot (archive s'))) =
       Some [JStr "notes-1"; JStr "notes-2"].
Proof.
  destruct (archived_view_renders_one_item_per_note_in_order sample_page
              (serves [older; newer])
              [ [("id", JStr "notes-1"); ("title", JStr "Title");
                 ("body", JStr "Some text"); ("archived", JBool false);
                 ("createdAt", JStr "2024-01-01T08:00:00.000Z")];
                [("id", JStr "notes-2"); ("title", JStr "Title");
                 ("body", JStr "Some text"); ("archived", JBool false);
                 ("createdAt", JStr "2024-03-05T09:30:00.000Z")] ]
              eq_refl eq_refl)
    as (s' & Hrun & Hitems & _).
  exists s'. split; [exact Hrun |]. rewrite Hitems. reflexivity.
Defined.

(** ** The item view *)

Lemma formatContent_no_newline content :
  existsb (Ascii.eqb newline) (list_ascii_of_string (formatContent content)) = false.
Proof.
  induction content as [| c rest IH]; [reflexivity |].
  cbn [formatContent]. destruct (Ascii.eqb c newline) eqn:Hc.
  - exact IH.
  - cbn [list_ascii_of_string existsb]. rewrite IH.
    rewrite Ascii.eqb_sym, Hc. reflexivity.
Qed.

Lemma set_attribute_same name value l :
  noteitem.getAttribute name l = Some value ->
  noteitem.set_attribute name value l = l.
Proof.
  induction l as [| [k v] rest IH]; cbn; [discriminate |].
  destruct (String.eqb k name) eqn:Hk.
  - intros H. injection H as ->. reflexivity.
  - intros H. now rewrite IH.
Qed.

(** The element that [attach_item] makes of a note whose five properties
    have a string form. *)
Lemma attach_item_state (v : item_view) (i t d c a : string) :
  to_string (item_id v) = Some i ->
  to_string (item_title v) = Some t ->
  to_string (item_date v) = Some d ->
  to_string (item_content v) = Some c ->
  to_string (item_archive v) = Some a ->
  has_markup t = false ->
  has_markup c = false ->
  attach_item v =
  Some (noteitem.mkElement (JStr i) (JStr t) (noteitem.LongDate (JStr d))
          (JStr c) (JStr a)
          [("data-id", i); ("title", t); ("date", d); ("content", c);
           ("archive", a)]
          (Some (noteitem.mkTree t (noteitem.LongDate (JStr d)) (formatContent c)
                   false
                   (noteitem.mkButton 10 "delete" "Delete" [noteitem.HandleDelete])
                   (if String.eqb a "true"
                    then noteitem.mkButton 11 "unarchive" "Unarchive"
                           [noteitem.HandleUnarchive]
                    else noteitem.mkButton 11 "archive" "Archive"
                           [noteitem.HandleArchive])))
          12 []).
Proof.
  intros Hi Ht Hd Hc Ha Hmt Hmc.
  unfold attach_item, noteitem.set_id, noteitem.set_title, noteitem.set_date,
    noteitem.set_content, noteitem.set_archive, noteitem.setAttribute.
  cbn. rewrite Hi. cbn. rewrite Ht. cbn. rewrite Hd. cbn. rewrite Hc. cbn.
  rewrite Ha. cbn.
  unfold noteitem.connectedCallback, noteitem.render. cbn.
  rewrite Hmt, Hmc.
  unfold noteitem.setupEventListeners, noteitem.if_found. cbn.
  destruct (String.eqb a "true"); reflexivity.
Qed.

(** What a list view attaches for a note whose title and content hold no
    markup: every backing field holds the string form of the note's
    property, the shadow root shows the title, the long form of the
    creation date and the content with every line break turned into a
    [br] tag, and there are two buttons with one click listener each:
    [Delete] and, exactly when the string form of the note's [archived]
    is [true], [Unarchive], otherwise [Archive]. *)
Theorem attached_item_shows_note (v : item_view) (i t d c a : string) :
  to_string (item_id v) = Some i ->
  to_string (item_title v) = Some t ->
  to_string (item_date v) = Some d ->
  to_string (item_content v) = Some c ->
  to_string (item_archive v) = Some a ->
  has_markup t = false ->
  has_markup c = false ->
  attach_item v =
  Some (noteitem.mkElement (JStr i) (JStr t) (noteitem.LongDate (JStr d))
          (JStr c) (JStr a)
          [("data-id", i); ("title", t); ("date", d); ("content", c);
           ("archive", a)]
          (Some (noteitem.mkTree t (noteitem.LongDate (JStr d)) (formatContent c)
                   false
                   (noteitem.mkButton 10 "delete" "Delete" [noteitem.HandleDelete])
                   (if String.eqb a "true"
                    then noteitem.mkButton 11 "unarchive" "Unarchive"
                           [noteitem.HandleUnarchive]
                    else noteitem.mkButton 11 "archive" "Archive"
                           [noteitem.HandleArchive])))
          12 [])
  /\ existsb (Ascii.eqb newline) (list_ascii_of_string (formatContent c)) = false.
Proof.
  intros Hi Ht Hd Hc Ha Hmt Hmc. split.
  - now apply attach_item_state.
  - apply formatContent_no_newline.
Qed.

(** A note served by the API: the boolean [archived] of an archived note
    gives the [Unarchive] button. *)
Lemma attached_item_shows_note_witness :
  exists it tree,
    attach_item (mkItem (JStr "notes-3") (JStr "Title")
                   (JStr "2024-02-02T10:00:00.000Z") (JStr "Some text")
                   (JBool true)) = Some it
    /\ noteitem.shadow it = Some tree
    /\ noteitem.label (noteitem.action_button tree) = "Unarchive".
Proof.
  destruct (attached_item_shows_note
              (mkItem (JStr "notes-3") (JStr "Title")
                 (JStr "2024-02-02T10:00:00.000Z") (JStr "Some text")
                 (JBool true))
              "notes-3" "Title" "2024-02-02T10:00:00.000Z" "Some text" "true"
              eq_refl eq_refl eq_refl eq_refl eq_refl eq_refl eq_refl) as [H _].
  do 2 eexists. split; [exact H |]. split; reflexivity.
Defined.

(** A click on a button of an item attached for a note whose title and
    content hold no markup dispatches one intent event whose detail carries
    the note's id, as a string, and the clicked button itself, never
    [null]: [note-deleted] from the first button, and from the second
    [note-unarchived] when the string form of [archived] is [true],
    otherwise [note-archived] (after a line on the console). *)
Theorem attached_item_click_dispatches_intent (v : item_view) (i t d c a : string) :
  to_string (item_id v) = Some i ->
  to_string (item_title v) = Some t ->
  to_string (item_date v) = Some d ->
  to_string (item_content v) = Some c ->
  to_string (item_archive v) = Some a ->
  has_markup t = false ->
  has_markup c = false ->
  exists it tree,
    attach_item v = Some it
    /\ noteitem.shadow it = Some tree
    /\ noteitem.click (noteitem.delete_button tree) it =
         [noteitem.Dispatch "note-deleted" (JStr i)
            (noteitem.Found (noteitem.delete_button tree))]
    /\ noteitem.click (noteitem.action_button tree) it =
         if String.eqb a "true"
         then [noteitem.Dispatch "note-unarchived" (JStr i)
                 (noteitem.Found (noteitem.action_button tree))]
         else [noteitem.LogShadowRoot;
               noteitem.Dispatch "note-archived" (JStr i)
                 (noteitem.Found (noteitem.action_button tree))].
Proof.
  intros Hi Ht Hd Hc Ha Hmt Hmc.
  rewrite (attach_item_state v i t d c a Hi Ht Hd Hc Ha Hmt Hmc).
  do 2 eexists. split; [reflexivity |]. split; [reflexivity |].
  destruct (String.eqb a "true"); split; reflexivity.
Qed.

Lemma attached_item_click_dispatches_intent_witness :
  exists it tree,
    attach_item (mkItem (JStr "notes-1") (JStr "Title")
                   (JStr "2024-01-01T08:00:00.000Z") (JStr "Some text")
                   (JBool false)) = Some it
    /\ noteitem.shadow it = Some tree
    /\ noteitem.click (noteitem.action_button tree) it =
         [noteitem.LogShadowRoot;
          noteitem.Dispatch "note-archived" (JStr "notes-1")
            (noteitem.Found (noteitem.mkButton 11 "archive" "Archive"
                               [noteitem.HandleArchive]))].
Proof.
  destruct (attached_item_click_dispatches_intent
              (mkItem (JStr "notes-1") (JStr "Title")
                 (JStr "2024-01-01T08:00:00.000Z") (JStr "Some text")
                 (JBool false))
              "notes-1" "Title" "2024-01-01T08:00:00.000Z" "Some text" "false"
              eq_refl eq_refl eq_refl eq_refl eq_refl eq_refl eq_refl)
    as (it & tree & Hit & Htree & _ & Hclick).
  exists it, tree. split; [exact Hit |]. split; [exact Htree |].
  rewrite Hclick. vm_compute in Hit. injection Hit as <-.
  vm_compute in Htree. injection Htree as <-. reflexivity.
Defined.

(** When an observed attribute of an item changes, [render] replaces the
    buttons and nothing attaches the click listeners again: whatever the
    element was before, its two buttons have no listener afterwards and a
    click on them dispatches nothing. *)
Theorem attribute_change_leaves_buttons_without_listeners
  (it : noteitem.t) (name s c t0 : string) :
  In name noteitem.observedAttributes ->
  noteitem._content it = JStr c ->
  to_string (noteitem._title it) = Some t0 ->
  noteitem.getAttribute name (noteitem.attributes it) <> Some s ->
  exists it' tree,
    noteitem.setAttribute name (JStr s) it = Some it'
    /\ noteitem.getAttribute name (noteitem.attributes it') = Some s
    /\ noteitem.shadow it' = Some tree
    /\ noteitem.click_listeners (noteitem.delete_button tree) = []
    /\ noteitem.click_listeners (noteitem.action_button tree) = []
    /\ noteitem.click (noteitem.delete_button tree) it' = []
    /\ noteitem.click (noteitem.action_button tree) it' = []
    /\ noteitem.reported it' = noteitem.reported it.
Proof.
  intros Hin Hc Ht Hold.
  assert (Hget : forall l, noteitem.getAttribute name (noteitem.set_attribute name s l) = Some s).
  { induction l as [| [k x] rest IH]; cbn.
    - now rewrite String.eqb_refl.
    - destruct (String.eqb k name) eqn:Hk; cbn; rewrite Hk; [reflexivity | exact IH]. }
  assert (Hneq : match noteitem.getAttribute name (noteitem.attributes it) with
                 | Some old => String.eqb old s
                 | None => false
                 end = false).
  { destruct (noteitem.getAttribute name (noteitem.attributes it)) as [old |];
      [| reflexivity].
    apply String.eqb_neq. intros ->. now apply Hold. }
  destruct it as [fi fti fd fc fa fattrs fsh ffr fre]. cbn in Hc, Ht, Hneq, Hold.
  subst fc. unfold noteitem.setAttribute. cbn [to_string].
  cbn [noteitem.attributes]. unfold noteitem.attributeChangedCallback.
  cbn [noteitem.with_attributes]. rewrite Hneq.
  cbn in Hin.
  destruct Hin as [<- | [<- | [<- | [<- | [<- | []]]]]];
    cbn [existsb String.eqb Ascii.eqb Bool.eqb orb andb];
    cbn [noteitem.with_id noteitem.with_title noteitem.with_date
         noteitem.with_content noteitem.with_archive noteitem.render
         noteitem._content noteitem._title noteitem._archive noteitem._date
         noteitem.fresh to_string];
    rewrite ?Ht;
    do 2 eexists; (split; [reflexivity |]);
    cbn [noteitem.with_shadow noteitem.attributes noteitem.shadow
         noteitem.reported];
    (split; [apply Hget |]); repeat split.
Qed.

(** On an attached item, a new title leaves the [Delete] button dead. *)
Lemma attribute_change_leaves_buttons_without_listeners_witness :
  exists it it' tree,
    attach_item (mkItem (JStr "notes-1") (JStr "Title")
                   (JStr "2024-01-01T08:00:00.000Z") (JStr "Some text")
                   (JBool false)) = Some it
    /\ noteitem.setAttribute "title" (JStr "Another title") it = Some it'
    /\ noteitem.shadow it' = Some tree
    /\ noteitem.click (noteitem.delete_button tree) it' = [].
Proof.
  eexists.
  destruct (attribute_change_leaves_buttons_without_listeners
              (noteitem.mkElement (JStr "notes-1") (JStr "Title")
                 (noteitem.LongDate (JStr "2024-01-01T08:00:00.000Z"))
                 (JStr "Some text") (JStr "false")
                 [("data-id", "notes-1"); ("title", "Title");
                  ("date", "2024-01-01T08:00:00.000Z");
                  ("content", "Some text"); ("archive", "false")]
                 (Some (noteitem.mkTree "Title"
                          (noteitem.LongDate (JStr "2024-01-01T08:00:00.000Z"))
                          "Some text" false
                          (noteitem.mkButton 10 "delete" "Delete"
                             [noteitem.HandleDelete])
                          (noteitem.mkButton 11 "archive" "Archive"
                             [noteitem.HandleArchive])))
                 12 [])
              "title" "Another title" "Some text" "Title"
              (or_intror (or_introl eq_refl)) eq_refl eq_refl
              ltac:(vm_compute; discriminate))
    as (it' & tree & Hset & _ & Hsh & _ & _ & Hclick & _).
  exists it', tree. split; [vm_compute; reflexivity |].
  split; [exact Hset |]. split; [exact Hsh | exact Hclick].
Defined.

(** The [archive] property is compared as text.  Assigning a value whose
    string form differs from the attribute stores the string form, which is
    what the getter then returns, and renders [Unarchive] exactly for the
    text [true].  Assigning a value whose string form is the attribute's
    value stores the value itself and renders nothing; after the boolean
    [true] has been assigned in this way, the next [render] shows
    [Archive]. *)
Theorem archive_property_is_compared_as_text
  (it : noteitem.t) (v : jsval) (s c t0 : string) :
  noteitem._content it = JStr c ->
  to_string (noteitem._title it) = Some t0 ->
  to_string v = Some s ->
  (noteitem.getAttribute "archive" (noteitem.attributes it) <> Some s ->
   exists it' tree,
     noteitem.set_archive v it = Some it'
     /\ noteitem.get_archive it' = JStr s
     /\ noteitem.shadow it' = Some tree
     /\ noteitem.label (noteitem.action_button tree) =
        if String.eqb s "true" then "Unarchive" else "Archive")
  /\ (noteitem.getAttribute "archive" (noteitem.attributes it) = Some s ->
      noteitem.set_archive v it = Some (noteitem.with_archive v it))
  /\ (noteitem.getAttribute "archive" (noteitem.attributes it) = Some s ->
      v = JBool true ->
      exists it' tree,
        noteitem.render (noteitem.with_archive v it) = Some (it', None)
        /\ noteitem.shadow it' = Some tree
        /\ noteitem.label (noteitem.action_button tree) = "Archive").
Proof.
  intros Hc Ht Hv.
  destruct it as [fi fti fd fc fa fattrs fsh ffr fre]. cbn in Hc, Ht. subst fc.
  cbn [noteitem.attributes].
  split; [| split].
  - intros Hold.
    assert (Hneq : match noteitem.getAttribute "archive" fattrs with
                   | Some old => String.eqb old s
                   | None => false
                   end = false).
    { destruct (noteitem.getAttribute "archive" fattrs) as [old |];
        [| reflexivity].
      apply String.eqb_neq. intros ->. now apply Hold. }
    unfold noteitem.set_archive, noteitem.setAttribute. rewrite Hv.
    cbn [noteitem.with_archive noteitem.attributes noteitem.with_attributes].
    unfold noteitem.attributeChangedCallback. rewrite Hneq.
    cbn [existsb String.eqb Ascii.eqb Bool.eqb orb andb].
    cbn [noteitem.with_archive noteitem.render noteitem._content
         noteitem._title noteitem._archive noteitem._date noteitem.fresh].
    rewrite Ht. do 2 eexists. split; [reflexivity |].
    split; [reflexivity |]. split; [reflexivity |].
    cbn. destruct (String.eqb s "true"); reflexivity.
  - intros Hsame.
    unfold noteitem.set_archive, noteitem.setAttribute. rewrite Hv.
    cbn [noteitem.with_archive noteitem.attributes noteitem.with_attributes].
    unfold noteitem.attributeChangedCallback. rewrite Hsame, String.eqb_refl.
    rewrite (set_attribute_same _ _ _ Hsame).
    reflexivity.
  - intros _ ->.
    cbn [noteitem.with_archive noteitem.render noteitem._content
         noteitem._title noteitem._archive noteitem._date noteitem.fresh].
    rewrite Ht. do 2 eexists. split; [reflexivity |]. split; reflexivity.
Qed.

(** An archived note's item, assigned [archive = true] once more. *)
Lemma archive_property_is_compared_as_text_witness :
  exists it it' it'' tree,
    attach_item (mkItem (JStr "notes-3") (JStr "Title")
                   (JStr "2024-02-02T10:00:00.000Z") (JStr "Some text")
                   (JBool true)) = Some it
    /\ noteitem.set_archive (JBool true) it = Some it'
    /\ noteitem.get_archive it' = JBool true
    /\ noteitem.render it' = Some (it'', None)
    /\ noteitem.shadow it'' = Some tree
    /\ noteitem.label (noteitem.action_button tree) = "Archive".
Proof.
  eexists.
  destruct (archive_property_is_compared_as_text
              (noteitem.mkElement (JStr "notes-3") (JStr "Title")
                 (noteitem.LongDate (JStr "2024-02-02T10:00:00.000Z"))
                 (JStr "Some text") (JStr "true")
                 [("data-id", "notes-3"); ("title", "Title");
                  ("date", "2024-02-02T10:00:00.000Z");
                  ("content", "Some text"); ("archive", "true")]
                 (Some (noteitem.mkTree "Title"
                          (noteitem.LongDate (JStr "2024-02-02T10:00:00.000Z"))
                          "Some text" false
                          (noteitem.mkButton 10 "delete" "Delete"
                             [noteitem.HandleDelete])
                          (noteitem.mkButton 11 "unarchive" "Unarchive"
                             [noteitem.HandleUnarchive])))
                 12 [])
              (JBool true) "true" "Some text" "Title" eq_refl eq_refl eq_refl)
    as (_ & Hsame & Hstale).
  destruct (Hstale eq_refl eq_refl) as (it'' & tree & Hr & Hsh & Hl).
  eexists. exists it'', tree.
  split; [vm_compute; reflexivity |].
  split; [exact (Hsame eq_refl) |].
  split; [reflexivity |].
  split; [exact Hr |]. split; [exact Hsh | exact Hl].
Defined.

(** [connectedCallback] renders the element and, when neither the title
    nor the content holds markup, gives each of the two new buttons exactly
    one click listener, whatever was there before; [disconnectedCallback]
    then removes both listeners; and when [this._content] is not a string,
    [connectedCallback] reports a [TypeError] and leaves the shadow root
    and its listeners as they were. *)
Theorem item_listeners_follow_connection (it : noteitem.t) (t0 : string) :
  to_string (noteitem._title it) = Some t0 ->
  (forall c, noteitem._content it = JStr c ->
     has_markup t0 = false -> has_markup c = false ->
     exists it1 tree,
       noteitem.connectedCallback it = Some it1
       /\ noteitem.shadow it1 = Some tree
       /\ noteitem.click_listeners (noteitem.delete_button tree) =
          [noteitem.HandleDelete]
       /\ noteitem.click_listeners (noteitem.action_button tree) =
          [if noteitem.is_true_text (noteitem._archive it)
           then noteitem.HandleUnarchive else noteitem.HandleArchive]
       /\ exists it2 tree',
            noteitem.disconnectedCallback it1 = Some it2
            /\ noteitem.shadow it2 = Some tree'
            /\ noteitem.click_listeners (noteitem.delete_button tree') = []
            /\ noteitem.click_listeners (noteitem.action_button tree') = [])
  /\ ((forall c, noteitem._content it <> JStr c) ->
      exists it1 e,
        noteitem.connectedCallback it = Some it1
        /\ name e = "TypeError"
        /\ noteitem.reported it1 = noteitem.reported it ++ [e]
        /\ noteitem.shadow it1 = noteitem.shadow it).
Proof.
  intros Ht. destruct it as [fi fti fd fc fa fattrs fsh ffr fre].
  cbn in Ht. split.
  - intros c Hc Hmt Hmc. cbn in Hc. subst fc.
    unfold noteitem.connectedCallback, noteitem.render.
    cbn [noteitem._content noteitem._title noteitem._archive noteitem._date
         noteitem.fresh].
    rewrite Ht, Hmt, Hmc. cbn [noteitem.with_shadow orb].
    unfold noteitem.disconnectedCallback, noteitem.removeEventListeners,
      noteitem.setupEventListeners, noteitem.if_found.
    destruct (noteitem.is_true_text fa); cbn; do 2 eexists;
      (split; [reflexivity |]); (split; [reflexivity |]);
      (split; [reflexivity |]); (split; [reflexivity |]);
      do 2 eexists; (split; [reflexivity |]); (split; [reflexivity |]);
      split; reflexivity.
  - intros Hc. cbn in Hc.
    unfold noteitem.connectedCallback, noteitem.render.
    cbn [noteitem._content].
    destruct fc as [| | b | z | s | l | fields];
      try (eexists; eexists (TypeError _); split; [reflexivity |];
           split; [reflexivity |]; split; reflexivity).
    now contradiction (Hc s).
Qed.

Lemma item_listeners_follow_connection_witness :
  exists it1 tree,
    noteitem.connectedCallback noteitem.create = Some it1
    /\ noteitem.shadow it1 = Some tree
    /\ noteitem.click_listeners (noteitem.delete_button tree) =
       [noteitem.HandleDelete]
    /\ noteitem.click_listeners (noteitem.action_button tree) =
       [noteitem.HandleArchive].
Proof.
  destruct (item_listeners_follow_connection noteitem.create "" eq_refl)
    as (Hok & _).
  destruct (Hok "" eq_refl eq_refl eq_refl) as (it1 & tree & H1 & H2 & H3 & H4 & _).
  exists it1, tree. repeat split; assumption.
Defined.

(** ** From an intent to the network *)

(** An intent event, whatever else is in flight, makes its control busy and
    starts the gateway call of its operation. *)
Lemma intent_step_in_flight s ev i el :
  intent_of s ev = Some i ->
  intent_button i = Some el ->
  exists fl f' c' tr',
    step s ev =
      Some (mkState (active s) (archive s) f' c' (notes_updated s)
              (update_complete s) (settled s) (awaiting s) (requests s ++ [fl])
              (next_promise s) tr')
    /\ parked (handleNoteOperation (intent_data i) (intent_operation i) (Some el)) = Some fl
    /\ c' el = busy
    /\ (forall x, x <> el -> c' x = controls s x).
Proof.
  intros Hi Hb.
  destruct s as [a r f c nu uc st aw rq np tr].
  destruct ev; cbn in Hi; try discriminate; injection Hi as <-;
    cbn in Hb; first [subst button | injection Hb as <-].
  all: do 4 eexists;
    (split; [exec_run; reflexivity |]);
    (split; [reflexivity |]);
    (split; [rewrite !update_same; reflexivity |]);
    intros x Hx; rewrite !update_other by exact Hx; reflexivity.
Qed.

(** Every intent that carries its button starts exactly one request, armed
    with the 5000 ms timer and the abort signal: a creation posts the typed
    title and body as they are, and the three other operations put the id,
    as it is, into the address. *)
Theorem intent_starts_one_request s ev i el :
  intent_of s ev = Some i ->
  intent_button i = Some el ->
  exists s1 fl,
    step s ev = Some s1
    /\ requests s1 = requests s ++ [fl]
    /\ fl_timer fl = Some 5000%N
    /\ fl_request fl =
       match i with
       | note_created title body _ =>
           mkRequest (NoteApi.BASE_URL ++ "/notes")
             (mkOptions (Some "POST") NoteApi.json_headers
                (Some (NoteRequest title body))) true
       | note_deleted id _ =>
           mkRequest (NoteApi.BASE_URL ++ "/notes/" ++ id)
             (mkOptions (Some "DELETE") NoteApi.json_headers None) true
       | note_archived id _ =>
           mkRequest (NoteApi.BASE_URL ++ "/notes/" ++ id ++ "/archive")
             (mkOptions (Some "POST") NoteApi.json_headers None) true
       | note_unarchived id _ =>
           mkRequest (NoteApi.BASE_URL ++ "/notes/" ++ id ++ "/unarchive")
             (mkOptions (Some "POST") NoteApi.json_headers None) true
       end
    /\ controls s1 el = busy.
Proof.
  intros Hi Hb.
  destruct (intent_step_in_flight s ev i el Hi Hb)
    as (fl & f' & c' & tr' & Hs1 & Hp & Hbusy & _).
  eexists. exists fl. split; [exact Hs1 |]. split; [reflexivity |].
  destruct i; cbn in Hp; injection Hp as <-;
    (split; [reflexivity |]); (split; [reflexivity | exact Hbusy]).
Qed.

(** A delete on the sample page: the id goes into the address as it is. *)
Lemma intent_starts_one_request_witness :
  exists s1 fl,
    step loaded_page (DeleteClicked "notes 1/2" (Some 7)) = Some s1
    /\ requests s1 = [fl]
    /\ url (fl_request fl) = "https://notes-api.dicoding.dev/v2/notes/notes 1/2".
Proof.
  destruct (intent_starts_one_request loaded_page
              (DeleteClicked "notes 1/2" (Some 7)) _ _ eq_refl eq_refl)
    as (s1 & fl & Hs1 & Hrq & _ & Hreq & _).
  exists s1, fl. split; [exact Hs1 |]. split; [exact Hrq |].
  rewrite Hreq. reflexivity.
Defined.

(** An intent whose detail has no button sends nothing: [showLoading]
    throws on the missing element before the gateway is called, the
    exception is not caught, and the page is otherwise as it was. *)
Theorem intent_without_button_sends_nothing s ev i :
  intent_of s ev = Some i ->
  intent_button i = None ->
  exists e,
    step s ev = Some (record [Did (DispatchIntent i); Uncaught e] s)
    /\ name e = "TypeError".
Proof.
  intros Hi Hb.
  destruct s as [a r f c nu uc st aw rq np tr].
  destruct ev; cbn in Hi; try discriminate; injection Hi as <-;
    cbn in Hb; try discriminate; subst button.
  all: eexists; split; [exec_run; cbn [record]; rewrite <- app_assoc; reflexivity |];
    reflexivity.
Qed.

Lemma intent_without_button_sends_nothing_witness :
  exists s1,
    step loaded_page (DeleteClicked "notes-1" None) = Some s1
    /\ requests s1 = [] /\ effects (trace s1) =
       effects (trace loaded_page) ++ [DispatchIntent (note_deleted "notes-1" None)].
Proof.
  destruct (intent_without_button_sends_nothing loaded_page
              (DeleteClicked "notes-1" None) _ eq_refl eq_refl) as (e & H & _).
  eexists. split; [exact H |]. split; vm_compute; reflexivity.
Defined.

(** ** The timer of a gateway call *)

(** Every gateway call arms the 5000 ms timer, then sends its one request
    with the abort signal attached.  The timer is cleared exactly when the
    response arrives in time, before the status is looked at; the body is
    read after that, by a read operation whose response has an accepted
    status.  When the request fails or is aborted, nothing clears the
    timer. *)
Theorem timer_armed_before_request_cleared_on_response
  (op : operation) (d : note_data) (b : net_behaviour)
  (rest : list net_behaviour) :
  exists o rq tail,
    gateway op d (b :: rest) =
      Some (o, EvSetTimeout 5000 :: EvFetch rq :: tail, rest)
    /\ signal rq = true
    /\ tail =
       match b with
       | Responds latency r =>
           if (latency <=? 5000)%N
           then EvClearTimeout ::
                (if is_read op
                    && negb ((status r <? 200)%Z || (status r >? 300)%Z)
                 then [EvReadJson] else [])
           else []
       | Fails _ _ | Hangs => []
       end.
Proof.
  destruct (gateway_as_fetch op d (b :: rest))
    as (url & options & _ & Hm & ->).
  destruct (settles_within 5000 b) eqn:Hb.
  - destruct b as [t r | t msg |]; cbn in Hb; try discriminate.
    + rewrite Hb. apply N.leb_le in Hb.
      destruct (accepted_dec (status r)) as [Hs | Hs].
      * rewrite (accepted_passes _ Hs). cbn [negb]. rewrite andb_true_r.
        destruct (is_read op) eqn:Hr; cbn [negb] in Hm.
        -- rewrite fetchWithTimeout_read by assumption.
           destruct (read_json r) as [x | e];
             [destruct (destructure_data x) |];
             do 3 eexists; (split; [reflexivity |]); split; reflexivity.
        -- rewrite fetchWithTimeout_write by assumption.
           do 3 eexists. split; [reflexivity |]. split; reflexivity.
      * rewrite fetchWithTimeout_rejected_status by assumption.
        assert (Hrej : ((status r <? 200)%Z || (status r >? 300)%Z) = true).
        { unfold accepted in Hs. apply orb_true_iff.
          destruct (Z.ltb_spec (status r) 200); [now left | right].
          apply Z.gtb_lt. lia. }
        rewrite Hrej. cbn [negb]. rewrite andb_false_r.
        do 3 eexists. split; [reflexivity |]. split; reflexivity.
    + apply N.leb_le in Hb.
      rewrite fetchWithTimeout_network_error by assumption.
      do 3 eexists. split; [reflexivity |]. split; reflexivity.
  - rewrite fetchWithTimeout_late by assumption.
    do 3 eexists. split; [reflexivity |]. split; [reflexivity |].
    destruct b as [t r | t msg |]; cbn in Hb; try rewrite Hb; reflexivity.
Qed.

(** ** A response without [data] *)

Lemma read_without_data v t st fields :
  (t <= 5000)%N -> accepted st ->
  outcome_of (view_call v) (Responds t (mkResponse st (JsonBody (JObj fields)))) =
  Some (Returned (Data (lookup "data" fields))).
Proof.
  intros Ht Hs. unfold outcome_of.
  destruct v; cbn [view_call]; unfold NoteApi.getActiveNote, NoteApi.getArchiveNote;
    rewrite run_rethrow, fetchWithTimeout_read by (assumption || reflexivity);
    reflexivity.
Qed.

(** An accepted response whose body is an object without [data] counts as
    a success of the gateway, which returns [undefined].  The list view
    stores it in place of its notes and then fails in [render] on the
    length of [undefined]: it reports a [TypeError] (an alert in the
    active-set view, the console in the archived-set view), keeps what it
    showed and subscribes as usual. *)
Theorem response_without_data_replaces_notes_by_undefined
  (v : view_id) (s : state) (t : N) (st : Z) (fields : list (string * jsval)) :
  requests s = [] ->
  (t <= 5000)%N -> accepted st ->
  lookup "data" fields = JUndefined ->
  exists s1 s2 e,
    step s (Connected v) = Some s1
    /\ step s1 (Settles 0 (Responds t (mkResponse st (JsonBody (JObj fields)))))
       = Some s2
    /\ _notes (view v s2) = JUndefined
    /\ shadowRoot (view v s2) = shadowRoot (view v s1)
    /\ name e = "TypeError"
    /\ effects (trace s2) =
         effects (trace s1) ++
         [SetNotes v JUndefined; report v e; AddNotesUpdatedListener v].
Proof.
  intros Hr Ht Hs Hdata.
  pose proof (read_without_data v t st fields Ht Hs) as Ho.
  rewrite Hdata in Ho.
  destruct s as [a r f c nu uc st0 aw rq np tr]. cbn in Hr. subst rq.
  destruct (view_connects v a r f c nu uc st0 aw [] np tr)
    as (fl & tr1 & Hs1 & Hp & _).
  cbn [app] in Hs1.
  destruct v; cbn [with_view view _notes] in *;
    cbn in Hp; injection Hp as <-;
    destruct (waiting_settles _ _ _ _ _ _ _ Ho eq_refl) as (fr & log & Hf & Ha);
    match goal with H : step _ _ = Some (mkState ?a1 ?r1 _ _ _ _ _ _ [mkInFlight ?tm ?q ?g ?K] _ _) |- _ =>
      pose proof (step_settles_middle a1 r1 f c nu uc st0 aw np tr1
                    [] [] (mkInFlight tm q g K) _ fr _ log Hf Ha) as Hstep
    end;
    cbn [app List.length] in Hstep;
    eexists; eexists; eexists (TypeError _);
    (split; [exact Hs1 |]);
    (split; [rewrite Hstep; exec_run; reflexivity |]);
    cbn [active archive _notes shadowRoot trace];
    (split; [reflexivity |]); (split; [reflexivity |]);
    (split; [reflexivity |]);
    flatten_effects; reflexivity.
Qed.

Lemma response_without_data_replaces_notes_by_undefined_witness :
  exists s1 s2,
    step sample_page (Connected active_note) = Some s1
    /\ step s1 (Settles 0 (Responds 120
                  (mkResponse 200 (JsonBody (JObj [("status", JStr "success")])))))
       = Some s2
    /\ _notes (active s2) = JUndefined
    /\ note_empty (shadowRoot (active s2)) = LoadingPlaceholder.
Proof.
  destruct (response_without_data_replaces_notes_by_undefined
              active_note sample_page 120 200 [("status", JStr "success")]
              eq_refl ltac:(vm_compute; discriminate)
              ltac:(unfold accepted; lia) eq_refl)
    as (s1 & s2 & e & H1 & H2 & Hn & Hsh & _).
  exists s1, s2. split; [exact H1 |]. split; [exact H2 |].
  split; [exact Hn |]. cbn [view] in Hsh. rewrite Hsh.
  vm_compute in H1. injection H1 as <-. reflexivity.
Defined.

(** ** A write that settles while the active-set view is still loading *)

(** The trace of an intent event: nothing is broadcast and no control is
    restored. *)
Lemma intent_step_trace s ev i el s1 :
  intent_of s ev = Some i ->
  intent_button i = Some el ->
  step s ev = Some s1 ->
  exists shown,
    effects (trace s1) = effects (trace s) ++ shown
    /\ existsb is_broadcast shown = false
    /\ existsb (restores el) shown = false.
Proof.
  intros Hi Hb.
  destruct s as [a r f c nu uc st aw rq np tr].
  destruct ev; cbn in Hi; try discriminate; injection Hi as <-;
    cbn in Hb; first [subst button | injection Hb as <-].
  all: exec_run; intros H; injection H as <-; cbn [trace]; eexists;
    (split; [flatten_effects; reflexivity |]); split; reflexivity.
Qed.

(** The coordinator resumes after a successful write while no view is
    subscribed: it broadcasts to nobody and waits. *)
Lemma write_succeeds_unheard a r f c np tr before fl d op el bw v :
  parked (handleNoteOperation d op (Some el)) = Some fl ->
  outcome_of (call op d) bw = Some (Returned v) ->
  exists tr',
    step (mkState a r f c [] [] [] [] (before ++ [fl]) np tr)
         (Settles (List.length before) bw) =
      Some (mkState a r f c [] [np] []
              [(np, HelperLoading.hideLoading (Some el) (getButttonTextForOperation op))]
              before (S np) tr')
    /\ effects tr' =
         effects tr ++ [AddUpdateCompleteListener np; DispatchNotesUpdated (Some el)].
Proof.
  intros Hp Ho.
  destruct (resumed_call_settles op d) as (rq & k & log0 & Hadv & Hsig & Hall).
  destruct (waiting_settles _ _ _ _ _ _ _ Ho Hadv) as (fr & log & Hf & Ha).
  cbn in Hp. rewrite Hadv in Hp. injection Hp as <-.
  eexists. split.
  - match goal with |- context [mkInFlight ?t ?q ?g ?K] =>
      pose proof (step_settles_middle a r f c [] [] [] [] np tr before []
                    (mkInFlight t q g K) bw fr _ log Hf Ha) as Hs
    end.
    rewrite Hs, app_nil_r. exec_run. reflexivity.
  - flatten_effects. reflexivity.
Qed.

(** A write that settles while the active-set view is still waiting for
    its first fetch leaves its control busy for good.  The view registers
    its [notes-updated] listener only after that fetch, so the one
    broadcast of the coordinator reaches nobody; when the fetch has settled
    the page is at rest, with no request in flight, the coordinator still
    waiting for an acknowledgement and the control still busy. *)
Theorem write_settling_while_active_view_loads_leaves_control_busy
  (s : state) (ev : env_event) (i : intent) (el : element)
  (bw b0 : net_behaviour) (v : gw_value) (fl0 : in_flight) :
  update_complete s = [] -> settled s = [] -> awaiting s = [] ->
  notes_updated s = [] ->
  requests s = [fl0] ->
  parked (initial_fetch active_note) = Some fl0 ->
  intent_of s ev = Some i ->
  intent_button i = Some el ->
  outcome_of (call (intent_operation i) (intent_data i)) bw = Some (Returned v) ->
  exists s1 s2 s3,
    step s ev = Some s1
    /\ step s1 (Settles 1 bw) = Some s2
    /\ step s2 (Settles 0 b0) = Some s3
    /\ count is_broadcast (effects (trace s3)) =
       S (count is_broadcast (effects (trace s)))
    /\ notes_updated s3 = [active_note]
    /\ requests s3 = []
    /\ update_complete s3 = [next_promise s]
    /\ map fst (awaiting s3) = [next_promise s]
    /\ settled s3 = []
    /\ controls s3 el = busy
    /\ (forall n b, step s3 (Settles n b) = Some s3).
Proof.
  intros Huc Hst Haw Hnu Hrq Hp0 Hi Hb Ho.
  destruct (intent_step_in_flight s ev i el Hi Hb)
    as (fl & f' & c' & tr1 & Hs1 & Hp & Hbusy & _).
  destruct (intent_step_trace s ev i el _ Hi Hb Hs1)
    as (shown1 & Htr1 & Hnb1 & _).
  cbn [trace] in Htr1.
  rewrite Huc, Hst, Haw, Hnu, Hrq in Hs1.
  destruct (write_succeeds_unheard (active s) (archive s) f' c' (next_promise s)
              tr1 [fl0] fl _ _ el bw v Hp Ho)
    as (tr2 & Hs2 & Htr2).
  cbn [List.length] in Hs2.
  destruct (always_outcome getActiveNote (NoteId "") b0) as (oa & Hoa).
  destruct (active_initial_settles (active s) (archive s) f' c' []
              [next_promise s] []
              [(next_promise s,
                HelperLoading.hideLoading (Some el)
                  (getButttonTextForOperation (intent_operation i)))]
              (S (next_promise s)) tr2 [] [] fl0 b0 oa Hp0 Hoa)
    as (a' & tr3 & shown3 & Hs3 & Htr3 & Hshown3 & _).
  cbn [app List.length] in Hs3.
  destruct (view_effects_quiet active_note el shown3 Hshown3) as [Hnb3 _].
  do 3 eexists. split; [exact Hs1 |]. split; [exact Hs2 |].
  split; [exact Hs3 |].
  cbn [trace notes_updated requests update_complete awaiting settled controls
       map fst].
  split.
  { rewrite Htr3, Htr2, Htr1. rewrite !count_app.
    rewrite (count_none _ _ Hnb1), (count_none _ _ Hnb3). cbn. lia. }
  repeat (split; [reflexivity |]).
  split; [exact Hbusy |].
  intros n b. apply settles_nothing. reflexivity.
Qed.

(** On the sample page: the form is submitted while the active-set view
    loads, the creation is confirmed first, the list arrives afterwards. *)
Lemma write_settling_while_active_view_loads_leaves_control_busy_witness :
  exists s3,
    run loading_page [Submit; Settles 1 confirms; Settles 0 (serves [older])]
      = Some s3
    /\ requests s3 = []
    /\ controls s3 0 = busy.
Proof.
  assert (H0 : exists fl0, requests loading_page = [fl0]
                           /\ parked (initial_fetch active_note) = Some fl0)
    by (eexists; split; vm_compute; reflexivity).
  destruct H0 as (fl0 & Hrq0 & Hp0).
  destruct (write_settling_while_active_view_loads_leaves_control_busy
              loading_page Submit _ 0 confirms (serves [older])
              (Handle (mkResponse 200 (JsonBody (JObj [("status", JStr "success")]))))
              fl0 eq_refl eq_refl eq_refl eq_refl Hrq0 Hp0 eq_refl eq_refl eq_refl)
    as (s1 & s2 & s3 & H1 & H2 & H3 & _ & _ & Hrq & _ & _ & _ & Hbusy & _).
  exists s3.
  split; [exact (run_three _ _ _ _ _ _ _ H1 H2 H3) |].
  split; [exact Hrq | exact Hbusy].
Defined.

(** ** Two writes outstanding *)

Ltac exec_run_with H1 H2 :=
  try unfold step; try unfold run_task;
  repeat (exec_step; rewrite ?H1, ?H2, ?Nat.eqb_refl; cbn).

(** A successful write among other requests, while other coordinators may
    be waiting: one more one-time listener, one broadcast, one fetch per
    view behind the requests already in flight. *)
Lemma write_succeeds_among a r f c nu uc aw np tr after fl d op el bw v :
  nu = [active_note; archive_note] \/ nu = [archive_note; active_note] ->
  parked (handleNoteOperation d op (Some el)) = Some fl ->
  outcome_of (call op d) bw = Some (Returned v) ->
  exists tr' flA flR,
    step (mkState a r f c nu uc [] aw (fl :: after) np tr) (Settles 0 bw) =
      Some (mkState a r f c nu (uc ++ [np]) []
              (aw ++ [(np, HelperLoading.hideLoading (Some el)
                             (getButttonTextForOperation op))])
              (after ++ map (fun x => match x with
                                      | active_note => flA
                                      | archive_note => flR
                                      end) nu)
              (S np) tr')
    /\ parked (handleNotesUpdated active_note) = Some flA
    /\ parked (handleNotesUpdated archive_note) = Some flR.
Proof.
  intros Hnu Hp Ho.
  destruct (resumed_call_settles op d) as (rq & k & log0 & Hadv & Hsig & Hall).
  destruct (waiting_settles _ _ _ _ _ _ _ Ho Hadv) as (fr & log & Hf & Ha).
  cbn in Hp. rewrite Hadv in Hp. injection Hp as <-.
  destruct Hnu as [-> | ->]; do 3 eexists.
  all: (split;
    [ match goal with |- context [mkState _ _ _ _ ?l _ _ _ (mkInFlight ?t ?q ?g ?K :: _)] =>
        pose proof (step_settles_middle a r f c l uc [] aw np tr [] after
                      (mkInFlight t q g K) bw fr _ log Hf Ha) as Hs
      end;
      cbn [app List.length] in Hs; rewrite Hs; exec_run;
      rewrite <- ?app_assoc; reflexivity
    | split; reflexivity ]).
Qed.

(** One acknowledgement wakes every coordinator that waits. *)
Lemma acknowledgement_restores_both a r f c nu p q np tr before after fl
  el1 l1 el2 l2 ba oa :
  p <> q -> el1 <> el2 -> l1 <> "" -> l2 <> "" ->
  parked (handleNotesUpdated active_note) = Some fl ->
  outcome_of NoteApi.getActiveNote ba = Some oa ->
  exists a' c' tr',
    step (mkState a r f c nu [p; q] []
            [(p, HelperLoading.hideLoading (Some el1) l1);
             (q, HelperLoading.hideLoading (Some el2) l2)]
            (before ++ fl :: after) np tr)
         (Settles (List.length before) ba) =
      Some (mkState a' r f c' nu [] [] [] (before ++ after) np tr')
    /\ c' el1 = idle l1
    /\ c' el2 = idle l2.
Proof.
  intros Hpq Hne Hl1 Hl2 Hp Ho.
  assert (Hpq1 : Nat.eqb p q = false) by now apply Nat.eqb_neq.
  assert (Hpq2 : Nat.eqb q p = false) by (apply Nat.eqb_neq; congruence).
  cbn in Hp. injection Hp as <-.
  destruct (waiting_settles _ _ _ _ _ _ _ Ho eq_refl) as (fr & log & Hf & Ha).
  match goal with |- context [mkInFlight ?t ?q0 ?g ?K] =>
    pose proof (step_settles_middle a r f c nu [p; q] []
                  [(p, HelperLoading.hideLoading (Some el1) l1);
                   (q, HelperLoading.hideLoading (Some el2) l2)] np tr
                  before after (mkInFlight t q0 g K) ba fr _ log Hf Ha) as Hs
  end.
  clear Ho Hf Ha.
  destruct oa as [[d | h] | e]; [destruct d as [| | b0 | z | s0 | l | fields] |..].
  6: destruct (items_of (rev l)) as [items [err |]] eqn:Hitems.
  all: do 3 eexists; split;
      [ rewrite Hs; exec_run_with Hpq1 Hpq2; rewrite ?Hitems;
        exec_run_with Hpq1 Hpq2;
        rewrite ?(text_content_filled _ Hl1), ?(text_content_filled _ Hl2);
        lazymatch goal with |- Some _ = Some _ => reflexivity end
      | split;
        [ rewrite !(update_other el2 el1) by exact Hne;
          rewrite !update_same; reflexivity
        | rewrite !update_same; reflexivity ] ].
Qed.

(** The acknowledgement of the coordinator's protocol is not tied to a
    broadcast.  When two writes have succeeded and both coordinators wait,
    the first re-fetch of the active-set view to settle restores both
    controls, while the re-fetch that the second broadcast started in that
    view is still in flight. *)
Theorem one_acknowledgement_restores_every_waiting_control
  (s : state) (ev1 ev2 : env_event) (i1 i2 : intent) (el1 el2 : element)
  (bw1 bw2 ba : net_behaviour) (v1 v2 : gw_value) :
  quiescent s -> subscribed s ->
  intent_of s ev1 = Some i1 -> intent_button i1 = Some el1 ->
  (forall s', intent_of s' ev2 = Some i2) -> intent_button i2 = Some el2 ->
  el1 <> el2 ->
  outcome_of (call (intent_operation i1) (intent_data i1)) bw1 = Some (Returned v1) ->
  outcome_of (call (intent_operation i2) (intent_data i2)) bw2 = Some (Returned v2) ->
  exists s4 s5,
    run s [ev1; ev2; Settles 0 bw1; Settles 0 bw2] = Some s4
    /\ controls s4 el1 = busy
    /\ controls s4 el2 = busy
    /\ map (fun fl => url (fl_request fl)) (requests s4) =
       map view_url (notes_updated s) ++ map view_url (notes_updated s)
    /\ step s4 (Settles (position active_note (notes_updated s)) ba) = Some s5
    /\ controls s5 el1 = idle (getButttonTextForOperation (intent_operation i1))
    /\ controls s5 el2 = idle (getButttonTextForOperation (intent_operation i2))
    /\ count (String.eqb (view_url active_note))
         (map (fun fl => url (fl_request fl)) (requests s5)) = 1.
Proof.
  intros (Hr & Haw & Huc & Hst) Hsub Hi1 Hb1 Hi2 Hb2 Hne Ho1 Ho2.
  destruct (intent_step_in_flight s ev1 i1 el1 Hi1 Hb1)
    as (fl1 & f1 & c1 & tr1 & Hs1 & Hp1 & Hbusy1 & _).
  rewrite Hr, Haw, Huc, Hst in Hs1. cbn [app] in Hs1.
  match type of Hs1 with _ = Some ?x =>
    destruct (intent_step_in_flight x ev2 i2 el2 (Hi2 x) Hb2)
      as (fl2 & f2 & c2 & tr2 & Hs2 & Hp2 & Hbusy2 & Hother2)
  end.
  cbn [active archive notes_updated update_complete settled awaiting requests
       next_promise controls app] in Hs2, Hother2.
  assert (Hbusy1' : c2 el1 = busy) by (rewrite Hother2 by exact Hne; exact Hbusy1).
  destruct (write_succeeds_among (active s) (archive s) f2 c2 (notes_updated s)
              [] [] (next_promise s) tr2 [fl2] fl1 _ _ el1 bw1 v1 Hsub Hp1 Ho1)
    as (tr3 & flA & flR & Hs3 & HpA & HpR).
  cbn [app] in Hs3.
  destruct (write_succeeds_among (active s) (archive s) f2 c2 (notes_updated s)
              [next_promise s]
              [(next_promise s,
                HelperLoading.hideLoading (Some el1)
                  (getButttonTextForOperation (intent_operation i1)))]
              (S (next_promise s)) tr3
              (map (fun x => match x with
                             | active_note => flA
                             | archive_note => flR
                             end) (notes_updated s))
              fl2 _ _ el2 bw2 v2 Hsub Hp2 Ho2)
    as (tr4 & flA' & flR' & Hs4 & HpA' & HpR').
  rewrite HpA in HpA'. injection HpA' as <-.
  rewrite HpR in HpR'. injection HpR' as <-.
  cbn [app] in Hs4.
  destruct (always_outcome getActiveNote (NoteId "") ba) as (oa & Hoa).
  assert (Hpq : next_promise s <> S (next_promise s)) by lia.
  pose proof (parked_url _ _ HpA) as HuA. pose proof (parked_url _ _ HpR) as HuR.
  destruct Hsub as [H | H]; rewrite H in *; cbn [map position app] in *.
  - destruct (acknowledgement_restores_both (active s) (archive s) f2 c2
                [active_note; archive_note] (next_promise s) (S (next_promise s))
                (S (S (next_promise s))) tr4 [] [flR; flA; flR] flA
                el1 (getButttonTextForOperation (intent_operation i1))
                el2 (getButttonTextForOperation (intent_operation i2))
                ba oa Hpq Hne (label_filled _) (label_filled _) HpA Hoa)
      as (a' & c5 & tr5 & Hs5 & Hidle1 & Hidle2).
    do 2 eexists. split.
    { cbn [run]. rewrite Hs1, Hs2, Hs3, Hs4. reflexivity. }
    cbn [controls requests map app].
    split; [exact Hbusy1' |]. split; [exact Hbusy2 |].
    split; [rewrite HuA, HuR; reflexivity |].
    split; [exact Hs5 |]. split; [exact Hidle1 |]. split; [exact Hidle2 |].
    cbn [requests app map]. rewrite HuA, HuR. reflexivity.
  - destruct (acknowledgement_restores_both (active s) (archive s) f2 c2
                [archive_note; active_note] (next_promise s) (S (next_promise s))
                (S (S (next_promise s))) tr4 [flR] [flR; flA] flA
                el1 (getButttonTextForOperation (intent_operation i1))
                el2 (getButttonTextForOperation (intent_operation i2))
                ba oa Hpq Hne (label_filled _) (label_filled _) HpA Hoa)
      as (a' & c5 & tr5 & Hs5 & Hidle1 & Hidle2).
    do 2 eexists. split.
    { cbn [run]. rewrite Hs1, Hs2, Hs3, Hs4. reflexivity. }
    cbn [controls requests map app].
    split; [exact Hbusy1' |]. split; [exact Hbusy2 |].
    split; [rewrite HuA, HuR; reflexivity |].
    split; [exact Hs5 |]. split; [exact Hidle1 |]. split; [exact Hidle2 |].
    cbn [requests app map]. rewrite HuA, HuR. reflexivity.
Qed.

(** On the sample page: a delete and an archive, both confirmed, then the
    first list for the active-set view. *)
Lemma one_acknowledgement_restores_every_waiting_control_witness :
  exists s4 s5,
    run loaded_page
      [DeleteClicked "notes-1" (Some 7); ArchiveClicked "notes-2" (Some 8);
       Settles 0 confirms; Settles 0 confirms] = Some s4
    /\ step s4 (Settles 0 (serves [newer])) = Some s5
    /\ controls s5 7 = idle "Delete"
    /\ controls s5 8 = idle "Archive"
    /\ count (String.eqb (view_url active_note))
         (map (fun fl => url (fl_request fl)) (requests s5)) = 1.
Proof.
  destruct (one_acknowledgement_restores_every_waiting_control
              loaded_page (DeleteClicked "notes-1" (Some 7))
              (ArchiveClicked "notes-2" (Some 8)) _ _ 7 8
              confirms confirms (serves [newer])
              (Handle (mkResponse 200 (JsonBody (JObj [("status", JStr "success")]))))
              (Handle (mkResponse 200 (JsonBody (JObj [("status", JStr "success")]))))
              loaded_page_quiescent loaded_page_subscribed
              eq_refl eq_refl (fun _ => eq_refl) eq_refl
              ltac:(discriminate) eq_refl eq_refl)
    as (s4 & s5 & H4 & _ & _ & _ & H5 & Hi1 & Hi2 & Hleft).
  exists s4, s5. split; [exact H4 |]. split; [exact H5 |].
  split; [exact Hi1 |]. split; [exact Hi2 | exact Hleft].
Defined.

(** ** The creation form: the counter *)

(** The counter of the form follows the title.  It shows 50 minus the
    length of the title when the page starts, and every event of the page
    other than the settlement of a request keeps it so: typing in the title
    recomputes it, without clamping it at zero, a submit resets the title
    and the counter together, and nothing else writes either of them. *)
Theorem counter_tracks_title_length :
  (forall c button, counter_in_step (form (initial c button)))
  /\ (forall s ev,
        (forall i b, ev <> Settles i b) ->
        counter_in_step (form s) ->
        exists s', step s ev = Some s' /\ counter_in_step (form s')).
Proof.
  split; [intros c button; reflexivity |].
  intros s ev Hev Hinv.
  destruct s as [a r f c nu uc st aw rq np tr]. cbn [form] in Hinv.
  destruct ev as [v | value | | value | | | id button | id button | id button | i b].
  - destruct (view_connects v a r f c nu uc st aw rq np tr) as (fl & tr' & Hs & _).
    eexists. split; [exact Hs |]. destruct v; exact Hinv.
  - eexists. split; [exec_run; reflexivity |]. reflexivity.
  - destruct (Z.of_nat (String.length (trim (titleInput f))) <? 3)%Z eqn:Htest;
      (eexists; split;
       [ exec_run; unfold MakeNote.validateTitle, MakeNote._titleMinLength;
         rewrite Htest; exec_run; reflexivity
       | exact Hinv ]).
  - eexists. split; [reflexivity |]. exact Hinv.
  - destruct (Z.of_nat (String.length (trim (contentInput f))) <? 10)%Z eqn:Htest;
      (eexists; split;
       [ exec_run; unfold MakeNote.validateContent, MakeNote._contentMinLength;
         rewrite Htest; exec_run; reflexivity
       | exact Hinv ]).
  - eexists. split; [exec_run; reflexivity |]. reflexivity.
  - destruct button; (eexists; split; [exec_run; reflexivity | exact Hinv]).
  - destruct button; (eexists; split; [exec_run; reflexivity | exact Hinv]).
  - destruct button; (eexists; split; [exec_run; reflexivity | exact Hinv]).
  - now contradiction (Hev i b).
Qed.

(** Sixty characters typed on the sample page: the counter is below
    zero. *)
Lemma counter_tracks_title_length_witness :
  exists s',
    step sample_page
      (TitleInput "123456789012345678901234567890123456789012345678901234567890")
      = Some s'
    /\ charCountSpan (form s') = "Remaining Character: -10".
Proof.
  destruct counter_tracks_title_length as (Hstart & Hkeep).
  destruct (Hkeep sample_page
              (TitleInput "123456789012345678901234567890123456789012345678901234567890")
              ltac:(intros i b; discriminate) (Hstart _ _))
    as (s' & Hs & Hinv).
  exists s'. split; [exact Hs |].
  rewrite Hinv. vm_compute in Hs. injection Hs as <-. reflexivity.
Defined.
